(** * Local Food Wastage Management System

    A shallow embedding of the storage layer ([database_setup.py]), the
    query layer ([sql_queries.py]) and the maintenance utilities
    ([database_utils.py]).

    The Python methods are thin wrappers around SQL statements, so the
    embedding has two levels:

    - the SQL statements, written as functions over the rows of the four
      tables (joins, three-valued comparisons, GROUP BY, aggregates,
      ORDER BY), and
    - the Python methods, written in a small monad that carries the
      storage file, the open connection, the standard output and the
      data directory, and in which exceptions are raised and caught as
      the methods do it.

    Conventions.  A column holds values of its declared type; a column
    without NOT NULL is an [option]; a date is held as the text that was
    stored.  INTEGER values are integers, and a SUM that leaves the 64
    bits of the engine fails as the engine's does.  REAL values
    (percentages, Julian days) are exact rationals.  The engine's reader
    of date strings, [julianday], is a parameter of the development. *)

From Stdlib Require Import List ZArith QArith Qround Qabs String Ascii Bool.
From Stdlib Require Import Permutation Sorted Lia Lqa DecimalString.
Import ListNotations.

Local Open Scope string_scope.
Local Open Scope Z_scope.

(** ** The four tables ([create_tables]) *)

Module Provider.
Record row := {
  Provider_ID : Z;              (* INTEGER PRIMARY KEY *)
  Name : string;                (* TEXT NOT NULL *)
  Type_ : string;               (* TEXT NOT NULL *)
  Address : option string;      (* TEXT *)
  City : string;                (* TEXT NOT NULL *)
  Contact : option string       (* TEXT *)
}.
End Provider.

Module Receiver.
Record row := {
  Receiver_ID : Z;              (* INTEGER PRIMARY KEY *)
  Name : string;                (* TEXT NOT NULL *)
  Type_ : string;               (* TEXT NOT NULL *)
  City : string;                (* TEXT NOT NULL *)
  Contact : option string       (* TEXT *)
}.
End Receiver.

(** [Expiry_Date] is the text the writers of the repository store: the
    text of the CSV column, as [to_sql] writes it into the TEXT column it
    creates, or the YYYY-MM-DD text of the date the dashboard passes.
    (The DATE column of [create_tables] would hold a number handed to it
    as a number, and order it before every text; the rows of this model
    hold no such value.) *)
Module FoodListing.
Record row := {
  Food_ID : Z;                  (* INTEGER PRIMARY KEY *)
  Food_Name : string;           (* TEXT NOT NULL *)
  Quantity : Z;                 (* INTEGER NOT NULL *)
  Expiry_Date : option string;  (* DATE *)
  Provider_ID : option Z;       (* INTEGER, REFERENCES providers *)
  Provider_Type : option string;
  Location : option string;
  Food_Type : option string;
  Meal_Type : option string
}.
End FoodListing.

Module Claim.
Record row := {
  Claim_ID : Z;                 (* INTEGER PRIMARY KEY *)
  Food_ID : option Z;           (* INTEGER, REFERENCES food_listings *)
  Receiver_ID : option Z;       (* INTEGER, REFERENCES receivers *)
  Status : option string;       (* TEXT *)
  Timestamp : option string     (* DATETIME *)
}.
End Claim.

(** The contents of the database file: each table is absent ([None]) or
    holds a list of rows. *)
Record Database := {
  providers : option (list Provider.row);
  receivers : option (list Receiver.row);
  food_listings : option (list FoodListing.row);
  claims : option (list Claim.row)
}.

Definition set_providers (t : option (list Provider.row)) (db : Database) : Database :=
  {| providers := t; receivers := receivers db;
     food_listings := food_listings db; claims := claims db |}.

Definition set_receivers (t : option (list Receiver.row)) (db : Database) : Database :=
  {| providers := providers db; receivers := t;
     food_listings := food_listings db; claims := claims db |}.

Definition set_food_listings (t : option (list FoodListing.row)) (db : Database) : Database :=
  {| providers := providers db; receivers := receivers db;
     food_listings := t; claims := claims db |}.

Definition set_claims (t : option (list Claim.row)) (db : Database) : Database :=
  {| providers := providers db; receivers := receivers db;
     food_listings := food_listings db; claims := t |}.

(** ** Exceptions and results *)

(** The exception classes the three files meet; all derive from
    [Exception]. *)
Inductive ExcClass :=
| sqlite3_Error            (* sqlite3.Error and its subclasses *)
| pandas_DatabaseError     (* raised by pandas around a failed statement *)
| pandas_ParserError       (* raised by pd.read_csv on a file it cannot parse *)
| FileNotFoundError        (* raised by pd.read_csv on a missing file *)
| plain_Exception.         (* raise Exception("...") *)

Record PyExc := { exc_class : ExcClass; str : string }.

Inductive outcome (A : Type) :=
| Returned (a : A)
| Raised (e : PyExc).
Arguments Returned {A} a.
Arguments Raised {A} e.

Definition obind {A B} (m : outcome A) (k : A -> outcome B) : outcome B :=
  match m with
  | Returned a => k a
  | Raised e => Raised e
  end.

Notation "'let*' x ':=' m 'in' k" := (obind m (fun x => k))
  (at level 10, x name, m at level 100, k at level 200).

(** A pandas DataFrame: named columns and rows.  [pd.DataFrame()] has
    neither. *)
Record DataFrame (A : Type) := { columns : list string; rows : list A }.
Arguments columns {A} d.
Arguments rows {A} d.

Definition pd_DataFrame {A} : DataFrame A := {| columns := []; rows := [] |}.

Definition empty {A} (df : DataFrame A) : bool :=
  match rows df with [] => true | _ => false end.

(** ** The world of a method call *)

(** What ['now'] evaluates to in a statement. *)
Record Clock := {
  julianday_now : Q;     (* julianday('now') *)
  date_now : string      (* date('now') *)
}.

(** A CSV file of the data directory: it parses to rows or it does not. *)
Inductive CsvFile (R : Type) :=
| Unreadable
| Parsed (content : list R).
Arguments Unreadable {R}.
Arguments Parsed {R} content.

Record DataDir := {
  providers_data_csv : option (CsvFile Provider.row);
  receivers_data_csv : option (CsvFile Receiver.row);
  food_listings_data_csv : option (CsvFile FoodListing.row);
  claims_data_csv : option (CsvFile Claim.row)
}.

Record World := {
  disk : option Database;    (* the database file; None: it cannot be opened *)
  conn : option Database;    (* what the open connection sees; None: closed *)
  stdout : list string;      (* lines printed so far *)
  clock : Clock;
  data : DataDir
}.

Definition set_disk (d : option Database) (w : World) : World :=
  {| disk := d; conn := conn w; stdout := stdout w; clock := clock w; data := data w |}.

Definition set_conn (c : option Database) (w : World) : World :=
  {| disk := disk w; conn := c; stdout := stdout w; clock := clock w; data := data w |}.

Definition add_stdout (line : string) (w : World) : World :=
  {| disk := disk w; conn := conn w; stdout := stdout w ++ [line];
     clock := clock w; data := data w |}.

(** ** The monad of Python methods *)

Definition Py (A : Type) : Type := World -> outcome A * World.

Definition ret {A} (a : A) : Py A := fun w => (Returned a, w).

Definition bind {A B} (m : Py A) (k : A -> Py B) : Py B :=
  fun w =>
    match m w with
    | (Returned a, w') => k a w'
    | (Raised e, w') => (Raised e, w')
    end.

Definition raise {A} (e : PyExc) : Py A := fun w => (Raised e, w).

Declare Scope py_scope.
Delimit Scope py_scope with py.
Notation "x <- m ;; k" := (bind m (fun x => k))
  (at level 100, m at next level, right associativity) : py_scope.
Notation "m ;; k" := (bind m (fun _ => k))
  (at level 100, right associativity) : py_scope.
Local Open Scope py_scope.

(** [try: body except Exception as e: handler e] *)
Definition try_except {A} (body : Py A) (handler : PyExc -> Py A) : Py A :=
  fun w =>
    match body w with
    | (Returned a, w') => (Returned a, w')
    | (Raised e, w') => handler e w'
    end.

(** [try: body except sqlite3.Error as e: handler e] *)
Definition try_except_sqlite3_Error {A} (body : Py A) (handler : PyExc -> Py A) : Py A :=
  fun w =>
    match body w with
    | (Returned a, w') => (Returned a, w')
    | (Raised e, w') =>
        match exc_class e with
        | sqlite3_Error => handler e w'
        | _ => (Raised e, w')
        end
    end.

(** [try: body finally: final] *)
Definition try_finally {A} (body : Py A) (final : Py unit) : Py A :=
  fun w =>
    match body w with
    | (r, w') =>
        match final w' with
        | (Returned _, w'') => (r, w'')
        | (Raised e, w'') => (Raised e, w'')
        end
    end.

Definition print (line : string) : Py unit :=
  fun w => (Returned tt, add_stdout line w).

Definition Exception {A} (msg : string) : Py A :=
  raise {| exc_class := plain_Exception; str := msg |}.

(** [f"{n}"] for an integer. *)
Definition fmt (n : Z) : string := NilZero.string_of_int (Z.to_int n).

(** ** sqlite3 and pandas *)

Definition unable_to_open : PyExc :=
  {| exc_class := sqlite3_Error; str := "unable to open database file" |}.

Definition closed_database : PyExc :=
  {| exc_class := sqlite3_Error; str := "Cannot operate on a closed database." |}.

Definition no_such_table (t : string) : PyExc :=
  {| exc_class := sqlite3_Error; str := "no such table: " ++ t |}.

(** [sqlite3.connect(self.db_path)] *)
Definition sqlite3_connect : Py unit :=
  fun w =>
    match disk w with
    | Some db => (Returned tt, set_conn (Some db) w)
    | None => (Raised unable_to_open, w)
    end.

(** [cursor.execute] of a SELECT, with the fetch of its result. *)
Definition execute_select {A} (stmt : Clock -> Database -> outcome A) : Py A :=
  fun w =>
    match conn w with
    | Some db => (stmt (clock w) db, w)
    | None => (Raised closed_database, w)
    end.

(** [cursor.execute] of a DELETE: it changes what the connection sees,
    the file changes at [commit]. *)
Definition execute_update (stmt : Clock -> Database -> outcome Database) : Py unit :=
  fun w =>
    match conn w with
    | Some db =>
        match stmt (clock w) db with
        | Returned db' => (Returned tt, set_conn (Some db') w)
        | Raised e => (Raised e, w)
        end
    | None => (Raised closed_database, w)
    end.

(** [cursor.execute] of a CREATE TABLE: the sqlite3 module opens no
    transaction for it, so it reaches the file at once. *)
Definition execute_ddl (stmt : Database -> outcome Database) : Py unit :=
  fun w =>
    match conn w with
    | Some db =>
        match stmt db with
        | Returned db' => (Returned tt, set_disk (Some db') (set_conn (Some db') w))
        | Raised e => (Raised e, w)
        end
    | None => (Raised closed_database, w)
    end.

(** [conn.commit()] *)
Definition commit : Py unit :=
  fun w =>
    match conn w with
    | Some db => (Returned tt, set_disk (Some db) w)
    | None => (Raised closed_database, w)
    end.

(** [conn.close()]: what was not committed is lost. *)
Definition close : Py unit :=
  fun w => (Returned tt, set_conn None w).

(** FROM a table. *)
Definition FROM {R} (name : string) (table : option (list R)) : outcome (list R) :=
  match table with
  | Some rs => Returned rs
  | None => Raised (no_such_table name)
  end.

(** ** SQL expressions over nullable values *)

(** A comparison with a NULL operand is NULL, which WHERE, ON and CASE
    WHEN treat as not true: these give [true] exactly when the SQL
    comparison is true. *)
Definition sql_eq_int (a b : option Z) : bool :=
  match a, b with
  | Some x, Some y => x =? y
  | _, _ => false
  end.

Definition sql_eq_text (a b : option string) : bool :=
  match a, b with
  | Some x, Some y => String.eqb x y
  | _, _ => false
  end.

(** [a < b] on TEXT: the byte order of the two strings. *)
Definition sql_lt_text (a b : option string) : bool :=
  match a, b with
  | Some x, Some y => String.ltb x y
  | _, _ => false
  end.

(** A column of the right-hand side of a LEFT JOIN: NULL on a padded row. *)
Definition col {R B} (f : R -> option B) (r : option R) : option B :=
  match r with
  | Some x => f x
  | None => None
  end.

Definition IS_NULL {B} (v : option B) : bool :=
  match v with None => true | Some _ => false end.

Definition IS_NOT_NULL {B} (v : option B) : bool := negb (IS_NULL v).

(** [NULLIF(x, 0)] *)
Definition NULLIF0 (x : option Z) : option Z :=
  match x with
  | Some 0 => None
  | _ => x
  end.

(** [x * 100.0 / y]: NULL when an operand is NULL or the divisor is zero. *)
Definition percent_of (x y : option Z) : option Q :=
  match x, y with
  | Some a, Some b =>
      if b =? 0 then None else Some (inject_Z a * 100 / inject_Z b)%Q
  | _, _ => None
  end.

(** [ROUND(x, digits)]: to the nearest multiple of [10^-digits], a half
    away from zero. *)
Definition ROUND (x : Q) (digits : nat) : Q :=
  let scale := inject_Z (10 ^ Z.of_nat digits) in
  if Qle_bool 0 x
  then (inject_Z (Qfloor (x * scale + (1 # 2))) / scale)%Q
  else (- (inject_Z (Qfloor (- x * scale + (1 # 2))) / scale))%Q.

Definition ROUND_null (x : option Q) (digits : nat) : option Q :=
  option_map (fun q => ROUND q digits) x.

(** ** Joins, grouping, aggregates, ordering *)

Definition JOIN {A B} (l : list A) (r : list B) (on : A -> B -> bool) : list (A * B) :=
  flat_map (fun a => map (pair a) (filter (on a) r)) l.

Definition LEFT_JOIN {A B} (l : list A) (r : list B) (on : A -> B -> bool)
  : list (A * option B) :=
  flat_map (fun a =>
              match filter (on a) r with
              | [] => [(a, None)]
              | matches => map (fun b => (a, Some b)) matches
              end) l.

Section Grouping.
Context {A K : Type} (K_eq_dec : forall x y : K, {x = y} + {x <> y}).

Definition same_key (key : A -> K) (k : K) (a : A) : bool :=
  if K_eq_dec (key a) k then true else false.

(** GROUP BY: one group per distinct key, holding the rows of that key.
    (NULL keys are equal to each other for GROUP BY.) *)
Definition GROUP_BY (key : A -> K) (l : list A) : list (K * list A) :=
  map (fun k => (k, filter (same_key key k) l)) (nodup K_eq_dec (map key l)).

End Grouping.

(** [COUNT(column)]: the rows where the column is not NULL. *)
Definition COUNT {A B} (column : A -> option B) (g : list A) : Z :=
  Z.of_nat (List.length (filter (fun a => IS_NOT_NULL (column a)) g)).

(** [COUNT( * )] *)
Definition COUNT_star {A} (g : list A) : Z := Z.of_nat (List.length g).

(** The values of a column that are not NULL. *)
Definition values {A B} (column : A -> option B) (g : list A) : list B :=
  flat_map (fun a => match column a with Some b => [b] | None => [] end) g.

(** [SUM(expr)] over integers: NULL when no row has a value.  This is the
    number the engine returns when it returns one; whether it does is
    [SUM_overflows] below. *)
Definition SUM {A} (expr : A -> option Z) (g : list A) : option Z :=
  fold_right (fun a acc =>
                match expr a, acc with
                | Some x, Some s => Some (x + s)
                | Some x, None => Some x
                | None, _ => acc
                end) None g.

(** The engine adds an integer SUM up row by row in a signed 64-bit
    accumulator; once a partial sum leaves the 64 bits the aggregate, and
    with it the statement, fails with "integer overflow".  (AVG adds up the
    same way but goes on in floating point, and never fails.)  The order
    of the rows is the engine's; it makes no difference when no value is
    negative.  A SUM of 0s and 1s is at most the number of rows and stays
    within the 64 bits: reports 8 and 9, whose sums are such counts, have no
    check. *)
Definition int64_min : Z := - 2 ^ 63.
Definition int64_max : Z := 2 ^ 63 - 1.

Definition in_int64 (z : Z) : bool := (int64_min <=? z) && (z <=? int64_max).

Definition integer_overflow : PyExc :=
  {| exc_class := sqlite3_Error; str := "integer overflow" |}.

Fixpoint overflows_from (acc : Z) (vs : list Z) : bool :=
  match vs with
  | [] => false
  | v :: vs' => if in_int64 (acc + v) then overflows_from (acc + v) vs' else true
  end.

Definition SUM_overflows {A} (expr : A -> option Z) (g : list A) : bool :=
  overflows_from 0 (values expr g).

(** The result of a statement with SUMs: the error when one of them
    overflows. *)
Definition unless_overflow {A} (overflow : bool) (result : outcome A) : outcome A :=
  if overflow then Raised integer_overflow else result.

Fixpoint insert_by {A} (leb : A -> A -> bool) (x : A) (l : list A) : list A :=
  match l with
  | [] => [x]
  | y :: l' => if leb x y then x :: l else y :: insert_by leb x l'
  end.

(** ORDER BY, as a stable insertion sort ([leb a b]: [a] may come before
    [b]).  The engine fixes no order among rows with equal keys; the
    theorems below only use that the result is ordered and holds the
    same rows. *)
Fixpoint ORDER_BY {A} (leb : A -> A -> bool) (l : list A) : list A :=
  match l with
  | [] => []
  | x :: l' => insert_by leb x (ORDER_BY leb l')
  end.

(** The order of nullable integers: NULL is smaller than any value. *)
Definition Zleb_null (a b : option Z) : bool :=
  match a, b with
  | None, _ => true
  | Some _, None => false
  | Some x, Some y => x <=? y
  end.

(** The order of nullable TEXT values: NULL first, then byte order. *)
Definition textleb_null (a b : option string) : bool :=
  match a, b with
  | None, _ => true
  | Some _, None => false
  | Some x, Some y => String.leb x y
  end.

Definition ASC {A K} (kleb : K -> K -> bool) (key : A -> K) (a b : A) : bool :=
  kleb (key a) (key b).

Definition DESC {A K} (kleb : K -> K -> bool) (key : A -> K) (a b : A) : bool :=
  kleb (key b) (key a).

(** ** A statement: its text and what the engine computes for it *)

Inductive SqlValue :=
| Null
| Integer (z : Z)
| Text (s : string).

Record Statement (A : Type) := {
  sql : string;
  run : list SqlValue -> Clock -> Database -> outcome (DataFrame A)
}.
Arguments sql {A} s.
Arguments run {A} s.

Definition wrong_bindings : PyExc :=
  {| exc_class := sqlite3_Error;
     str := "Incorrect number of bindings supplied." |}.

(** A statement without placeholders takes no parameters. *)
Definition no_params {A} (params : list SqlValue) (r : outcome A) : outcome A :=
  match params with
  | [] => r
  | _ => Raised wrong_bindings
  end.

(** [pd.read_sql_query(query, conn, params=params)]: pandas hands the
    text and the parameters to the engine and wraps its errors. *)
Definition pd_read_sql_query {A} (query : Statement A) (params : list SqlValue)
  : Py (DataFrame A) :=
  fun w =>
    match conn w with
    | Some db =>
        match run query params (clock w) db with
        | Returned df => (Returned df, w)
        | Raised e =>
            (Raised {| exc_class := pandas_DatabaseError;
                       str := "Execution failed on sql '" ++ sql query ++ "': " ++ str e |},
             w)
        end
    | None => (Raised closed_database, w)
    end.

(** ** [sql_queries.py]: [SQLQueries.execute_query] *)

Definition execute_query {A} (query : Statement A) (params : option (list SqlValue))
  : Py (DataFrame A) :=
  try_except
    (sqlite3_connect ;;
     df <- match params with
           | Some (v :: vs) => pd_read_sql_query query (v :: vs)
           | _ => pd_read_sql_query query []
           end ;;
     close ;;
     ret df)
    (fun e =>
       print ("Error executing query: " ++ str e) ;;
       ret pd_DataFrame).

(** ** [sql_queries.py]: the reports *)

(** The GROUP BY key of reports 9 and 13:
    [p.Provider_ID, p.Name, p.Type, p.City]. *)
Definition provider_key (p : Provider.row) : Z * string * string * string :=
  (Provider.Provider_ID p, Provider.Name p, Provider.Type_ p, Provider.City p).

Definition provider_key_eq_dec (x y : Z * string * string * string) : {x = y} + {x <> y}.
Proof. repeat decide equality. Defined.

Definition status_eq_dec (x y : option string) : {x = y} + {x <> y}.
Proof. repeat decide equality. Defined.

(** [c.Claim_ID] on the right of a LEFT JOIN. *)
Definition Claim_ID_of (c : option Claim.row) : option Z :=
  col (fun c => Some (Claim.Claim_ID c)) c.

(** [CASE WHEN c.Status = 'Completed' THEN 1 ELSE 0 END] *)
Definition completed_1_else_0 (c : option Claim.row) : option Z :=
  if sql_eq_text (col Claim.Status c) (Some "Completed") then Some 1 else Some 0.

(** *** Report 9 *)

Module Report9.
Record row := {
  Name : string;
  Type_ : string;
  City : string;
  Total_Claims : Z;
  Successful_Claims : option Z;
  Success_Rate_Percent : option Q
}.
End Report9.

Definition select_9 (ps : list Provider.row) (fls : list FoodListing.row)
  (cs : list Claim.row) : list Report9.row :=
  let p_fl :=
    JOIN ps fls
      (fun p fl => sql_eq_int (Some (Provider.Provider_ID p)) (FoodListing.Provider_ID fl)) in
  let p_fl_c :=
    LEFT_JOIN p_fl cs
      (fun r c => sql_eq_int (Some (FoodListing.Food_ID (snd r))) (Claim.Food_ID c)) in
  let kept := filter (fun r => IS_NOT_NULL (Claim_ID_of (snd r))) p_fl_c in
  let groups := GROUP_BY provider_key_eq_dec (fun r => provider_key (fst (fst r))) kept in
  ORDER_BY (DESC Zleb_null Report9.Successful_Claims)
    (map (fun g =>
            let '(_, name, type, city) := fst g in
            {| Report9.Name := name;
               Report9.Type_ := type;
               Report9.City := city;
               Report9.Total_Claims := COUNT (fun r => Claim_ID_of (snd r)) (snd g);
               Report9.Successful_Claims :=
                 SUM (fun r => completed_1_else_0 (snd r)) (snd g);
               Report9.Success_Rate_Percent :=
                 ROUND_null
                   (percent_of (SUM (fun r => completed_1_else_0 (snd r)) (snd g))
                               (NULLIF0 (Some (COUNT (fun r => Claim_ID_of (snd r)) (snd g)))))
                   2 |})
         groups).

Definition query_9 : Statement Report9.row := {|
  sql := "
        SELECT 
            p.Name,
            p.Type,
            p.City,
            COUNT(c.Claim_ID) as Total_Claims,
            SUM(CASE WHEN c.Status = 'Completed' THEN 1 ELSE 0 END) as Successful_Claims,
            ROUND(
                (SUM(CASE WHEN c.Status = 'Completed' THEN 1.0 ELSE 0 END) * 100.0 / 
                 NULLIF(COUNT(c.Claim_ID), 0)), 2
            ) as Success_Rate_Percent
        FROM providers p
        JOIN food_listings fl ON p.Provider_ID = fl.Provider_ID
        LEFT JOIN claims c ON fl.Food_ID = c.Food_ID
        WHERE c.Claim_ID IS NOT NULL
        GROUP BY p.Provider_ID, p.Name, p.Type, p.City
        ORDER BY Successful_Claims DESC
        ";
  run := fun params _ db =>
    no_params params
      (let* ps := FROM "providers" (providers db) in
       let* fls := FROM "food_listings" (food_listings db) in
       let* cs := FROM "claims" (claims db) in
       Returned {| columns := ["Name"; "Type"; "City"; "Total_Claims";
                               "Successful_Claims"; "Success_Rate_Percent"];
                   rows := select_9 ps fls cs |})
|}.

Definition query_9_successful_providers : Py (DataFrame Report9.row) :=
  execute_query query_9 None.

(** *** Report 10 *)

Module Report10.
Record row := {
  Status : option string;
  Count : Z;
  Percentage : option Q
}.
End Report10.

Definition select_10 (cs : list Claim.row) : list Report10.row :=
  ORDER_BY (DESC Z.leb Report10.Count)
    (map (fun g =>
            {| Report10.Status := fst g;
               Report10.Count := COUNT_star (snd g);
               Report10.Percentage :=
                 ROUND_null
                   (percent_of (Some (COUNT_star (snd g))) (Some (COUNT_star cs))) 2 |})
         (GROUP_BY status_eq_dec Claim.Status cs)).

Definition query_10 : Statement Report10.row := {|
  sql := "
        SELECT 
            Status,
            COUNT(*) as Count,
            ROUND((COUNT(*) * 100.0 / (SELECT COUNT(*) FROM claims)), 2) as Percentage
        FROM claims
        GROUP BY Status
        ORDER BY Count DESC
        ";
  run := fun params _ db =>
    no_params params
      (let* cs := FROM "claims" (claims db) in
       Returned {| columns := ["Status"; "Count"; "Percentage"];
                   rows := select_10 cs |})
|}.

Definition query_10_claim_status_distribution : Py (DataFrame Report10.row) :=
  execute_query query_10 None.

(** *** Report 13 *)

Module Report13.
Record row := {
  Name : string;
  Type_ : string;
  City : string;
  Items_Listed : Z;
  Total_Quantity_Listed : option Z;
  Quantity_Donated : option Z;
  Donation_Rate_Percent : option Q
}.
End Report13.

(** [fl.Food_ID] and [fl.Quantity] on the right of a LEFT JOIN. *)
Definition Food_ID_of (fl : option FoodListing.row) : option Z :=
  col (fun fl => Some (FoodListing.Food_ID fl)) fl.

Definition Quantity_of (fl : option FoodListing.row) : option Z :=
  col (fun fl => Some (FoodListing.Quantity fl)) fl.

(** [CASE WHEN c.Status = 'Completed' THEN fl.Quantity ELSE 0 END] *)
Definition completed_quantity_else_0 (fl : option FoodListing.row) (c : option Claim.row)
  : option Z :=
  if sql_eq_text (col Claim.Status c) (Some "Completed") then Quantity_of fl else Some 0.

(** [FROM providers p LEFT JOIN food_listings fl ON ... LEFT JOIN claims c
    ON ... GROUP BY p.Provider_ID, p.Name, p.Type, p.City] *)
Definition groups_13 (ps : list Provider.row) (fls : list FoodListing.row)
  (cs : list Claim.row)
  : list (Z * string * string * string *
          list (Provider.row * option FoodListing.row * option Claim.row)) :=
  let p_fl :=
    LEFT_JOIN ps fls
      (fun p fl => sql_eq_int (Some (Provider.Provider_ID p)) (FoodListing.Provider_ID fl)) in
  let p_fl_c :=
    LEFT_JOIN p_fl cs
      (fun r c => sql_eq_int (Food_ID_of (snd r)) (Claim.Food_ID c)) in
  GROUP_BY provider_key_eq_dec (fun r => provider_key (fst (fst r))) p_fl_c.

Definition select_13 (ps : list Provider.row) (fls : list FoodListing.row)
  (cs : list Claim.row) : list Report13.row :=
  let groups := groups_13 ps fls cs in
  ORDER_BY (DESC Zleb_null Report13.Quantity_Donated)
    (map (fun g =>
            let '(_, name, type, city) := fst g in
            {| Report13.Name := name;
               Report13.Type_ := type;
               Report13.City := city;
               Report13.Items_Listed := COUNT (fun r => Food_ID_of (snd (fst r))) (snd g);
               Report13.Total_Quantity_Listed :=
                 SUM (fun r => Quantity_of (snd (fst r))) (snd g);
               Report13.Quantity_Donated :=
                 SUM (fun r => completed_quantity_else_0 (snd (fst r)) (snd r)) (snd g);
               Report13.Donation_Rate_Percent :=
                 ROUND_null
                   (percent_of
                      (SUM (fun r => completed_quantity_else_0 (snd (fst r)) (snd r)) (snd g))
                      (NULLIF0 (SUM (fun r => Quantity_of (snd (fst r))) (snd g))))
                   2 |})
         groups).

(** One of the two SUMs of a group overflows. *)
Definition overflows_13 (ps : list Provider.row) (fls : list FoodListing.row)
  (cs : list Claim.row) : bool :=
  existsb (fun g =>
             SUM_overflows (fun r => Quantity_of (snd (fst r))) (snd g)
             || SUM_overflows (fun r => completed_quantity_else_0 (snd (fst r)) (snd r))
                  (snd g))
          (groups_13 ps fls cs).

Definition query_13 : Statement Report13.row := {|
  sql := "
        SELECT 
            p.Name,
            p.Type,
            p.City,
            COUNT(fl.Food_ID) as Items_Listed,
            SUM(fl.Quantity) as Total_Quantity_Listed,
            SUM(CASE WHEN c.Status = 'Completed' THEN fl.Quantity ELSE 0 END) as Quantity_Donated,
            ROUND(
                (SUM(CASE WHEN c.Status = 'Completed' THEN fl.Quantity ELSE 0 END) * 100.0 / 
                 NULLIF(SUM(fl.Quantity), 0)), 2
            ) as Donation_Rate_Percent
        FROM providers p
        LEFT JOIN food_listings fl ON p.Provider_ID = fl.Provider_ID
        LEFT JOIN claims c ON fl.Food_ID = c.Food_ID
        GROUP BY p.Provider_ID, p.Name, p.Type, p.City
        ORDER BY Quantity_Donated DESC
        ";
  run := fun params _ db =>
    no_params params
      (let* ps := FROM "providers" (providers db) in
       let* fls := FROM "food_listings" (food_listings db) in
       let* cs := FROM "claims" (claims db) in
       unless_overflow (overflows_13 ps fls cs)
         (Returned {| columns := ["Name"; "Type"; "City"; "Items_Listed";
                                  "Total_Quantity_Listed"; "Quantity_Donated";
                                  "Donation_Rate_Percent"];
                      rows := select_13 ps fls cs |}))
|}.

Definition query_13_provider_donations : Py (DataFrame Report13.row) :=
  execute_query query_13 None.

(** *** Reports 14 and 15 *)

Definition Qltb (x y : Q) : bool := negb (Qle_bool y x).

(** The order of nullable REAL values: NULL first. *)
Definition Qleb_null (a b : option Q) : bool :=
  match a, b with
  | None, _ => true
  | Some _, None => false
  | Some x, Some y => Qle_bool x y
  end.

(** [d < n] and [d <= n] for a nullable [d]: not true when [d] is NULL. *)
Definition sql_lt_real (d : option Q) (n : Q) : bool :=
  match d with Some x => Qltb x n | None => false end.

Definition sql_le_real (d : option Q) (n : Q) : bool :=
  match d with Some x => Qle_bool x n | None => false end.

Module Report14.
Record row := {
  Food_Name : string;
  Quantity : Z;
  Expiry_Date : option string;
  Location : option string;
  Food_Type : option string;
  Meal_Type : option string;
  Days_Until_Expiry : option Q;
  Status : string
}.
End Report14.

Module Report15.
Record row := {
  Food_Name : string;
  Quantity : Z;
  Expiry_Date : option string;
  Location : option string;
  Food_Type : option string;
  Meal_Type : option string;
  Provider_Name : string;
  Provider_Contact : option string;
  Days_Until_Expiry : option Q
}.
End Report15.

(** The CASE of report 14 over [julianday(Expiry_Date) - julianday('now')]. *)
Definition expiry_status (d : option Q) : string :=
  if sql_lt_real d 0 then "Expired"
  else if sql_le_real d 1 then "Critical"
  else if sql_le_real d 3 then "Warning"
  else "Safe".

Section Engine.

(** The engine's [julianday] on a stored TEXT value: the Julian day
    number of the date it denotes, NULL when it denotes none. *)
Variable julianday : string -> option Q.

(** [julianday(Expiry_Date) - julianday('now')] *)
Definition days_until_expiry (ck : Clock) (Expiry_Date : option string) : option Q :=
  match Expiry_Date with
  | Some s =>
      match julianday s with
      | Some j => Some (j - julianday_now ck)%Q
      | None => None
      end
  | None => None
  end.

Definition row_14 (ck : Clock) (fl : FoodListing.row) : Report14.row :=
  {| Report14.Food_Name := FoodListing.Food_Name fl;
     Report14.Quantity := FoodListing.Quantity fl;
     Report14.Expiry_Date := FoodListing.Expiry_Date fl;
     Report14.Location := FoodListing.Location fl;
     Report14.Food_Type := FoodListing.Food_Type fl;
     Report14.Meal_Type := FoodListing.Meal_Type fl;
     Report14.Days_Until_Expiry := days_until_expiry ck (FoodListing.Expiry_Date fl);
     Report14.Status := expiry_status (days_until_expiry ck (FoodListing.Expiry_Date fl)) |}.

Definition select_14 (ck : Clock) (fls : list FoodListing.row) : list Report14.row :=
  ORDER_BY (ASC Qleb_null Report14.Days_Until_Expiry)
    (map (row_14 ck)
         (filter (fun fl =>
                    sql_le_real (days_until_expiry ck (FoodListing.Expiry_Date fl)) 5)
                 fls)).

Definition query_14 : Statement Report14.row := {|
  sql := "
        SELECT 
            Food_Name,
            Quantity,
            Expiry_Date,
            Location,
            Food_Type,
            Meal_Type,
            julianday(Expiry_Date) - julianday('now') as Days_Until_Expiry,
            CASE 
                WHEN julianday(Expiry_Date) - julianday('now') < 0 THEN 'Expired'
                WHEN julianday(Expiry_Date) - julianday('now') <= 1 THEN 'Critical'
                WHEN julianday(Expiry_Date) - julianday('now') <= 3 THEN 'Warning'
                ELSE 'Safe'
            END as Status
        FROM food_listings
        WHERE julianday(Expiry_Date) - julianday('now') <= 5
        ORDER BY Days_Until_Expiry ASC
        ";
  run := fun params ck db =>
    no_params params
      (let* fls := FROM "food_listings" (food_listings db) in
       Returned {| columns := ["Food_Name"; "Quantity"; "Expiry_Date"; "Location";
                               "Food_Type"; "Meal_Type"; "Days_Until_Expiry"; "Status"];
                   rows := select_14 ck fls |})
|}.

Definition query_14_expiring_food : Py (DataFrame Report14.row) :=
  execute_query query_14 None.

Definition row_15 (ck : Clock) (fl : FoodListing.row) (p : Provider.row) : Report15.row :=
  {| Report15.Food_Name := FoodListing.Food_Name fl;
     Report15.Quantity := FoodListing.Quantity fl;
     Report15.Expiry_Date := FoodListing.Expiry_Date fl;
     Report15.Location := FoodListing.Location fl;
     Report15.Food_Type := FoodListing.Food_Type fl;
     Report15.Meal_Type := FoodListing.Meal_Type fl;
     Report15.Provider_Name := Provider.Name p;
     Report15.Provider_Contact := Provider.Contact p;
     Report15.Days_Until_Expiry := days_until_expiry ck (FoodListing.Expiry_Date fl) |}.

Definition select_15 (ck : Clock) (fls : list FoodListing.row) (ps : list Provider.row)
  (cs : list Claim.row) : list Report15.row :=
  let fl_p :=
    JOIN fls ps
      (fun fl p => sql_eq_int (FoodListing.Provider_ID fl) (Some (Provider.Provider_ID p))) in
  let fl_p_c :=
    LEFT_JOIN fl_p cs
      (fun r c => sql_eq_int (Some (FoodListing.Food_ID (fst r))) (Claim.Food_ID c)) in
  let kept := filter (fun r => IS_NULL (col Claim.Food_ID (snd r))) fl_p_c in
  ORDER_BY (ASC textleb_null Report15.Expiry_Date)
    (map (fun r => row_15 ck (fst (fst r)) (snd (fst r))) kept).

Definition query_15 : Statement Report15.row := {|
  sql := "
        SELECT 
            fl.Food_Name,
            fl.Quantity,
            fl.Expiry_Date,
            fl.Location,
            fl.Food_Type,
            fl.Meal_Type,
            p.Name as Provider_Name,
            p.Contact as Provider_Contact,
            julianday(fl.Expiry_Date) - julianday('now') as Days_Until_Expiry
        FROM food_listings fl
        JOIN providers p ON fl.Provider_ID = p.Provider_ID
        LEFT JOIN claims c ON fl.Food_ID = c.Food_ID
        WHERE c.Food_ID IS NULL
        ORDER BY fl.Expiry_Date ASC
        ";
  run := fun params ck db =>
    no_params params
      (let* fls := FROM "food_listings" (food_listings db) in
       let* ps := FROM "providers" (providers db) in
       let* cs := FROM "claims" (claims db) in
       Returned {| columns := ["Food_Name"; "Quantity"; "Expiry_Date"; "Location";
                               "Food_Type"; "Meal_Type"; "Provider_Name";
                               "Provider_Contact"; "Days_Until_Expiry"];
                   rows := select_15 ck fls ps cs |})
|}.

Definition query_15_unclaimed_food : Py (DataFrame Report15.row) :=
  execute_query query_15 None.

End Engine.

(** ** [database_utils.py]: [DatabaseUtils.clean_expired_food] *)

(** [Expiry_Date < date('now')]: both sides are TEXT and are compared
    byte by byte, whatever the text is; NULL is below nothing. *)
Definition expired (today : string) (fl : FoodListing.row) : bool :=
  sql_lt_text (FoodListing.Expiry_Date fl) (Some today).

(** [SELECT COUNT( * ) FROM food_listings WHERE Expiry_Date < date('now')] *)
Definition count_expired (ck : Clock) (db : Database) : outcome Z :=
  let* fls := FROM "food_listings" (food_listings db) in
  Returned (COUNT_star (filter (expired (date_now ck)) fls)).

(** [DELETE FROM food_listings WHERE Expiry_Date < date('now')] *)
Definition delete_expired (ck : Clock) (db : Database) : outcome Database :=
  let* fls := FROM "food_listings" (food_listings db) in
  Returned (set_food_listings
              (Some (filter (fun fl => negb (expired (date_now ck) fl)) fls)) db).

Definition clean_expired_food : Py Z :=
  try_except
    (sqlite3_connect ;;
     expired_count <- execute_select count_expired ;;
     (if 0 <? expired_count
      then
        execute_update delete_expired ;;
        commit ;;
        print ("✅ Removed " ++ fmt expired_count ++ " expired food items")
      else
        print "✅ No expired food items found") ;;
     close ;;
     ret expired_count)
    (fun e =>
       print ("❌ Error cleaning expired food: " ++ str e) ;;
       ret 0).

(** ** [database_setup.py]: [DatabaseSetup] *)

(** The handle [create_connection] returns; the state of the connection
    itself is the [conn] field of the world. *)
Inductive Connection := connection.

Definition create_connection : Py (option Connection) :=
  try_except_sqlite3_Error
    (sqlite3_connect ;;
     ret (Some connection))
    (fun e =>
       print ("Error creating connection: " ++ str e) ;;
       ret None).

(** [CREATE TABLE IF NOT EXISTS name (...)]: a table of that name is
    left as it is, a missing one is created without rows. *)
Definition CREATE_TABLE_IF_NOT_EXISTS {R} (table : Database -> option (list R))
  (set_table : option (list R) -> Database -> Database) (db : Database)
  : outcome Database :=
  match table db with
  | Some _ => Returned db
  | None => Returned (set_table (Some []) db)
  end.

Definition create_tables : Py unit :=
  conn <- create_connection ;;
  match conn with
  | None => Exception "Could not connect to database"
  | Some _ =>
      try_finally
        (try_except_sqlite3_Error
           (execute_ddl (CREATE_TABLE_IF_NOT_EXISTS providers set_providers) ;;
            execute_ddl (CREATE_TABLE_IF_NOT_EXISTS receivers set_receivers) ;;
            execute_ddl (CREATE_TABLE_IF_NOT_EXISTS food_listings set_food_listings) ;;
            execute_ddl (CREATE_TABLE_IF_NOT_EXISTS claims set_claims) ;;
            commit ;;
            print "‚úÖ Tables created successfully!")
           (fun e => Exception ("Error creating tables: " ++ str e)))
        close
  end.

(** The [csv_files] dict of [load_csv_data], in insertion order. *)
Definition csv_files : list (string * string) :=
  [("providers", "data/providers_data.csv");
   ("receivers", "data/receivers_data.csv");
   ("food_listings", "data/food_listings_data.csv");
   ("claims", "data/claims_data.csv")].

Definition is_some {B} (v : option B) : bool :=
  match v with Some _ => true | None => false end.

(** [os.path.exists(file_path)] for the files of the data directory. *)
Definition os_path_exists (file_path : string) : Py bool :=
  fun w =>
    (Returned
       (if String.eqb file_path "data/providers_data.csv"
        then is_some (providers_data_csv (data w))
        else if String.eqb file_path "data/receivers_data.csv"
        then is_some (receivers_data_csv (data w))
        else if String.eqb file_path "data/food_listings_data.csv"
        then is_some (food_listings_data_csv (data w))
        else if String.eqb file_path "data/claims_data.csv"
        then is_some (claims_data_csv (data w))
        else false),
     w).

(** [pd.read_csv(path)] *)
Definition pd_read_csv {R} (path : string) (file : DataDir -> option (CsvFile R))
  : Py (list R) :=
  fun w =>
    match file (data w) with
    | Some (Parsed content) => (Returned content, w)
    | Some Unreadable =>
        (Raised {| exc_class := pandas_ParserError;
                   str := "Error tokenizing data." |}, w)
    | None =>
        (Raised {| exc_class := FileNotFoundError;
                   str := "[Errno 2] No such file or directory: '" ++ path ++ "'" |}, w)
    end.

(** [df.to_sql(name, conn, if_exists='replace', index=False)]: pandas
    drops the table if it is there, creates it from the frame and
    inserts the frame's rows, in a transaction it commits. *)
Definition to_sql_replace {R} (set_table : option (list R) -> Database -> Database)
  (df : list R) : Py unit :=
  fun w =>
    match conn w with
    | Some db =>
        (Returned tt,
         set_disk (Some (set_table (Some df) db))
           (set_conn (Some (set_table (Some df) db)) w))
    | None => (Raised closed_database, w)
    end.

(** [for x in xs: body x] *)
Fixpoint for_each {X} (xs : list X) (body : X -> Py unit) : Py unit :=
  match xs with
  | [] => ret tt
  | x :: xs' => body x ;; for_each xs' body
  end.

(** The four load steps shared by both versions of [load_csv_data]. *)
Definition load_steps : Py unit :=
  providers_df <- pd_read_csv "data/providers_data.csv" providers_data_csv ;;
  to_sql_replace set_providers providers_df ;;
  receivers_df <- pd_read_csv "data/receivers_data.csv" receivers_data_csv ;;
  to_sql_replace set_receivers receivers_df ;;
  food_listings_df <- pd_read_csv "data/food_listings_data.csv" food_listings_data_csv ;;
  to_sql_replace set_food_listings food_listings_df ;;
  claims_df <- pd_read_csv "data/claims_data.csv" claims_data_csv ;;
  to_sql_replace set_claims claims_df.

Definition load_csv_data : Py unit :=
  conn <- create_connection ;;
  match conn with
  | None => Exception "Could not connect to database"
  | Some _ =>
      try_finally
        (try_except
           (for_each csv_files
              (fun entry =>
                 found <- os_path_exists (snd entry) ;;
                 if found then ret tt
                 else Exception ("CSV file not found: " ++ snd entry)) ;;
            load_steps ;;
            print "‚úÖ Data loaded successfully!")
           (fun e => Exception ("Error loading data: " ++ str e)))
        close
  end.

(** [food_waste_project/database_setup.py]: the same class, reporting
    failures on the standard output instead of raising, and without the
    check that the files exist. *)
Module food_waste_project.

Definition create_tables : Py unit :=
  conn <- create_connection ;;
  match conn with
  | None => ret tt
  | Some _ =>
      try_finally
        (try_except_sqlite3_Error
           (execute_ddl (CREATE_TABLE_IF_NOT_EXISTS providers set_providers) ;;
            execute_ddl (CREATE_TABLE_IF_NOT_EXISTS receivers set_receivers) ;;
            execute_ddl (CREATE_TABLE_IF_NOT_EXISTS food_listings set_food_listings) ;;
            execute_ddl (CREATE_TABLE_IF_NOT_EXISTS claims set_claims) ;;
            commit ;;
            print "Tables created successfully!")
           (fun e => print ("Error creating tables: " ++ str e)))
        close
  end.

Definition load_csv_data : Py unit :=
  conn <- create_connection ;;
  match conn with
  | None => ret tt
  | Some _ =>
      try_finally
        (try_except
           (load_steps ;;
            print "Data loaded successfully!")
           (fun e => print ("Error loading data: " ++ str e)))
        close
  end.

End food_waste_project.

(** The columns of the four tables, in the order of [create_tables] and
    of the CSV files. *)
Definition providers_columns : list string :=
  ["Provider_ID"; "Name"; "Type"; "Address"; "City"; "Contact"].
Definition receivers_columns : list string :=
  ["Receiver_ID"; "Name"; "Type"; "City"; "Contact"].
Definition food_listings_columns : list string :=
  ["Food_ID"; "Food_Name"; "Quantity"; "Expiry_Date"; "Provider_ID"; "Provider_Type";
   "Location"; "Food_Type"; "Meal_Type"].
Definition claims_columns : list string :=
  ["Claim_ID"; "Food_ID"; "Receiver_ID"; "Status"; "Timestamp"].

(** ** [sql_queries.py]: the other reports *)

(** [AVG(expr)]: the mean of the values that are not NULL, NULL when
    there is none. *)
Definition AVG {A} (expr : A -> option Z) (g : list A) : option Q :=
  match SUM expr g with
  | Some s => Some (inject_Z s / inject_Z (COUNT expr g))%Q
  | None => None
  end.

(** [COUNT(DISTINCT column)] *)
Definition COUNT_DISTINCT {A B} (B_eq_dec : forall x y : B, {x = y} + {x <> y})
  (column : A -> option B) (g : list A) : Z :=
  Z.of_nat (List.length (nodup B_eq_dec (values column g))).

(** ORDER BY two TEXT columns: the first decides, the second breaks its
    ties. *)
Definition text2_leb (a b : string * string) : bool :=
  match String.compare (fst a) (fst b) with
  | Lt => true
  | Gt => false
  | Eq => String.leb (snd a) (snd b)
  end.

(** The text a value takes when it is compared with a TEXT column. *)
Definition as_text (v : SqlValue) : option string :=
  match v with
  | Null => None
  | Integer z => Some (fmt z)
  | Text s => Some s
  end.

(** [CASE WHEN c.Status = status THEN 1 ELSE 0 END] and
    [CASE WHEN c.Status = status THEN fl.Quantity ELSE 0 END] *)
Definition status_1_else_0 (status : string) (c : option Claim.row) : option Z :=
  if sql_eq_text (col Claim.Status c) (Some status) then Some 1 else Some 0.

Definition status_quantity_else_0 (status : string) (fl : option FoodListing.row)
  (c : option Claim.row) : option Z :=
  if sql_eq_text (col Claim.Status c) (Some status) then Quantity_of fl else Some 0.

(** [CASE WHEN c.Status = 'Completed' THEN fl.Quantity ELSE NULL END] *)
Definition completed_quantity_else_null (fl : option FoodListing.row)
  (c : option Claim.row) : option Z :=
  if sql_eq_text (col Claim.Status c) (Some "Completed") then Quantity_of fl else None.

(** *** Report 1 *)

Module Report1.
Record row := {
  City : string;
  Count : Z;
  Type_ : string
}.
End Report1.

Definition select_1 (ps : list Provider.row) (rs : list Receiver.row) : list Report1.row :=
  ORDER_BY (ASC text2_leb (fun r => (Report1.City r, Report1.Type_ r)))
    (map (fun g => {| Report1.City := fst g;
                      Report1.Count := COUNT_star (snd g);
                      Report1.Type_ := "Providers" |})
         (GROUP_BY string_dec Provider.City ps)
     ++
     map (fun g => {| Report1.City := fst g;
                      Report1.Count := COUNT_star (snd g);
                      Report1.Type_ := "Receivers" |})
         (GROUP_BY string_dec Receiver.City rs)).

Definition query_1 : Statement Report1.row := {|
  sql := "
        SELECT 
            City,
            COUNT(*) as Count,
            'Providers' as Type
        FROM providers 
        GROUP BY City
        UNION ALL
        SELECT 
            City,
            COUNT(*) as Count,
            'Receivers' as Type
        FROM receivers 
        GROUP BY City
        ORDER BY City, Type
        ";
  run := fun params _ db =>
    no_params params
      (let* ps := FROM "providers" (providers db) in
       let* rs := FROM "receivers" (receivers db) in
       Returned {| columns := ["City"; "Count"; "Type"];
                   rows := select_1 ps rs |})
|}.

Definition query_1_providers_receivers_by_city : Py (DataFrame Report1.row) :=
  execute_query query_1 None.

(** *** Report 2 *)

Module Report2.
Record row := {
  Provider_Type : string;
  Total_Quantity : option Z;
  Total_Items : Z;
  Avg_Quantity : option Q
}.
End Report2.

(** [FROM providers p JOIN food_listings fl ON p.Provider_ID =
    fl.Provider_ID GROUP BY p.Type] *)
Definition groups_2 (ps : list Provider.row) (fls : list FoodListing.row)
  : list (string * list (Provider.row * FoodListing.row)) :=
  let p_fl :=
    JOIN ps fls
      (fun p fl => sql_eq_int (Some (Provider.Provider_ID p)) (FoodListing.Provider_ID fl)) in
  GROUP_BY string_dec (fun r => Provider.Type_ (fst r)) p_fl.

Definition select_2 (ps : list Provider.row) (fls : list FoodListing.row)
  : list Report2.row :=
  ORDER_BY (DESC Zleb_null Report2.Total_Quantity)
    (map (fun g =>
            {| Report2.Provider_Type := fst g;
               Report2.Total_Quantity :=
                 SUM (fun r => Some (FoodListing.Quantity (snd r))) (snd g);
               Report2.Total_Items :=
                 COUNT (fun r => Some (FoodListing.Food_ID (snd r))) (snd g);
               Report2.Avg_Quantity :=
                 ROUND_null (AVG (fun r => Some (FoodListing.Quantity (snd r))) (snd g)) 2 |})
         (groups_2 ps fls)).

Definition overflows_2 (ps : list Provider.row) (fls : list FoodListing.row) : bool :=
  existsb (fun g => SUM_overflows (fun r => Some (FoodListing.Quantity (snd r))) (snd g))
          (groups_2 ps fls).

Definition query_2 : Statement Report2.row := {|
  sql := "
        SELECT 
            p.Type as Provider_Type,
            SUM(fl.Quantity) as Total_Quantity,
            COUNT(fl.Food_ID) as Total_Items,
            ROUND(AVG(fl.Quantity), 2) as Avg_Quantity
        FROM providers p
        JOIN food_listings fl ON p.Provider_ID = fl.Provider_ID
        GROUP BY p.Type
        ORDER BY Total_Quantity DESC
        ";
  run := fun params _ db =>
    no_params params
      (let* ps := FROM "providers" (providers db) in
       let* fls := FROM "food_listings" (food_listings db) in
       unless_overflow (overflows_2 ps fls)
         (Returned {| columns := ["Provider_Type"; "Total_Quantity"; "Total_Items";
                                  "Avg_Quantity"];
                      rows := select_2 ps fls |}))
|}.

Definition query_2_provider_type_contribution : Py (DataFrame Report2.row) :=
  execute_query query_2 None.

(** *** Report 3 *)

Module Report3.
Record row := {
  Name : string;
  Type_ : string;
  Address : option string;
  Contact : option string
}.
End Report3.

(** [WHERE City = ?] with the parameter bound to [city]. *)
Definition select_3 (city : SqlValue) (ps : list Provider.row) : list Report3.row :=
  ORDER_BY (ASC text2_leb (fun r => (Report3.Type_ r, Report3.Name r)))
    (map (fun p => {| Report3.Name := Provider.Name p;
                      Report3.Type_ := Provider.Type_ p;
                      Report3.Address := Provider.Address p;
                      Report3.Contact := Provider.Contact p |})
         (filter (fun p => sql_eq_text (Some (Provider.City p)) (as_text city)) ps)).

Definition query_3 : Statement Report3.row := {|
  sql := "
        SELECT Name, Type, Address, Contact
        FROM providers
        WHERE City = ?
        ORDER BY Type, Name
        ";
  run := fun params _ db =>
    match params with
    | [city] =>
        let* ps := FROM "providers" (providers db) in
        Returned {| columns := ["Name"; "Type"; "Address"; "Contact"];
                    rows := select_3 city ps |}
    | _ => Raised wrong_bindings
    end
|}.

Definition query_3_provider_contacts_by_city (city : string)
  : Py (DataFrame Report3.row) :=
  execute_query query_3 (Some [Text city]).

(** *** Reports 4 and 11 *)

Module Report4.
Record row := {
  Name : string;
  Type_ : string;
  City : string;
  Total_Claims : Z;
  Food_Received : option Z;
  Food_Pending : option Z
}.
End Report4.

Module Report11.
Record row := {
  Name : string;
  Type_ : string;
  City : string;
  Total_Claims : Z;
  Total_Food_Received : option Z;
  Avg_Quantity_Per_Claim : option Q
}.
End Report11.

(** The GROUP BY key of reports 4 and 11:
    [r.Receiver_ID, r.Name, r.Type, r.City]. *)
Definition receiver_key (r : Receiver.row) : Z * string * string * string :=
  (Receiver.Receiver_ID r, Receiver.Name r, Receiver.Type_ r, Receiver.City r).

(** [FROM receivers r LEFT JOIN claims c ON r.Receiver_ID = c.Receiver_ID
    LEFT JOIN food_listings fl ON c.Food_ID = fl.Food_ID], grouped. *)
Definition receiver_groups (rs : list Receiver.row) (cs : list Claim.row)
  (fls : list FoodListing.row)
  : list (Z * string * string * string *
          list (Receiver.row * option Claim.row * option FoodListing.row)) :=
  let r_c :=
    LEFT_JOIN rs cs
      (fun r c => sql_eq_int (Some (Receiver.Receiver_ID r)) (Claim.Receiver_ID c)) in
  let r_c_fl :=
    LEFT_JOIN r_c fls
      (fun x fl => sql_eq_int (col Claim.Food_ID (snd x)) (Some (FoodListing.Food_ID fl))) in
  GROUP_BY provider_key_eq_dec (fun x => receiver_key (fst (fst x))) r_c_fl.

Definition row_4_of
  (g : Z * string * string * string *
       list (Receiver.row * option Claim.row * option FoodListing.row)) : Report4.row :=
  let '(_, name, type, city) := fst g in
  {| Report4.Name := name;
     Report4.Type_ := type;
     Report4.City := city;
     Report4.Total_Claims := COUNT (fun x => Claim_ID_of (snd (fst x))) (snd g);
     Report4.Food_Received :=
       SUM (fun x => status_quantity_else_0 "Completed" (snd x) (snd (fst x))) (snd g);
     Report4.Food_Pending :=
       SUM (fun x => status_quantity_else_0 "Pending" (snd x) (snd (fst x))) (snd g) |}.

Definition select_4 (rs : list Receiver.row) (cs : list Claim.row)
  (fls : list FoodListing.row) : list Report4.row :=
  ORDER_BY (DESC Zleb_null Report4.Food_Received)
    (map row_4_of (receiver_groups rs cs fls)).

(** One of the two SUMs of a receiver overflows. *)
Definition overflows_4 (rs : list Receiver.row) (cs : list Claim.row)
  (fls : list FoodListing.row) : bool :=
  existsb (fun g =>
             SUM_overflows
               (fun x => status_quantity_else_0 "Completed" (snd x) (snd (fst x))) (snd g)
             || SUM_overflows
                  (fun x => status_quantity_else_0 "Pending" (snd x) (snd (fst x))) (snd g))
          (receiver_groups rs cs fls).

Definition query_4 : Statement Report4.row := {|
  sql := "
        SELECT 
            r.Name,
            r.Type,
            r.City,
            COUNT(c.Claim_ID) as Total_Claims,
            SUM(CASE WHEN c.Status = 'Completed' THEN fl.Quantity ELSE 0 END) as Food_Received,
            SUM(CASE WHEN c.Status = 'Pending' THEN fl.Quantity ELSE 0 END) as Food_Pending
        FROM receivers r
        LEFT JOIN claims c ON r.Receiver_ID = c.Receiver_ID
        LEFT JOIN food_listings fl ON c.Food_ID = fl.Food_ID
        GROUP BY r.Receiver_ID, r.Name, r.Type, r.City
        ORDER BY Food_Received DESC
        ";
  run := fun params _ db =>
    no_params params
      (let* rs := FROM "receivers" (receivers db) in
       let* cs := FROM "claims" (claims db) in
       let* fls := FROM "food_listings" (food_listings db) in
       unless_overflow (overflows_4 rs cs fls)
         (Returned {| columns := ["Name"; "Type"; "City"; "Total_Claims"; "Food_Received";
                                  "Food_Pending"];
                      rows := select_4 rs cs fls |}))
|}.

Definition query_4_top_claiming_receivers : Py (DataFrame Report4.row) :=
  execute_query query_4 None.

Definition row_11_of
  (g : Z * string * string * string *
       list (Receiver.row * option Claim.row * option FoodListing.row)) : Report11.row :=
  let '(_, name, type, city) := fst g in
  {| Report11.Name := name;
     Report11.Type_ := type;
     Report11.City := city;
     Report11.Total_Claims := COUNT (fun x => Claim_ID_of (snd (fst x))) (snd g);
     Report11.Total_Food_Received :=
       SUM (fun x => status_quantity_else_0 "Completed" (snd x) (snd (fst x))) (snd g);
     Report11.Avg_Quantity_Per_Claim :=
       ROUND_null
         (AVG (fun x => completed_quantity_else_null (snd x) (snd (fst x))) (snd g)) 2 |}.

(** [HAVING Total_Claims > 0] keeps the groups whose row passes. *)
Definition select_11 (rs : list Receiver.row) (cs : list Claim.row)
  (fls : list FoodListing.row) : list Report11.row :=
  ORDER_BY (DESC Zleb_null Report11.Total_Food_Received)
    (filter (fun r => 0 <? Report11.Total_Claims r)
       (map row_11_of (receiver_groups rs cs fls))).

(** The SUM of a receiver overflows (the aggregates of a group are
    computed before HAVING looks at them). *)
Definition overflows_11 (rs : list Receiver.row) (cs : list Claim.row)
  (fls : list FoodListing.row) : bool :=
  existsb (fun g =>
             SUM_overflows
               (fun x => status_quantity_else_0 "Completed" (snd x) (snd (fst x))) (snd g))
          (receiver_groups rs cs fls).

Definition query_11 : Statement Report11.row := {|
  sql := "
        SELECT 
            r.Name,
            r.Type,
            r.City,
            COUNT(c.Claim_ID) as Total_Claims,
            SUM(CASE WHEN c.Status = 'Completed' THEN fl.Quantity ELSE 0 END) as Total_Food_Received,
            ROUND(
                AVG(CASE WHEN c.Status = 'Completed' THEN fl.Quantity ELSE NULL END), 2
            ) as Avg_Quantity_Per_Claim
        FROM receivers r
        LEFT JOIN claims c ON r.Receiver_ID = c.Receiver_ID
        LEFT JOIN food_listings fl ON c.Food_ID = fl.Food_ID
        GROUP BY r.Receiver_ID, r.Name, r.Type, r.City
        HAVING Total_Claims > 0
        ORDER BY Total_Food_Received DESC
        ";
  run := fun params _ db =>
    no_params params
      (let* rs := FROM "receivers" (receivers db) in
       let* cs := FROM "claims" (claims db) in
       let* fls := FROM "food_listings" (food_listings db) in
       unless_overflow (overflows_11 rs cs fls)
         (Returned {| columns := ["Name"; "Type"; "City"; "Total_Claims";
                                  "Total_Food_Received"; "Avg_Quantity_Per_Claim"];
                      rows := select_11 rs cs fls |}))
|}.

Definition query_11_avg_quantity_per_receiver : Py (DataFrame Report11.row) :=
  execute_query query_11 None.

(** *** Report 5 *)

Module Report5.
Record row := {
  Total_Available_Quantity : option Z;
  Total_Food_Items : Z;
  Active_Providers : Z;
  Avg_Quantity_Per_Item : option Q
}.
End Report5.

(** Aggregates without GROUP BY: one row, whatever the table holds. *)
Definition select_5 (fls : list FoodListing.row) : list Report5.row :=
  [{| Report5.Total_Available_Quantity :=
        SUM (fun fl => Some (FoodListing.Quantity fl)) fls;
      Report5.Total_Food_Items := COUNT (fun fl => Some (FoodListing.Food_ID fl)) fls;
      Report5.Active_Providers := COUNT_DISTINCT Z.eq_dec FoodListing.Provider_ID fls;
      Report5.Avg_Quantity_Per_Item :=
        ROUND_null (AVG (fun fl => Some (FoodListing.Quantity fl)) fls) 2 |}].

Definition query_5 : Statement Report5.row := {|
  sql := "
        SELECT 
            SUM(Quantity) as Total_Available_Quantity,
            COUNT(Food_ID) as Total_Food_Items,
            COUNT(DISTINCT Provider_ID) as Active_Providers,
            ROUND(AVG(Quantity), 2) as Avg_Quantity_Per_Item
        FROM food_listings
        ";
  run := fun params _ db =>
    no_params params
      (let* fls := FROM "food_listings" (food_listings db) in
       unless_overflow (SUM_overflows (fun fl => Some (FoodListing.Quantity fl)) fls)
         (Returned {| columns := ["Total_Available_Quantity"; "Total_Food_Items";
                                  "Active_Providers"; "Avg_Quantity_Per_Item"];
                      rows := select_5 fls |}))
|}.

Definition query_5_total_food_quantity : Py (DataFrame Report5.row) :=
  execute_query query_5 None.

(** *** Report 6 *)

Module Report6.
Record row := {
  City : option string;
  Total_Listings : Z;
  Total_Quantity : option Z;
  Avg_Quantity : option Q
}.
End Report6.

Definition select_6 (fls : list FoodListing.row) : list Report6.row :=
  ORDER_BY (DESC Z.leb Report6.Total_Listings)
    (map (fun g =>
            {| Report6.City := fst g;
               Report6.Total_Listings :=
                 COUNT (fun fl => Some (FoodListing.Food_ID fl)) (snd g);
               Report6.Total_Quantity :=
                 SUM (fun fl => Some (FoodListing.Quantity fl)) (snd g);
               Report6.Avg_Quantity :=
                 ROUND_null (AVG (fun fl => Some (FoodListing.Quantity fl)) (snd g)) 2 |})
         (GROUP_BY status_eq_dec FoodListing.Location fls)).

Definition overflows_6 (fls : list FoodListing.row) : bool :=
  existsb (fun g => SUM_overflows (fun fl => Some (FoodListing.Quantity fl)) (snd g))
          (GROUP_BY status_eq_dec FoodListing.Location fls).

Definition query_6 : Statement Report6.row := {|
  sql := "
        SELECT 
            Location as City,
            COUNT(Food_ID) as Total_Listings,
            SUM(Quantity) as Total_Quantity,
            ROUND(AVG(Quantity), 2) as Avg_Quantity
        FROM food_listings
        GROUP BY Location
        ORDER BY Total_Listings DESC
        ";
  run := fun params _ db =>
    no_params params
      (let* fls := FROM "food_listings" (food_listings db) in
       unless_overflow (overflows_6 fls)
         (Returned {| columns := ["City"; "Total_Listings"; "Total_Quantity";
                                  "Avg_Quantity"];
                      rows := select_6 fls |}))
|}.

Definition query_6_city_food_listings : Py (DataFrame Report6.row) :=
  execute_query query_6 None.

(** *** Report 7 *)

Module Report7.
Record row := {
  Food_Type : option string;
  Total_Items : Z;
  Total_Quantity : option Z;
  Avg_Quantity : option Q;
  Percentage : option Q
}.
End Report7.

Definition select_7 (fls : list FoodListing.row) : list Report7.row :=
  ORDER_BY (DESC Zleb_null Report7.Total_Quantity)
    (map (fun g =>
            {| Report7.Food_Type := fst g;
               Report7.Total_Items :=
                 COUNT (fun fl => Some (FoodListing.Food_ID fl)) (snd g);
               Report7.Total_Quantity :=
                 SUM (fun fl => Some (FoodListing.Quantity fl)) (snd g);
               Report7.Avg_Quantity :=
                 ROUND_null (AVG (fun fl => Some (FoodListing.Quantity fl)) (snd g)) 2;
               Report7.Percentage :=
                 ROUND_null
                   (percent_of
                      (Some (COUNT (fun fl => Some (FoodListing.Food_ID fl)) (snd g)))
                      (Some (COUNT_star fls))) 2 |})
         (GROUP_BY status_eq_dec FoodListing.Food_Type fls)).

Definition overflows_7 (fls : list FoodListing.row) : bool :=
  existsb (fun g => SUM_overflows (fun fl => Some (FoodListing.Quantity fl)) (snd g))
          (GROUP_BY status_eq_dec FoodListing.Food_Type fls).

Definition query_7 : Statement Report7.row := {|
  sql := "
        SELECT 
            Food_Type,
            COUNT(Food_ID) as Total_Items,
            SUM(Quantity) as Total_Quantity,
            ROUND(AVG(Quantity), 2) as Avg_Quantity,
            ROUND((COUNT(Food_ID) * 100.0 / (SELECT COUNT(*) FROM food_listings)), 2) as Percentage
        FROM food_listings
        GROUP BY Food_Type
        ORDER BY Total_Quantity DESC
        ";
  run := fun params _ db =>
    no_params params
      (let* fls := FROM "food_listings" (food_listings db) in
       unless_overflow (overflows_7 fls)
         (Returned {| columns := ["Food_Type"; "Total_Items"; "Total_Quantity";
                                  "Avg_Quantity"; "Percentage"];
                      rows := select_7 fls |}))
|}.

Definition query_7_common_food_types : Py (DataFrame Report7.row) :=
  execute_query query_7 None.

(** *** Report 8 *)

Module Report8.
Record row := {
  Food_Name : string;
  Available_Quantity : Z;
  Location : option string;
  Total_Claims : Z;
  Completed_Claims : option Z;
  Pending_Claims : option Z;
  Cancelled_Claims : option Z
}.
End Report8.

(** The GROUP BY key of report 8:
    [fl.Food_ID, fl.Food_Name, fl.Quantity, fl.Location]. *)
Definition listing_key (fl : FoodListing.row) : Z * string * Z * option string :=
  (FoodListing.Food_ID fl, FoodListing.Food_Name fl, FoodListing.Quantity fl,
   FoodListing.Location fl).

Definition listing_key_eq_dec (x y : Z * string * Z * option string) : {x = y} + {x <> y}.
Proof. repeat decide equality. Defined.

Definition row_8_of
  (g : Z * string * Z * option string * list (FoodListing.row * option Claim.row))
  : Report8.row :=
  let '(_, name, quantity, location) := fst g in
  {| Report8.Food_Name := name;
     Report8.Available_Quantity := quantity;
     Report8.Location := location;
     Report8.Total_Claims := COUNT (fun x => Claim_ID_of (snd x)) (snd g);
     Report8.Completed_Claims := SUM (fun x => status_1_else_0 "Completed" (snd x)) (snd g);
     Report8.Pending_Claims := SUM (fun x => status_1_else_0 "Pending" (snd x)) (snd g);
     Report8.Cancelled_Claims :=
       SUM (fun x => status_1_else_0 "Cancelled" (snd x)) (snd g) |}.

Definition select_8 (fls : list FoodListing.row) (cs : list Claim.row)
  : list Report8.row :=
  let fl_c :=
    LEFT_JOIN fls cs
      (fun fl c => sql_eq_int (Some (FoodListing.Food_ID fl)) (Claim.Food_ID c)) in
  ORDER_BY (DESC Z.leb Report8.Total_Claims)
    (map row_8_of (GROUP_BY listing_key_eq_dec (fun x => listing_key (fst x)) fl_c)).

Definition query_8 : Statement Report8.row := {|
  sql := "
        SELECT 
            fl.Food_Name,
            fl.Quantity as Available_Quantity,
            fl.Location,
            COUNT(c.Claim_ID) as Total_Claims,
            SUM(CASE WHEN c.Status = 'Completed' THEN 1 ELSE 0 END) as Completed_Claims,
            SUM(CASE WHEN c.Status = 'Pending' THEN 1 ELSE 0 END) as Pending_Claims,
            SUM(CASE WHEN c.Status = 'Cancelled' THEN 1 ELSE 0 END) as Cancelled_Claims
        FROM food_listings fl
        LEFT JOIN claims c ON fl.Food_ID = c.Food_ID
        GROUP BY fl.Food_ID, fl.Food_Name, fl.Quantity, fl.Location
        ORDER BY Total_Claims DESC
        ";
  run := fun params _ db =>
    no_params params
      (let* fls := FROM "food_listings" (food_listings db) in
       let* cs := FROM "claims" (claims db) in
       Returned {| columns := ["Food_Name"; "Available_Quantity"; "Location";
                               "Total_Claims"; "Completed_Claims"; "Pending_Claims";
                               "Cancelled_Claims"];
                   rows := select_8 fls cs |})
|}.

Definition query_8_claims_per_food_item : Py (DataFrame Report8.row) :=
  execute_query query_8 None.

(** *** Report 12 *)

Module Report12.
Record row := {
  Meal_Type : option string;
  Total_Claims : Z;
  Quantity_Claimed : option Z;
  Total_Available : option Z;
  Claim_Rate_Percent : option Q
}.
End Report12.

(** [fl] is on the left of the join here, so [fl.Quantity] is never
    NULL; the rate is NULL when the quantities of a group add up to 0. *)
Definition groups_12 (fls : list FoodListing.row) (cs : list Claim.row)
  : list (option string * list (FoodListing.row * option Claim.row)) :=
  let fl_c :=
    LEFT_JOIN fls cs
      (fun fl c => sql_eq_int (Some (FoodListing.Food_ID fl)) (Claim.Food_ID c)) in
  GROUP_BY status_eq_dec (fun x => FoodListing.Meal_Type (fst x)) fl_c.

Definition select_12 (fls : list FoodListing.row) (cs : list Claim.row)
  : list Report12.row :=
  ORDER_BY (DESC Z.leb Report12.Total_Claims)
    (map (fun g =>
            {| Report12.Meal_Type := fst g;
               Report12.Total_Claims := COUNT (fun x => Claim_ID_of (snd x)) (snd g);
               Report12.Quantity_Claimed :=
                 SUM (fun x => status_quantity_else_0 "Completed" (Some (fst x)) (snd x))
                     (snd g);
               Report12.Total_Available :=
                 SUM (fun x => Some (FoodListing.Quantity (fst x))) (snd g);
               Report12.Claim_Rate_Percent :=
                 ROUND_null
                   (percent_of
                      (SUM (fun x =>
                              status_quantity_else_0 "Completed" (Some (fst x)) (snd x))
                           (snd g))
                      (SUM (fun x => Some (FoodListing.Quantity (fst x))) (snd g)))
                   2 |})
         (groups_12 fls cs)).

(** One of the two SUMs of a meal type overflows. *)
Definition overflows_12 (fls : list FoodListing.row) (cs : list Claim.row) : bool :=
  existsb (fun g =>
             SUM_overflows
               (fun x => status_quantity_else_0 "Completed" (Some (fst x)) (snd x)) (snd g)
             || SUM_overflows (fun x => Some (FoodListing.Quantity (fst x))) (snd g))
          (groups_12 fls cs).

Definition query_12 : Statement Report12.row := {|
  sql := "
        SELECT 
            fl.Meal_Type,
            COUNT(c.Claim_ID) as Total_Claims,
            SUM(CASE WHEN c.Status = 'Completed' THEN fl.Quantity ELSE 0 END) as Quantity_Claimed,
            SUM(fl.Quantity) as Total_Available,
            ROUND(
                (SUM(CASE WHEN c.Status = 'Completed' THEN fl.Quantity ELSE 0 END) * 100.0 / 
                 SUM(fl.Quantity)), 2
            ) as Claim_Rate_Percent
        FROM food_listings fl
        LEFT JOIN claims c ON fl.Food_ID = c.Food_ID
        GROUP BY fl.Meal_Type
        ORDER BY Total_Claims DESC
        ";
  run := fun params _ db =>
    no_params params
      (let* fls := FROM "food_listings" (food_listings db) in
       let* cs := FROM "claims" (claims db) in
       unless_overflow (overflows_12 fls cs)
         (Returned {| columns := ["Meal_Type"; "Total_Claims"; "Quantity_Claimed";
                                  "Total_Available"; "Claim_Rate_Percent"];
                      rows := select_12 fls cs |}))
|}.

Definition query_12_popular_meal_types : Py (DataFrame Report12.row) :=
  execute_query query_12 None.

(** *** [get_all_queries_results] *)

(** A frame of any report, as a value of the [results] dict. *)
Record AnyFrame := any_frame { row_type : Type; the_frame : DataFrame row_type }.
Arguments any_frame {row_type} the_frame.

(** [results[title] = query]: the dict is a list of entries in insertion
    order; the titles used are pairwise different, so no entry is
    replaced. *)
Definition store {A} (title : string) (query : Py (DataFrame A))
  (results : list (string * AnyFrame)) : Py (list (string * AnyFrame)) :=
  df <- query ;;
  ret (results ++ [(title, any_frame df)])%list.

Definition get_all_queries_results (julianday : string -> option Q)
  : Py (list (string * AnyFrame)) :=
  results <- ret [] ;;
  results <- store "Query 1: Providers & Receivers by City"
               query_1_providers_receivers_by_city results ;;
  results <- store "Query 2: Provider Type Contributions"
               query_2_provider_type_contribution results ;;
  results <- store "Query 4: Top Claiming Receivers"
               query_4_top_claiming_receivers results ;;
  results <- store "Query 5: Total Food Quantity" query_5_total_food_quantity results ;;
  results <- store "Query 6: City Food Listings" query_6_city_food_listings results ;;
  results <- store "Query 7: Common Food Types" query_7_common_food_types results ;;
  results <- store "Query 8: Claims per Food Item" query_8_claims_per_food_item results ;;
  results <- store "Query 9: Successful Providers" query_9_successful_providers results ;;
  results <- store "Query 10: Claim Status Distribution"
               query_10_claim_status_distribution results ;;
  results <- store "Query 11: Avg Quantity per Receiver"
               query_11_avg_quantity_per_receiver results ;;
  results <- store "Query 12: Popular Meal Types" query_12_popular_meal_types results ;;
  results <- store "Query 13: Provider Donations" query_13_provider_donations results ;;
  results <- store "Query 14: Expiring Food" (query_14_expiring_food julianday) results ;;
  results <- store "Query 15: Unclaimed Food" (query_15_unclaimed_food julianday) results ;;
  ret results.

(** ** [database_utils.py]: the other utilities *)

(** [for x in xs: state = body x state] *)
Fixpoint for_in {X S} (xs : list X) (body : X -> S -> Py S) (state : S) : Py S :=
  match xs with
  | [] => ret state
  | x :: xs' => state' <- body x state ;; for_in xs' body state'
  end.

(** [d[key] = value] on a dict kept as a list of entries in insertion
    order. *)
Fixpoint dict_set {V} (key : string) (value : V) (d : list (string * V))
  : list (string * V) :=
  match d with
  | [] => [(key, value)]
  | (k, v) :: d' =>
      if String.eqb k key then (k, value) :: d' else (k, v) :: dict_set key value d'
  end.

(** A row of any of the four tables, for a statement whose table is not
    fixed ([f"SELECT * FROM {table}"]). *)
Inductive AnyRow :=
| provider_row (r : Provider.row)
| receiver_row (r : Receiver.row)
| listing_row (r : FoodListing.row)
| claim_row (r : Claim.row).

(** [f"SELECT * FROM {table}"] *)
Definition select_star_from (table : string) : Statement AnyRow := {|
  sql := "SELECT * FROM " ++ table;
  run := fun params _ db =>
    no_params params
      (if String.eqb table "providers" then
         let* rs := FROM table (providers db) in
         Returned {| columns := providers_columns; rows := map provider_row rs |}
       else if String.eqb table "receivers" then
         let* rs := FROM table (receivers db) in
         Returned {| columns := receivers_columns; rows := map receiver_row rs |}
       else if String.eqb table "food_listings" then
         let* rs := FROM table (food_listings db) in
         Returned {| columns := food_listings_columns; rows := map listing_row rs |}
       else if String.eqb table "claims" then
         let* rs := FROM table (claims db) in
         Returned {| columns := claims_columns; rows := map claim_row rs |}
       else Raised (no_such_table table))
|}.

(** [f"SELECT COUNT( * ) as count FROM {table}"] *)
Definition select_count_from (table : string) : Statement Z := {|
  sql := "SELECT COUNT(*) as count FROM " ++ table;
  run := fun params ck db =>
    let* df := run (select_star_from table) params ck db in
    Returned {| columns := ["count"]; rows := [COUNT_star (rows df)] |}
|}.

Definition index_error : PyExc :=
  {| exc_class := plain_Exception; str := "single positional indexer is out-of-bounds" |}.

(** [df.iloc[0]] and [df.to_dict('records')[0]]: the first row. *)
Definition first_row {A} (df : DataFrame A) : Py A :=
  match rows df with
  | r :: _ => ret r
  | [] => raise index_error
  end.

(** [MIN(expr)] and [MAX(expr)]: NULL when no row has a value. *)
Definition MIN {A} (expr : A -> option Z) (g : list A) : option Z :=
  fold_right (fun a acc =>
                match expr a, acc with
                | Some x, Some m => Some (Z.min x m)
                | Some x, None => Some x
                | None, _ => acc
                end) None g.

Definition MAX {A} (expr : A -> option Z) (g : list A) : option Z :=
  fold_right (fun a acc =>
                match expr a, acc with
                | Some x, Some m => Some (Z.max x m)
                | Some x, None => Some x
                | None, _ => acc
                end) None g.

Record FoodStats := {
  total_quantity : option Z;
  avg_quantity : option Q;
  min_quantity : option Z;
  max_quantity : option Z
}.

Module ClaimStat.
Record row := { Status : option string; count : Z }.
End ClaimStat.

Definition select_food_stats : Statement FoodStats := {|
  sql := "
                SELECT 
                    SUM(Quantity) as total_quantity,    -- Total food available
                    AVG(Quantity) as avg_quantity,      -- Average listing size
                    MIN(Quantity) as min_quantity,      -- Smallest listing
                    MAX(Quantity) as max_quantity       -- Largest listing
                FROM food_listings
            ";
  run := fun params _ db =>
    no_params params
      (let* fls := FROM "food_listings" (food_listings db) in
       unless_overflow (SUM_overflows (fun fl => Some (FoodListing.Quantity fl)) fls)
         (Returned {| columns := ["total_quantity"; "avg_quantity"; "min_quantity";
                                  "max_quantity"];
                      rows := [{| total_quantity :=
                                    SUM (fun fl => Some (FoodListing.Quantity fl)) fls;
                                  avg_quantity :=
                                    AVG (fun fl => Some (FoodListing.Quantity fl)) fls;
                                  min_quantity :=
                                    MIN (fun fl => Some (FoodListing.Quantity fl)) fls;
                                  max_quantity :=
                                    MAX (fun fl => Some (FoodListing.Quantity fl)) fls |}] |}))
|}.

Definition select_claim_stats : Statement ClaimStat.row := {|
  sql := "
                SELECT 
                    Status,
                    COUNT(*) as count
                FROM claims
                GROUP BY Status
            ";
  run := fun params _ db =>
    no_params params
      (let* cs := FROM "claims" (claims db) in
       Returned {| columns := ["Status"; "count"];
                   rows := map (fun g => {| ClaimStat.Status := fst g;
                                            ClaimStat.count := COUNT_star (snd g) |})
                               (GROUP_BY status_eq_dec Claim.Status cs) |})
|}.

(** The values of the [stats] dict. *)
Inductive StatValue :=
| a_count (n : Z)
| the_food_stats (s : FoodStats)
| the_claim_stats (l : list ClaimStat.row).

Definition get_database_stats : Py (list (string * StatValue)) :=
  try_except
    (sqlite3_connect ;;
     stats <- ret [] ;;
     stats <- for_in ["providers"; "receivers"; "food_listings"; "claims"]
                (fun table stats =>
                   df <- pd_read_sql_query (select_count_from table) [] ;;
                   n <- first_row df ;;
                   ret (dict_set (table ++ "_count") (a_count n) stats))
                stats ;;
     food_stats <- pd_read_sql_query select_food_stats [] ;;
     record <- first_row food_stats ;;
     stats <- ret (dict_set "food_stats" (the_food_stats record) stats) ;;
     claim_stats <- pd_read_sql_query select_claim_stats [] ;;
     stats <- ret (dict_set "claim_stats" (the_claim_stats (rows claim_stats)) stats) ;;
     close ;;
     ret stats)
    (fun e =>
       print ("❌ Error getting database stats: " ++ str e) ;;
       ret []).

(** *** Files beside the database *)

(** What the backup and the export touch beside the database file: other
    database files, the CSV files written, the directories that cannot
    be made, and the local time as [strftime] prints it.  A path at
    which [sqlite3.connect] can create a file holds the database without
    tables. *)
Record Site := {
  world : World;
  db_files : string -> option Database;   (* None: the path cannot be opened *)
  csv_files_written : list (string * DataFrame AnyRow);   (* latest last *)
  makedirs_error : string -> option PyExc; (* what os.makedirs(dir, exist_ok=True)
                                             raises; None: dir is there or is made *)
  strftime_now : string                   (* datetime.now().strftime("%Y%m%d_%H%M%S") *)
}.

Definition set_world (w : World) (s : Site) : Site :=
  {| world := w; db_files := db_files s; csv_files_written := csv_files_written s;
     makedirs_error := makedirs_error s; strftime_now := strftime_now s |}.

Definition set_db_file (path : string) (db : Database) (s : Site) : Site :=
  {| world := world s;
     db_files := fun p => if String.eqb p path then Some db else db_files s p;
     csv_files_written := csv_files_written s;
     makedirs_error := makedirs_error s; strftime_now := strftime_now s |}.

Definition add_csv_file (path : string) (df : DataFrame AnyRow) (s : Site) : Site :=
  {| world := world s; db_files := db_files s;
     csv_files_written := csv_files_written s ++ [(path, df)];
     makedirs_error := makedirs_error s; strftime_now := strftime_now s |}.

(** The content of the file at [path]: what was written there last. *)
Definition csv_file_at (path : string) (s : Site) : option (DataFrame AnyRow) :=
  fold_left (fun found entry =>
               if String.eqb (fst entry) path then Some (snd entry) else found)
            (csv_files_written s) None.

(** Methods that touch these files. *)
Definition Ops (A : Type) : Type := Site -> outcome A * Site.

Definition sret {A} (a : A) : Ops A := fun s => (Returned a, s).

Definition sbind {A B} (m : Ops A) (k : A -> Ops B) : Ops B :=
  fun s =>
    match m s with
    | (Returned a, s') => k a s'
    | (Raised e, s') => (Raised e, s')
    end.

Definition lift {A} (m : Py A) : Ops A :=
  fun s => let (r, w) := m (world s) in (r, set_world w s).

Definition stry_except {A} (body : Ops A) (handler : PyExc -> Ops A) : Ops A :=
  fun s =>
    match body s with
    | (Returned a, s') => (Returned a, s')
    | (Raised e, s') => handler e s'
    end.

Fixpoint sfor_in {X S} (xs : list X) (body : X -> S -> Ops S) (state : S) : Ops S :=
  match xs with
  | [] => sret state
  | x :: xs' => sbind (body x state) (sfor_in xs' body)
  end.

Declare Scope ops_scope.
Delimit Scope ops_scope with ops.
Notation "x <- m ;; k" := (sbind m (fun x => k))
  (at level 100, m at next level, right associativity) : ops_scope.
Notation "m ;; k" := (sbind m (fun _ => k))
  (at level 100, right associativity) : ops_scope.

(** [sqlite3.connect(backup_path)] followed by
    [conn_orig.backup(conn_backup)] and the two [close]: the target file
    becomes a copy of what the open connection to the database sees. *)
Definition backup_to (backup_path : string) : Ops unit :=
  fun s =>
    match db_files s backup_path with
    | None => (Raised unable_to_open, s)
    | Some _ =>
        match conn (world s) with
        | Some db => (Returned tt, set_world (set_conn None (world s)) (set_db_file backup_path db s))
        | None => (Raised closed_database, s)
        end
    end.

(** [DatabaseUtils.backup_database]; [db_files] describes the paths
    other than the database's own. *)
Definition backup_database (backup_path : option string) : Ops (option string) :=
  (fun s =>
     (backup_path <- sret (match backup_path with
                           | None => "food_waste_backup_" ++ strftime_now s ++ ".db"
                           | Some path => path
                           end) ;;
      stry_except
        (lift sqlite3_connect ;;
         backup_to backup_path ;;
         lift (print ("✅ Database backed up to: " ++ backup_path)) ;;
         sret (Some backup_path))
        (fun e =>
           lift (print ("❌ Error creating backup: " ++ str e)) ;;
           sret None))%ops s).

(** [os.makedirs(path, exist_ok=True)] *)
Definition os_makedirs (path : string) : Ops unit :=
  fun s =>
    match makedirs_error s path with
    | None => (Returned tt, s)
    | Some e => (Raised e, s)
    end.

Definition ends_with_slash (s : string) : bool :=
  match rev (list_ascii_of_string s) with
  | c :: _ => Ascii.eqb c "/"
  | [] => false
  end.

(** [os.path.join(dir, name)] for a relative [name]. *)
Definition os_path_join (dir name : string) : string :=
  if String.eqb dir "" then name
  else if ends_with_slash dir then dir ++ name
  else dir ++ "/" ++ name.

(** [df.to_csv(file_path, index=False)] *)
Definition to_csv (file_path : string) (df : DataFrame AnyRow) : Ops unit :=
  fun s => (Returned tt, add_csv_file file_path df s).

Definition export_data_to_csv (output_dir : string) : Ops (list string) :=
  (stry_except
     (os_makedirs output_dir ;;
      lift sqlite3_connect ;;
      exported_files <-
        sfor_in ["providers"; "receivers"; "food_listings"; "claims"]
          (fun table exported_files =>
             df <- lift (pd_read_sql_query (select_star_from table) []) ;;
             file_path <- sret (os_path_join output_dir (table ++ "_export.csv")) ;;
             to_csv file_path df ;;
             lift (print ("✅ Exported " ++ table ++ " to " ++ file_path)) ;;
             sret (exported_files ++ [file_path])%list)
          [] ;;
      lift close ;;
      sret exported_files)
     (fun e =>
        lift (print ("❌ Error exporting data: " ++ str e)) ;;
        sret []))%ops.

(** ** [database_setup.py]: the script *)

(** [os.path.dirname(path)] for a path that does not begin with a
    slash: what precedes the last slash. *)
Fixpoint dirname_chars (cs : list ascii) : list ascii :=
  match cs with
  | [] => []
  | c :: cs' =>
      if existsb (fun x => Ascii.eqb x "/") cs' then c :: dirname_chars cs'
      else []
  end.

Definition os_path_dirname (path : string) : string :=
  string_of_list_ascii (dirname_chars (list_ascii_of_string path)).

(** [DatabaseSetup()] with the default [db_path]. *)
Definition DatabaseSetup : Ops unit :=
  os_makedirs (os_path_dirname "database/food_waste.db").

(** The [if __name__ == "__main__":] block of [database_setup.py]. *)
Definition database_setup_main : Ops unit :=
  (stry_except
     (DatabaseSetup ;;
      lift create_tables ;;
      lift load_csv_data ;;
      lift (print "üéâ Database setup completed!"))
     (fun e => lift (print ("‚ùå Database setup failed: " ++ str e))))%ops.

(** The same block of [food_waste_project/database_setup.py]. *)
Definition food_waste_project_main : Ops unit :=
  (DatabaseSetup ;;
   lift food_waste_project.create_tables ;;
   lift food_waste_project.load_csv_data ;;
   lift (print "Database setup completed!"))%ops.

(** ** [main.py]: the food filter of [search_filter] *)

Definition split_last {A} (l : list A) : option (list A * A) :=
  match rev l with
  | [] => None
  | x :: l' => Some (rev l', x)
  end.

(** [query += fragment] where the fragment is [" AND column = ?"]: the
    new placeholder is the last one of the text, so it takes the last
    parameter. *)
Definition AND_equals (query : Statement FoodListing.row) (fragment : string)
  (column : FoodListing.row -> option string) : Statement FoodListing.row := {|
  sql := sql query ++ fragment;
  run := fun params ck db =>
    match split_last params with
    | Some (params', v) =>
        let* df := run query params' ck db in
        Returned {| columns := columns df;
                    rows := filter (fun fl => sql_eq_text (column fl) (as_text v))
                                   (rows df) |}
    | None => Raised wrong_bindings
    end
|}.

(** ["SELECT * FROM food_listings WHERE 1=1"] *)
Definition select_food_listings_where_1_1 : Statement FoodListing.row := {|
  sql := "SELECT * FROM food_listings WHERE 1=1";
  run := fun params _ db =>
    no_params params
      (let* fls := FROM "food_listings" (food_listings db) in
       Returned {| columns := food_listings_columns; rows := fls |})
|}.

(** What the page shows after the query. *)
Inductive Shown (A : Type) :=
| st_success (message : string) (dataframe : DataFrame A)
| st_warning (message : string).
Arguments st_success {A} message dataframe.
Arguments st_warning {A} message.

(** The body of [if st.button("Apply Filters"):]. *)
Definition apply_filters (food_type_filter meal_type_filter city_filter : string)
  : Py (Shown FoodListing.row) :=
  let query := select_food_listings_where_1_1 in
  let params := [] in
  let '(query, params) :=
    if negb (String.eqb food_type_filter "All")
    then (AND_equals query " AND Food_Type = ?" FoodListing.Food_Type,
          (params ++ [Text food_type_filter])%list)
    else (query, params) in
  let '(query, params) :=
    if negb (String.eqb meal_type_filter "All")
    then (AND_equals query " AND Meal_Type = ?" FoodListing.Meal_Type,
          (params ++ [Text meal_type_filter])%list)
    else (query, params) in
  let '(query, params) :=
    if negb (String.eqb city_filter "All")
    then (AND_equals query " AND Location = ?" FoodListing.Location,
          (params ++ [Text city_filter])%list)
    else (query, params) in
  filtered_data <- execute_query query (match params with [] => None | _ => Some params end) ;;
  if negb (empty filtered_data)
  then ret (st_success ("Found " ++ fmt (Z.of_nat (List.length (rows filtered_data)))
                        ++ " matching food items") filtered_data)
  else ret (st_warning "No food items match the selected criteria").

(** * Specification

    What the theorems below speak of, in terms of the tables. *)

(** ** [execute_query] *)

(** The parameters [execute_query] hands to pandas: the caller's, in
    their order; none when the caller gave none. *)
Definition bound (params : option (list SqlValue)) : list SqlValue :=
  match params with
  | Some ps => ps
  | None => []
  end.

(** What [execute_query] prints when it fails. *)
Definition query_error_line {A} (query : Statement A) (e : PyExc) : string :=
  "Error executing query: Execution failed on sql '" ++ sql query ++ "': " ++ str e.

(** ** The purge *)

(** The database the purge leaves behind. *)
Definition purged (today : string) (db : Database) : Database :=
  match food_listings db with
  | Some fls =>
      set_food_listings (Some (filter (fun fl => negb (expired today fl)) fls)) db
  | None => db
  end.

(** The number the purge reports. *)
Definition purge_count (today : string) (db : Database) : Z :=
  match food_listings db with
  | Some fls => Z.of_nat (List.length (filter (expired today) fls))
  | None => 0
  end.

(** *** Calendar dates as text *)

(** A date written YYYY-MM-DD, as [date('now')] writes it and as the
    dashboard stores an expiry date. *)
Definition digit_char (n : Z) : ascii := ascii_of_N (Z.to_N (48 + n)).

Definition iso_date (Y M D : Z) : string :=
  String (digit_char (Y / 1000))
    (String (digit_char (Y / 100 mod 10))
       (String (digit_char (Y / 10 mod 10))
          (String (digit_char (Y mod 10))
             (String "-"
                (String (digit_char (M / 10))
                   (String (digit_char (M mod 10))
                      (String "-"
                         (String (digit_char (D / 10))
                            (String (digit_char (D mod 10)) EmptyString))))))))).





(** ** Setup and load *)

(** The database after the four CREATE TABLE IF NOT EXISTS statements. *)
Definition with_table {R} (table : Database -> option (list R))
  (set_table : option (list R) -> Database -> Database) (db : Database) : Database :=
  match table db with
  | Some _ => db
  | None => set_table (Some []) db
  end.

Definition with_tables (db : Database) : Database :=
  with_table claims set_claims
    (with_table food_listings set_food_listings
       (with_table receivers set_receivers
          (with_table providers set_providers db))).

(** What C8 says of one version of [create_tables], run on a file that
    opens and holds [db]. *)
Definition rerun_is_harmless (create : Py unit) (w : World) (db : Database) : Prop :=
  exists w1 w2 db1,
    create w = (Returned tt, w1) /\
    create w1 = (Returned tt, w2) /\
    disk w1 = Some db1 /\
    disk w2 = Some db1 /\
    (forall t, providers db = Some t -> providers db1 = Some t) /\
    (forall t, receivers db = Some t -> receivers db1 = Some t) /\
    (forall t, food_listings db = Some t -> food_listings db1 = Some t) /\
    (forall t, claims db = Some t -> claims db1 = Some t) /\
    (is_some (providers db) && is_some (receivers db) &&
     is_some (food_listings db) && is_some (claims db) = true -> db1 = db).




(** ** Reports *)

Definition Qsum (l : list Q) : Q := fold_right Qplus 0%Q l.

Definition Zsum (l : list Z) : Z := fold_right Z.add 0 l.

(** The claims with a given status (NULL is a status of its own). *)
Definition claims_with_status (s : option string) (cs : list Claim.row) : list Claim.row :=
  filter (same_key status_eq_dec Claim.Status s) cs.

(** [p] is [x] rounded to two decimals: a whole number of hundredths, not
    further than half a hundredth from [x], and the one of the two
    further from zero when [x] is half-way between two of them (half-up,
    on the non-negative figures of the reports). *)
Definition rounds_to_2_decimals (x p : Q) : Prop :=
  (exists n : Z, p == inject_Z n / 100)%Q /\
  (Qabs (p - x) <= 1 # 200)%Q /\
  ((Qabs (p - x) == 1 # 200)%Q -> (Qabs x <= Qabs p)%Q).

(** [count] as a percentage of [total], to two decimals. *)
Definition share_of (count total : Z) : Q :=
  ROUND (inject_Z count * 100 / inject_Z total) 2.

(** The row of report 10 for a status, as the report is described. *)
Definition row_10 (cs : list Claim.row) (s : option string) : Report10.row :=
  {| Report10.Status := s;
     Report10.Count := Z.of_nat (List.length (claims_with_status s cs));
     Report10.Percentage :=
       Some (share_of (Z.of_nat (List.length (claims_with_status s cs)))
                      (Z.of_nat (List.length cs))) |}.

(** Two rows of report 10 in descending order of [Count]. *)
Definition count_ge (a b : Report10.row) : Prop :=
  Report10.Count b <= Report10.Count a.

(** [fl] is a listing of provider [p]; [c] is a claim on listing [fl]. *)
Definition listing_of (p : Provider.row) (fl : FoodListing.row) : bool :=
  sql_eq_int (Some (Provider.Provider_ID p)) (FoodListing.Provider_ID fl).

Definition claim_on (fl : FoodListing.row) (c : Claim.row) : bool :=
  sql_eq_int (Some (FoodListing.Food_ID fl)) (Claim.Food_ID c).

(** The claims on the listings of a provider, each claim once. *)
Definition claims_on_provider (fls : list FoodListing.row) (cs : list Claim.row)
  (p : Provider.row) : list Claim.row :=
  filter (fun c => existsb (fun fl => listing_of p fl && claim_on fl c) fls) cs.

(** [Status] is exactly 'Completed'. *)
Definition completed (c : Claim.row) : bool :=
  sql_eq_text (Claim.Status c) (Some "Completed").

Definition is_nil {A} (l : list A) : bool :=
  match l with [] => true | _ => false end.

(** The row of report 9 for a provider, as the report is described. *)
Definition row_9 (fls : list FoodListing.row) (cs : list Claim.row) (p : Provider.row)
  : Report9.row :=
  let total := Z.of_nat (List.length (claims_on_provider fls cs p)) in
  let successful :=
    Z.of_nat (List.length (filter completed (claims_on_provider fls cs p))) in
  {| Report9.Name := Provider.Name p;
     Report9.Type_ := Provider.Type_ p;
     Report9.City := Provider.City p;
     Report9.Total_Claims := total;
     Report9.Successful_Claims := Some successful;
     Report9.Success_Rate_Percent := Some (share_of successful total) |}.

(** Two rows of report 9 in descending order of [Successful_Claims]. *)
Definition successful_ge (a b : Report9.row) : Prop :=
  match Report9.Successful_Claims a, Report9.Successful_Claims b with
  | Some x, Some y => y <= x
  | _, _ => False
  end.

(** The joined rows of report 9 that belong to provider [p]: one per
    listing of [p] and claim on that listing. *)
Definition rows_9 (fls : list FoodListing.row) (cs : list Claim.row) (p : Provider.row)
  : list (Provider.row * FoodListing.row * option Claim.row) :=
  flat_map (fun fl => map (fun c => ((p, fl), Some c)) (filter (claim_on fl) cs))
    (filter (listing_of p) fls).

(** The Julian day number of the midnight that began the day before the
    current one (Julian days begin at noon). *)
Definition yesterday (ck : Clock) : Q :=
  (inject_Z (Qfloor (julianday_now ck - (1 # 2))) + (1 # 2) - 1)%Q.





(** Two rows of report 15 in the order of their expiry dates. *)
Definition expiry_date_le (a b : Report15.row) : Prop :=
  textleb_null (Report15.Expiry_Date a) (Report15.Expiry_Date b) = true.

(** ** The other reports *)

(** Two rows in the order of their pair of TEXT keys. *)
Definition text2_le (a b : string * string) : Prop := text2_leb a b = true.

(** The row of report 3 for a provider. *)
Definition row_3 (p : Provider.row) : Report3.row :=
  {| Report3.Name := Provider.Name p;
     Report3.Type_ := Provider.Type_ p;
     Report3.Address := Provider.Address p;
     Report3.Contact := Provider.Contact p |}.


(** The quantities of some listings, added up, and their mean. *)
Definition quantity_of_all (fls : list FoodListing.row) : Z :=
  Zsum (map FoodListing.Quantity fls).


(** The largest integer of the engine: a SUM that would pass it fails. *)
Definition largest_integer : Z := 9223372036854775807.

(** No listing has a negative quantity. *)
Definition no_negative_quantity (fls : list FoodListing.row) : Prop :=
  Forall (fun fl => 0 <= FoodListing.Quantity fl) fls.

(** The statement fails on a SUM that passes the largest integer:
    [execute_query] returns the empty frame and prints the engine's
    message. *)
Definition fails_with_integer_overflow {A} (query : Statement A) (w : World) : Prop :=
  exists w1,
    execute_query query None w = (Returned pd_DataFrame, w1) /\
    stdout w1
    = (stdout w
       ++ [query_error_line query
             {| exc_class := sqlite3_Error; str := "integer overflow" |}])%list.



(** [Status] is exactly [status]. *)
Definition with_status (status : string) (c : Claim.row) : bool :=
  sql_eq_text (Claim.Status c) (Some status).

(** The row of report 8 for a listing, as the report is described. *)
Definition row_8 (cs : list Claim.row) (fl : FoodListing.row) : Report8.row :=
  let mine := filter (claim_on fl) cs in
  {| Report8.Food_Name := FoodListing.Food_Name fl;
     Report8.Available_Quantity := FoodListing.Quantity fl;
     Report8.Location := FoodListing.Location fl;
     Report8.Total_Claims := Z.of_nat (List.length mine);
     Report8.Completed_Claims :=
       Some (Z.of_nat (List.length (filter (with_status "Completed") mine)));
     Report8.Pending_Claims :=
       Some (Z.of_nat (List.length (filter (with_status "Pending") mine)));
     Report8.Cancelled_Claims :=
       Some (Z.of_nat (List.length (filter (with_status "Cancelled") mine))) |}.

(** The joined rows of reports 8 and 12 that belong to listing [fl]: one
    per claim on it, and one without a claim when there is none. *)
Definition rows_8 (cs : list Claim.row) (fl : FoodListing.row)
  : list (FoodListing.row * option Claim.row) :=
  match filter (claim_on fl) cs with
  | [] => [(fl, None)]
  | matches => map (fun c => (fl, Some c)) matches
  end.


(** What reports 4 and 11 both say of a receiver: name, type, city,
    number of claims and quantity received. *)
Definition figures_4 (r : Report4.row) : string * string * string * Z * option Z :=
  (Report4.Name r, Report4.Type_ r, Report4.City r, Report4.Total_Claims r,
   Report4.Food_Received r).

Definition figures_11 (r : Report11.row) : string * string * string * Z * option Z :=
  (Report11.Name r, Report11.Type_ r, Report11.City r, Report11.Total_Claims r,
   Report11.Total_Food_Received r).

(** The frame [execute_query] returns for a statement. *)
Definition frame_of {A} (query : Statement A) (params : option (list SqlValue))
  (w : World) : DataFrame A :=
  match disk w with
  | None => pd_DataFrame
  | Some db =>
      match run query (bound params) (clock w) db with
      | Returned df => df
      | Raised _ => pd_DataFrame
      end
  end.

(** The claim names the receiver, and the listing the claim names. *)
Definition claimed_by (r : Receiver.row) (c : Claim.row) : bool :=
  sql_eq_int (Some (Receiver.Receiver_ID r)) (Claim.Receiver_ID c).

Definition listing_claimed (fls : list FoodListing.row) (c : Claim.row)
  : option FoodListing.row :=
  find (fun fl => sql_eq_int (Claim.Food_ID c) (Some (FoodListing.Food_ID fl))) fls.

(** What a claim adds to the quantity a receiver has under [status]:
    the quantity of the listing it names when its status is [status]
    (NULL when that listing is not there), 0 otherwise. *)
Definition quantity_under (status : string) (fls : list FoodListing.row) (c : Claim.row)
  : option Z :=
  if with_status status c
  then option_map FoodListing.Quantity (listing_claimed fls c)
  else Some 0.

(** The quantity report 4 has for a receiver under a status. *)
Definition received_under (status : string) (cs : list Claim.row)
  (fls : list FoodListing.row) (r : Receiver.row) : option Z :=
  match filter (claimed_by r) cs with
  | [] => Some 0
  | mine => SUM (quantity_under status fls) mine
  end.

(** The row of report 4 for a receiver, as the report is described. *)
Definition row_4 (cs : list Claim.row) (fls : list FoodListing.row) (r : Receiver.row)
  : Report4.row :=
  let mine := filter (claimed_by r) cs in
  {| Report4.Name := Receiver.Name r;
     Report4.Type_ := Receiver.Type_ r;
     Report4.City := Receiver.City r;
     Report4.Total_Claims := Z.of_nat (List.length mine);
     Report4.Food_Received :=
       match mine with
       | [] => Some 0
       | _ => SUM (quantity_under "Completed" fls) mine
       end;
     Report4.Food_Pending :=
       match mine with
       | [] => Some 0
       | _ => SUM (quantity_under "Pending" fls) mine
       end |}.

(** The joined rows of reports 4 and 11 that belong to receiver [r],
    when no two listings share a [Food_ID]: one per claim of [r], and
    one without a claim when [r] claimed nothing. *)
Definition rows_4 (cs : list Claim.row) (fls : list FoodListing.row) (r : Receiver.row)
  : list (Receiver.row * option Claim.row * option FoodListing.row) :=
  match filter (claimed_by r) cs with
  | [] => [((r, None), None)]
  | mine => map (fun c => ((r, Some c), listing_claimed fls c)) mine
  end.



(** A number the joins of the reports have no more rows than. *)
Definition joined_rows_at_most (ps : list Provider.row) (rs : list Receiver.row)
  (fls : list FoodListing.row) (cs : list Claim.row) : Z :=
  Z.max 1 (Z.of_nat (List.length ps)) * Z.max 1 (Z.of_nat (List.length rs))
  * Z.max 1 (Z.of_nat (List.length fls)) * Z.max 1 (Z.of_nat (List.length cs)).

(** The titles under which [get_all_queries_results] files the reports. *)
Definition titles_of_all_queries : list string :=
  ["Query 1: Providers & Receivers by City";
   "Query 2: Provider Type Contributions";
   "Query 4: Top Claiming Receivers";
   "Query 5: Total Food Quantity";
   "Query 6: City Food Listings";
   "Query 7: Common Food Types";
   "Query 8: Claims per Food Item";
   "Query 9: Successful Providers";
   "Query 10: Claim Status Distribution";
   "Query 11: Avg Quantity per Receiver";
   "Query 12: Popular Meal Types";
   "Query 13: Provider Donations";
   "Query 14: Expiring Food";
   "Query 15: Unclaimed Food"].

(** A frame of the results that has neither columns nor rows. *)
Definition is_pd_DataFrame (f : AnyFrame) : Prop :=
  columns (the_frame f) = [] /\ rows (the_frame f) = [].

(** ** The utilities *)

(** The file opens and holds the four tables. *)
Definition all_tables_present (d : option Database) : bool :=
  match d with
  | Some db =>
      is_some (providers db) && is_some (receivers db) &&
      is_some (food_listings db) && is_some (claims db)
  | None => false
  end.

(** The value under [key] of a dict. *)
Definition dict_get {V} (key : string) (d : list (string * V)) : option V :=
  option_map snd (find (fun entry => String.eqb (fst entry) key) d).

(** ** The set-up *)

(** The CSV files of the data directory that are not there, in the
    order in which [load_csv_data] looks for them. *)
Definition missing_files (d : DataDir) : list string :=
  ((if is_some (providers_data_csv d) then [] else ["data/providers_data.csv"])
   ++ (if is_some (receivers_data_csv d) then [] else ["data/receivers_data.csv"])
   ++ (if is_some (food_listings_data_csv d) then [] else ["data/food_listings_data.csv"])
   ++ (if is_some (claims_data_csv d) then [] else ["data/claims_data.csv"]))%list.

(** The rows of a file that is there and parses. *)
Definition parsed {R} (file : option (CsvFile R)) : option (list R) :=
  match file with
  | Some (Parsed content) => Some content
  | _ => None
  end.

(** The database after the tables have been replaced one after the
    other, in the order providers, receivers, listings, claims, up to
    the first file that is missing or does not parse. *)
Definition loaded_until_failure (d : DataDir) (db : Database) : Database :=
  match parsed (providers_data_csv d) with
  | None => db
  | Some ps =>
      let db := set_providers (Some ps) db in
      match parsed (receivers_data_csv d) with
      | None => db
      | Some rs =>
          let db := set_receivers (Some rs) db in
          match parsed (food_listings_data_csv d) with
          | None => db
          | Some fls =>
              let db := set_food_listings (Some fls) db in
              match parsed (claims_data_csv d) with
              | None => db
              | Some cs => set_claims (Some cs) db
              end
          end
      end
  end.

(** All four files are there and parse. *)
Definition all_files_parse (d : DataDir) : bool :=
  is_some (parsed (providers_data_csv d)) && is_some (parsed (receivers_data_csv d)) &&
  is_some (parsed (food_listings_data_csv d)) && is_some (parsed (claims_data_csv d)).

(** ** The food filter *)

(** A listing's [column] passes the choice made in a select box: "All"
    lets every listing pass, any other choice the listings whose column
    is exactly that text. *)
Definition passes (choice : string) (column : option string) : bool :=
  String.eqb choice "All" || sql_eq_text column (Some choice).

Definition matching (food_type meal_type city : string) (fls : list FoodListing.row)
  : list FoodListing.row :=
  filter (fun fl => passes food_type (FoodListing.Food_Type fl)
                    && passes meal_type (FoodListing.Meal_Type fl)
                    && passes city (FoodListing.Location fl)) fls.

(** ** The export and the backup *)

(** The path of the file the export writes for a table. *)
Definition export_path (output_dir table : string) : string :=
  os_path_join output_dir (table ++ "_export.csv").

(** The files the export writes, table after table in the order
    providers, receivers, listings, claims, up to the first table that
    is not there. *)
Definition exported_before_failure (output_dir : string) (db : Database)
  : list (string * DataFrame AnyRow) :=
  match providers db with
  | None => []
  | Some ps =>
      (export_path output_dir "providers",
       {| columns := providers_columns; rows := map provider_row ps |})
      :: match receivers db with
         | None => []
         | Some rs =>
             (export_path output_dir "receivers",
              {| columns := receivers_columns; rows := map receiver_row rs |})
             :: match food_listings db with
                | None => []
                | Some fls =>
                    (export_path output_dir "food_listings",
                     {| columns := food_listings_columns; rows := map listing_row fls |})
                    :: match claims db with
                       | None => []
                       | Some cs =>
                           [(export_path output_dir "claims",
                             {| columns := claims_columns; rows := map claim_row cs |})]
                       end
                end
         end
  end.

(** The file a backup goes to: the path given, or a name made of the
    local time. *)
Definition backup_target (backup_path : option string) (s : Site) : string :=
  match backup_path with
  | Some path => path
  | None => "food_waste_backup_" ++ strftime_now s ++ ".db"
  end.

(** ** The scripts *)

(** Nothing stands in the way of the set-up: the directory of the
    database is there or can be made, the file opens and the four CSV
    files parse. *)
Definition setup_can_succeed (s : Site) : bool :=
  negb (is_some (makedirs_error s "database"))
  && is_some (disk (world s))
  && all_files_parse (data (world s)).

(** The rows of a table, none when the table is not there. *)
Definition rows_of {R} (table : option (list R)) : list R :=
  match table with
  | Some rs => rs
  | None => []
  end.

(** A statement that takes no parameters succeeds on [db] at any time. *)
Definition succeeds_on {A} (query : Statement A) (db : Database) : Prop :=
  forall ck, exists df, run query [] ck db = Returned df.

(** ** Concrete data *)

(** The rows of a query result; none when the query raised. *)
Definition frame_rows {A} (r : outcome (DataFrame A)) : list A :=
  match r with
  | Returned df => rows df
  | Raised _ => []
  end.

(** The value of a decimal digit. *)
Definition digit (c : ascii) : option Z :=
  let n := Z.of_N (N_of_ascii c) in
  if (48 <=? n) && (n <=? 57) then Some (n - 48) else None.

(** The Julian day number of the midnight that begins a day of the
    Gregorian calendar. *)
Definition julian_day (Y M D : Z) : Q :=
  let Y' := if M <=? 2 then Y - 1 else Y in
  let M' := if M <=? 2 then M + 12 else M in
  let A := Y' / 100 in
  let B := 2 - A + A / 4 in
  let X1 := 36525 * (Y' + 4716) / 100 in
  let X2 := 306001 * (M' + 1) / 10000 in
  (inject_Z (X1 + X2 + D + B) - (3049 # 2))%Q.

(** A reader of dates written YYYY-MM-DD, the form in which the
    dashboard stores [Expiry_Date]; it stands for the engine's
    [julianday] when the reports are run on concrete data. *)
Definition iso_julianday (s : string) : option Q :=
  match map digit (list_ascii_of_string s) with
  | [Some y1; Some y2; Some y3; Some y4; None; Some m1; Some m2; None; Some d1; Some d2] =>
      let Y := 1000 * y1 + 100 * y2 + 10 * y3 + y4 in
      let M := 10 * m1 + m2 in
      let D := 10 * d1 + d2 in
      if (1 <=? M) && (M <=? 12) && (1 <=? D) && (D <=? 31)
      then Some (julian_day Y M D)
      else None
  | _ => None
  end.

Definition provider (id : Z) (name city : string) : Provider.row :=
  {| Provider.Provider_ID := id; Provider.Name := name;
     Provider.Type_ := "Restaurant"; Provider.Address := None;
     Provider.City := city; Provider.Contact := Some "555-0100" |}.

Definition listing (id : Z) (name : string) (quantity : Z) (expiry : string)
  (provider_id : Z) : FoodListing.row :=
  {| FoodListing.Food_ID := id; FoodListing.Food_Name := name;
     FoodListing.Quantity := quantity; FoodListing.Expiry_Date := Some expiry;
     FoodListing.Provider_ID := Some provider_id;
     FoodListing.Provider_Type := Some "Restaurant";
     FoodListing.Location := Some "City X";
     FoodListing.Food_Type := Some "Vegetarian";
     FoodListing.Meal_Type := Some "Lunch" |}.

Definition claim (id food_id : Z) (status : string) : Claim.row :=
  {| Claim.Claim_ID := id; Claim.Food_ID := Some food_id;
     Claim.Receiver_ID := Some 1; Claim.Status := Some status;
     Claim.Timestamp := Some "2025-03-15 10:00:00" |}.

Definition receiver (id : Z) (name : string) : Receiver.row :=
  {| Receiver.Receiver_ID := id; Receiver.Name := name; Receiver.Type_ := "NGO";
     Receiver.City := "City X"; Receiver.Contact := None |}.

(** Noon of 17 March 2025. *)
Definition noon_2025_03_17 : Clock :=
  {| julianday_now := 2460752; date_now := "2025-03-17" |}.

Definition no_files : DataDir :=
  {| providers_data_csv := None; receivers_data_csv := None;
     food_listings_data_csv := None; claims_data_csv := None |}.

Definition world_of (db : Database) (files : DataDir) : World :=
  {| disk := Some db; conn := None; stdout := []; clock := noon_2025_03_17;
     data := files |}.

(** Two providers, three listings (one of them expired the day before),
    three claims. *)
Definition example_providers : list Provider.row :=
  [provider 1 "A" "City X"; provider 2 "B" "City Y"].

Definition example_listings : list FoodListing.row :=
  [listing 1 "Rice" 10 "2025-03-16" 1;
   listing 2 "Bread" 4 "2025-03-20" 1;
   listing 3 "Soup" 6 "2025-04-30" 2].

Definition example_claims : list Claim.row :=
  [claim 1 1 "Completed"; claim 2 1 "Pending"; claim 3 2 "Cancelled"].

Definition example_db : Database :=
  {| providers := Some example_providers; receivers := Some [receiver 1 "R"];
     food_listings := Some example_listings; claims := Some example_claims |}.

Definition example_files : DataDir :=
  {| providers_data_csv := Some (Parsed [provider 7 "C" "City Z"]);
     receivers_data_csv := Some (Parsed []);
     food_listings_data_csv := Some (Parsed [listing 9 "Dal" 3 "2025-05-01" 7]);
     claims_data_csv := Some (Parsed []) |}.

Definition example_world : World := world_of example_db example_files.

(** A listing that names a provider the [providers] table does not
    hold, and that nobody claimed. *)
Definition orphan_listing : FoodListing.row := listing 2 "Bread" 4 "2025-03-20" 7.

Definition orphan_db : Database :=
  {| providers := Some [provider 1 "A" "City X"]; receivers := Some [];
     food_listings := Some [listing 1 "Rice" 10 "2099-01-01" 1; orphan_listing];
     claims := Some [] |}.

Definition orphan_world : World := world_of orphan_db no_files.

(** One provider with one listing of quantity 10, claimed twice. *)
Definition twice_claimed_db : Database :=
  {| providers := Some [provider 1 "A" "City X"]; receivers := Some [receiver 1 "R"];
     food_listings := Some [listing 1 "Rice" 10 "2099-01-01" 1];
     claims := Some [claim 1 1 "Completed"; claim 2 1 "Pending"] |}.

Definition twice_claimed_world : World := world_of twice_claimed_db no_files.




(** A statement the engine rejects. *)
Definition malformed : Statement Claim.row :=
  {| sql := "SELEC * FORM claims";
     run := fun _ _ _ =>
       Raised {| exc_class := sqlite3_Error; str := "near SELEC: syntax error" |} |}.

(** ** Concrete data, continued *)

(** A database file that cannot be opened. *)
Definition no_storage_world : World :=
  {| disk := None; conn := None; stdout := []; clock := noon_2025_03_17;
     data := no_files |}.

(** A listing that expires on the current day. *)
Definition todays_listing : FoodListing.row := listing 4 "Curd" 2 "2025-03-17" 1.

Definition todays_db : Database :=
  {| providers := Some example_providers; receivers := Some [receiver 1 "R"];
     food_listings := Some [todays_listing]; claims := Some [] |}.

Definition todays_world : World := world_of todays_db no_files.

(** A database without tables, as [sqlite3.connect] creates it. *)
Definition no_tables : Database :=
  {| providers := None; receivers := None; food_listings := None; claims := None |}.

(** The example database on a site where every directory can be made
    and every path can be opened, at noon and one second later, the
    first backup then being in place. *)
Definition example_site : Site :=
  {| world := example_world;
     db_files := fun _ => Some no_tables;
     csv_files_written := [];
     makedirs_error := fun _ => None;
     strftime_now := "20250317_120000" |}.

Definition example_site_a_second_later : Site :=
  {| world := example_world;
     db_files := fun path =>
       if String.eqb path "food_waste_backup_20250317_120000.db" then Some example_db
       else Some no_tables;
     csv_files_written := [];
     makedirs_error := fun _ => None;
     strftime_now := "20250317_120001" |}.

(** * Properties *)

(** ** Lists *)


Lemma filter_none_negb_all {A} (f : A -> bool) (l : list A) :
  filter f l = [] -> filter (fun a => negb (f a)) l = l.
Proof.
  induction l as [|a l IH]; simpl; [reflexivity|].
  destruct (f a); simpl; [discriminate|].
  intros H. f_equal. exact (IH H).
Qed.

Lemma filter_length_split {A} (f : A -> bool) (l : list A) :
  List.length l =
  (List.length (filter f l) + List.length (filter (fun a => negb (f a)) l))%nat.
Proof.
  induction l as [|a l IH]; simpl; [reflexivity|].
  destruct (f a); simpl; lia.
Qed.

Lemma set_food_listings_same (db : Database) (fls : list FoodListing.row) :
  food_listings db = Some fls -> set_food_listings (Some fls) db = db.
Proof. destruct db; simpl; intros ->; reflexivity. Qed.

(** ** [clean_expired_food] *)

Lemma clean_expired_food_run (w : World) :
  exists w1,
    clean_expired_food w =
      (Returned (match disk w with
                 | Some db => purge_count (date_now (clock w)) db
                 | None => 0
                 end), w1) /\
    clock w1 = clock w /\
    data w1 = data w /\
    disk w1 = option_map (purged (date_now (clock w))) (disk w).
Proof.
  unfold clean_expired_food, try_except, bind, sqlite3_connect.
  destruct (disk w) as [db|] eqn:Hd.
  2: { eexists. unfold print, ret; simpl. repeat split; simpl; auto. }
  unfold execute_select, count_expired, purge_count, purged. simpl.
  destruct (food_listings db) as [fls|] eqn:Hf; simpl.
  2: { eexists. unfold print, ret; simpl. repeat split; simpl; auto. }
  unfold COUNT_star.
  destruct (0 <? Z.of_nat (List.length (filter (expired (date_now (clock w))) fls))) eqn:Hc.
  - unfold execute_update, delete_expired, commit, print, close, ret; simpl.
    rewrite Hf; simpl.
    eexists; repeat split; simpl; auto.
  - unfold print, close, ret; simpl.
    eexists; repeat split; simpl; auto.
    rewrite Hd. simpl. f_equal.
    assert (H0 : filter (expired (date_now (clock w))) fls = []).
    { apply Z.ltb_ge in Hc. destruct (filter _ fls); [reflexivity|simpl in Hc; lia]. }
    rewrite (filter_none_negb_all _ _ H0).
    symmetry. apply set_food_listings_same. exact Hf.
Qed.

(** ** ORDER BY *)

Section Ordering.
Context {A : Type} (leb : A -> A -> bool).

Lemma insert_by_Permutation (x : A) (l : list A) :
  Permutation (insert_by leb x l) (x :: l).
Proof.
  induction l as [|y l IH]; simpl; [reflexivity|].
  destruct (leb x y); [reflexivity|].
  rewrite IH. apply perm_swap.
Qed.

Lemma ORDER_BY_Permutation (l : list A) : Permutation (ORDER_BY leb l) l.
Proof.
  induction l as [|x l IH]; simpl; [reflexivity|].
  rewrite insert_by_Permutation. constructor. exact IH.
Qed.

Lemma ORDER_BY_In (l : list A) (x : A) : In x (ORDER_BY leb l) <-> In x l.
Proof.
  split; apply Permutation_in;
    [apply ORDER_BY_Permutation | symmetry; apply ORDER_BY_Permutation].
Qed.

Hypothesis leb_total : forall a b, leb a b = true \/ leb b a = true.
Hypothesis leb_trans : forall a b c, leb a b = true -> leb b c = true -> leb a c = true.

Lemma insert_by_sorted (x : A) (l : list A) :
  StronglySorted (fun a b => leb a b = true) l ->
  StronglySorted (fun a b => leb a b = true) (insert_by leb x l).
Proof.
  induction 1 as [|y l Hs IH Hall]; simpl.
  - repeat constructor.
  - destruct (leb x y) eqn:E.
    + constructor; [constructor; assumption|].
      constructor; [exact E|].
      eapply Forall_impl; [|exact Hall].
      intros z Hz. exact (leb_trans _ _ _ E Hz).
    + constructor; [exact IH|].
      apply Forall_forall. intros z Hz.
      apply (Permutation_in _ (insert_by_Permutation x l)) in Hz.
      destruct Hz as [<-|Hz].
      * destruct (leb_total x y) as [H|H]; [congruence|exact H].
      * rewrite Forall_forall in Hall. exact (Hall z Hz).
Qed.

Lemma ORDER_BY_sorted (l : list A) :
  StronglySorted (fun a b => leb a b = true) (ORDER_BY leb l).
Proof.
  induction l as [|x l IH]; simpl; [constructor|].
  apply insert_by_sorted. exact IH.
Qed.

End Ordering.

(** The orders of the keys are total and transitive. *)

Lemma Zleb_null_total (a b : option Z) : Zleb_null a b = true \/ Zleb_null b a = true.
Proof. destruct a, b; simpl; auto. lia. Qed.

Lemma Zleb_null_trans (a b c : option Z) :
  Zleb_null a b = true -> Zleb_null b c = true -> Zleb_null a c = true.
Proof. destruct a, b, c; simpl; auto; try discriminate. lia. Qed.



Lemma ascii_compare_Lt_trans (a b c : ascii) :
  Ascii.compare a b = Lt -> Ascii.compare b c = Lt -> Ascii.compare a c = Lt.
Proof.
  unfold Ascii.compare. rewrite !N.compare_lt_iff. lia.
Qed.

Lemma string_compare_Lt_trans (s1 : string) :
  forall s2 s3, String.compare s1 s2 = Lt -> String.compare s2 s3 = Lt ->
                String.compare s1 s3 = Lt.
Proof.
  induction s1 as [|a s1 IH]; intros [|b s2] [|c s3]; simpl; try discriminate; auto.
  destruct (Ascii.compare a b) eqn:Eab; try discriminate;
    destruct (Ascii.compare b c) eqn:Ebc; try discriminate; intros H1 H2.
  - apply Ascii.compare_eq_iff in Eab, Ebc. subst.
    assert (Hcc : Ascii.compare c c = Eq)
      by (unfold Ascii.compare; apply N.compare_refl).
    rewrite Hcc. eapply IH; eassumption.
  - apply Ascii.compare_eq_iff in Eab. subst. rewrite Ebc. reflexivity.
  - apply Ascii.compare_eq_iff in Ebc. subst. rewrite Eab. reflexivity.
  - rewrite (ascii_compare_Lt_trans _ _ _ Eab Ebc). reflexivity.
Qed.

Lemma string_compare_refl (s : string) : String.compare s s = Eq.
Proof.
  pose proof (String.compare_antisym s s) as H.
  destruct (String.compare s s); simpl in H; congruence.
Qed.

Lemma string_leb_trans (s1 s2 s3 : string) :
  String.leb s1 s2 = true -> String.leb s2 s3 = true -> String.leb s1 s3 = true.
Proof.
  unfold String.leb.
  destruct (String.compare s1 s2) eqn:E12; try discriminate;
    destruct (String.compare s2 s3) eqn:E23; try discriminate; intros _ _.
  - apply String.compare_eq_iff in E12, E23. subst.
    rewrite string_compare_refl. reflexivity.
  - apply String.compare_eq_iff in E12. subst. rewrite E23. reflexivity.
  - apply String.compare_eq_iff in E23. subst. rewrite E12. reflexivity.
  - rewrite (string_compare_Lt_trans _ _ _ E12 E23). reflexivity.
Qed.

Lemma textleb_null_total (a b : option string) :
  textleb_null a b = true \/ textleb_null b a = true.
Proof. destruct a, b; simpl; auto. apply String.leb_total. Qed.

Lemma textleb_null_trans (a b c : option string) :
  textleb_null a b = true -> textleb_null b c = true -> textleb_null a c = true.
Proof.
  destruct a, b, c; simpl; auto; try discriminate. apply string_leb_trans.
Qed.

(** ** Dates as text *)



(** ** [execute_query] *)

Lemma execute_query_run {A} (query : Statement A) (params : option (list SqlValue))
  (w : World) :
  exists df w1,
    execute_query query params w = (Returned df, w1) /\
    disk w1 = disk w /\
    match disk w with
    | None =>
        df = pd_DataFrame /\
        stdout w1 = (stdout w ++ [("Error executing query: " ++ str unable_to_open)%string])%list
    | Some db =>
        match run query (bound params) (clock w) db with
        | Returned r => df = r /\ stdout w1 = stdout w
        | Raised e =>
            df = pd_DataFrame /\ stdout w1 = (stdout w ++ [query_error_line query e])%list
        end
    end.
Proof.
  unfold execute_query, try_except, bind, sqlite3_connect.
  destruct (disk w) as [db|] eqn:Hd.
  2: { do 2 eexists. unfold print, ret; simpl. split; [reflexivity|].
       simpl. rewrite Hd. auto. }
  assert (Hrd : forall ps,
             pd_read_sql_query query ps (set_conn (Some db) w) =
             match run query ps (clock w) db with
             | Returned df => (Returned df, set_conn (Some db) w)
             | Raised e =>
                 (Raised {| exc_class := pandas_DatabaseError;
                            str := "Execution failed on sql '" ++ sql query ++ "': "
                                   ++ str e |},
                  set_conn (Some db) w)
             end) by reflexivity.
  assert (Hb : match params with
               | Some (v :: vs) => pd_read_sql_query query (v :: vs)
               | _ => pd_read_sql_query query []
               end = pd_read_sql_query query (bound params))
    by (destruct params as [[|v vs]|]; reflexivity).
  rewrite Hb, Hrd.
  destruct (run query (bound params) (clock w) db) as [r|e].
  - do 2 eexists. unfold close, ret; simpl. split; [reflexivity|]. simpl. auto.
  - do 2 eexists. unfold print, ret; simpl. split; [reflexivity|]. simpl. auto.
Qed.

Lemma execute_query_ok {A} (query : Statement A) (w : World) (db : Database)
  (df : DataFrame A) :
  disk w = Some db ->
  run query [] (clock w) db = Returned df ->
  fst (execute_query query None w) = Returned df.
Proof.
  intros Hd Hr.
  destruct (execute_query_run query None w) as (df' & w1 & -> & _ & H).
  rewrite Hd in H. simpl in H. rewrite Hr in H. destruct H as [-> _]. reflexivity.
Qed.

(** C9.  Whatever the statement, the parameters and the state of the
    storage, [execute_query] returns normally.  When the file cannot be
    opened or the engine rejects the statement (malformed text included)
    the result is the empty frame [pd.DataFrame()] and one line naming
    the error is printed; otherwise the result is what the engine
    computes for the statement's text with the caller's parameters bound
    to it as a separate list, and nothing is printed. *)
Theorem execute_query_never_raises {A} (query : Statement A)
  (params : option (list SqlValue)) (w : World) :
  exists df w1,
    execute_query query params w = (Returned df, w1) /\
    match disk w with
    | None =>
        df = pd_DataFrame /\
        stdout w1 = (stdout w ++ [("Error executing query: " ++ str unable_to_open)%string])%list
    | Some db =>
        match run query (bound params) (clock w) db with
        | Returned r => df = r /\ stdout w1 = stdout w
        | Raised e =>
            df = pd_DataFrame /\ stdout w1 = (stdout w ++ [query_error_line query e])%list
        end
    end.
Proof.
  destruct (execute_query_run query params w) as (df & w1 & Hrun & _ & H).
  exists df, w1. split; assumption.
Qed.

(** ** [clean_expired_food] *)





(** C10.  The purge leaves the [providers], [receivers] and [claims]
    tables exactly as they were.  A claim whose [Food_ID] names a purged
    listing is still in [claims] afterwards, while that listing is gone
    from [food_listings]; when [Food_ID] is a key of [food_listings], no
    remaining listing carries the claim's [Food_ID]. *)
Theorem clean_expired_food_changes_only_food_listings (w : World) (db : Database) :
  disk w = Some db ->
  exists db1,
    disk (snd (clean_expired_food w)) = Some db1 /\
    providers db1 = providers db /\
    receivers db1 = receivers db /\
    claims db1 = claims db /\
    forall fls cs fl c,
      food_listings db = Some fls -> claims db = Some cs ->
      In fl fls -> In c cs ->
      expired (date_now (clock w)) fl = true ->
      Claim.Food_ID c = Some (FoodListing.Food_ID fl) ->
      exists fls1,
        food_listings db1 = Some fls1 /\
        claims db1 = Some cs /\
        ~ In fl fls1 /\
        (NoDup (map FoodListing.Food_ID fls) ->
         forall fl1, In fl1 fls1 ->
                     Claim.Food_ID c <> Some (FoodListing.Food_ID fl1)).
Proof.
  intros Hd.
  destruct (clean_expired_food_run w) as (w1 & Hrun & _ & _ & Hdisk).
  rewrite Hrun. simpl. rewrite Hdisk, Hd. simpl.
  eexists. split; [reflexivity|].
  unfold purged.
  destruct (food_listings db) as [fls0|] eqn:Hf; simpl.
  - repeat split; try reflexivity.
    intros fls cs fl c Hfls Hcs Hfl Hc Hexp Hid. inversion Hfls; subst fls0.
    eexists. split; [reflexivity|]. split; [exact Hcs|]. split.
    + rewrite filter_In, Hexp. simpl. intros [_ H]. discriminate.
    + intros Hnd fl1 Hfl1 Heq. rewrite Hid in Heq. inversion Heq as [Hids].
      apply filter_In in Hfl1. destruct Hfl1 as [Hin1 Hne].
      assert (fl1 = fl).
      { clear - Hnd Hfl Hin1 Hids.
        induction fls as [|x fls IH]; [contradiction|].
        simpl in Hnd. inversion Hnd as [|? ? Hnotin Hnd']; subst.
        destruct Hfl as [->|Hfl], Hin1 as [->|Hin1]; auto.
        - exfalso. apply Hnotin. rewrite Hids. apply in_map. exact Hin1.
        - exfalso. apply Hnotin. rewrite <- Hids. apply in_map. exact Hfl. }
      subst fl1. rewrite Hexp in Hne. discriminate.
  - repeat split; try reflexivity.
    intros fls cs fl c Hfls. discriminate.
Qed.

(** ** [create_tables] *)

Lemma with_tables_idempotent (db : Database) :
  with_tables (with_tables db) = with_tables db.
Proof. destruct db as [[?|] [?|] [?|] [?|]]; reflexivity. Qed.

Lemma with_tables_keeps (db : Database) :
  (forall t, providers db = Some t -> providers (with_tables db) = Some t) /\
  (forall t, receivers db = Some t -> receivers (with_tables db) = Some t) /\
  (forall t, food_listings db = Some t -> food_listings (with_tables db) = Some t) /\
  (forall t, claims db = Some t -> claims (with_tables db) = Some t).
Proof.
  destruct db as [[?|] [?|] [?|] [?|]]; repeat split; simpl; intros; congruence.
Qed.

Lemma with_tables_all_present (db : Database) :
  is_some (providers db) && is_some (receivers db) &&
  is_some (food_listings db) && is_some (claims db) = true ->
  with_tables db = db.
Proof.
  destruct db as [[?|] [?|] [?|] [?|]]; simpl; intros H;
    try discriminate; reflexivity.
Qed.

Lemma create_tables_run (w : World) (db : Database) :
  disk w = Some db ->
  exists w1,
    create_tables w = (Returned tt, w1) /\
    disk w1 = Some (with_tables db) /\
    clock w1 = clock w /\ data w1 = data w.
Proof.
  intros Hd.
  unfold create_tables, create_connection, try_except_sqlite3_Error, bind,
    sqlite3_connect.
  rewrite Hd. unfold ret at 1. cbv beta iota.
  unfold try_finally, try_except_sqlite3_Error, bind, execute_ddl,
    CREATE_TABLE_IF_NOT_EXISTS, commit, print, close, with_tables, with_table.
  destruct db as [[?|] [?|] [?|] [?|]]; simpl;
    eexists; repeat split; reflexivity.
Qed.

Lemma food_waste_project_create_tables_run (w : World) (db : Database) :
  disk w = Some db ->
  exists w1,
    food_waste_project.create_tables w = (Returned tt, w1) /\
    disk w1 = Some (with_tables db) /\
    clock w1 = clock w /\ data w1 = data w.
Proof.
  intros Hd.
  unfold food_waste_project.create_tables, create_connection,
    try_except_sqlite3_Error, bind, sqlite3_connect.
  rewrite Hd. unfold ret at 1. cbv beta iota.
  unfold try_finally, try_except_sqlite3_Error, bind, execute_ddl,
    CREATE_TABLE_IF_NOT_EXISTS, commit, print, close, with_tables, with_table.
  destruct db as [[?|] [?|] [?|] [?|]]; simpl;
    eexists; repeat split; reflexivity.
Qed.

(** C8.  On a file that opens, [create_tables] returns without raising,
    every table that was there keeps exactly its rows, a second run
    returns without raising too and leaves the file as the first run
    left it, and when the four tables were all there the file is not
    changed at all.  Both versions of the class behave so. *)
Theorem create_tables_idempotent (w : World) (db : Database) :
  disk w = Some db ->
  rerun_is_harmless create_tables w db /\
  rerun_is_harmless food_waste_project.create_tables w db.
Proof.
  intros Hd.
  destruct (with_tables_keeps db) as (Hp & Hr & Hf & Hc).
  split.
  - destruct (create_tables_run w db Hd) as (w1 & Hrun1 & Hd1 & _ & _).
    destruct (create_tables_run w1 _ Hd1) as (w2 & Hrun2 & Hd2 & _ & _).
    exists w1, w2, (with_tables db).
    rewrite with_tables_idempotent in Hd2.
    repeat split; auto using with_tables_all_present.
  - destruct (food_waste_project_create_tables_run w db Hd)
      as (w1 & Hrun1 & Hd1 & _ & _).
    destruct (food_waste_project_create_tables_run w1 _ Hd1)
      as (w2 & Hrun2 & Hd2 & _ & _).
    exists w1, w2, (with_tables db).
    rewrite with_tables_idempotent in Hd2.
    repeat split; auto using with_tables_all_present.
Qed.

(** ** [load_csv_data] *)


Lemma create_connection_ok (w : World) (db : Database) :
  disk w = Some db ->
  create_connection w = (Returned (Some connection), set_conn (Some db) w).
Proof.
  intros Hd.
  unfold create_connection, try_except_sqlite3_Error, bind, sqlite3_connect.
  rewrite Hd. reflexivity.
Qed.






(** ** Joins and comparisons *)

Lemma sql_eq_int_true (a b : option Z) :
  sql_eq_int a b = true <-> exists x, a = Some x /\ b = Some x.
Proof.
  destruct a as [x|], b as [y|]; simpl; split;
    try discriminate; try (intros (z & H1 & H2); discriminate).
  - intros H. apply Z.eqb_eq in H. subst. eauto.
  - intros (z & H1 & H2). inversion H1; inversion H2; subst. apply Z.eqb_refl.
Qed.

Lemma sql_eq_int_Some_l (x : Z) (b : option Z) :
  sql_eq_int (Some x) b = true <-> b = Some x.
Proof.
  rewrite sql_eq_int_true. split.
  - intros (z & H1 & H2). congruence.
  - intros ->. eauto.
Qed.

Lemma sql_eq_int_Some_r (a : option Z) (y : Z) :
  sql_eq_int a (Some y) = true <-> a = Some y.
Proof.
  rewrite sql_eq_int_true. split.
  - intros (z & H1 & H2). congruence.
  - intros ->. eauto.
Qed.

Lemma JOIN_In {A B} (l : list A) (r : list B) (on : A -> B -> bool) (a : A) (b : B) :
  In (a, b) (JOIN l r on) <-> In a l /\ In b r /\ on a b = true.
Proof.
  unfold JOIN. rewrite in_flat_map. split.
  - intros (a' & Ha & H). apply in_map_iff in H. destruct H as (b' & Heq & Hb).
    inversion Heq; subst. apply filter_In in Hb. tauto.
  - intros (Ha & Hb & Hon). exists a. split; [exact Ha|].
    apply in_map. apply filter_In. tauto.
Qed.

Lemma LEFT_JOIN_In {A B} (l : list A) (r : list B) (on : A -> B -> bool)
  (a : A) (ob : option B) :
  In (a, ob) (LEFT_JOIN l r on) <->
  In a l /\
  match ob with
  | Some b => In b r /\ on a b = true
  | None => forall b, In b r -> on a b = false
  end.
Proof.
  unfold LEFT_JOIN. rewrite in_flat_map. split.
  - intros (a' & Ha & H).
    destruct (filter (on a') r) as [|m ms] eqn:Hf.
    + destruct H as [H|[]]. inversion H; subst. split; [exact Ha|].
      intros b Hb. destruct (on a b) eqn:E; [|reflexivity].
      assert (Hin : In b (filter (on a) r)) by (apply filter_In; tauto).
      rewrite Hf in Hin. contradiction.
    + apply in_map_iff in H. destruct H as (b & Heq & Hb).
      inversion Heq; subst. split; [exact Ha|].
      rewrite <- Hf in Hb. apply filter_In in Hb. exact Hb.
  - intros (Ha & H). exists a. split; [exact Ha|].
    destruct ob as [b|].
    + assert (Hin : In b (filter (on a) r)) by (apply filter_In; tauto).
      destruct (filter (on a) r) as [|m ms]; [contradiction|].
      apply (in_map (fun b => (a, Some b))). exact Hin.
    + assert (Hf : filter (on a) r = []).
      { destruct (filter (on a) r) as [|m ms] eqn:Hf; [reflexivity|].
        assert (Hin : In m (filter (on a) r)) by (rewrite Hf; left; reflexivity).
        apply filter_In in Hin. destruct Hin as [Hm Hon].
        rewrite (H m Hm) in Hon. discriminate. }
      rewrite Hf. left. reflexivity.
Qed.

Lemma StronglySorted_impl_In {A} (R R' : A -> A -> Prop) (l : list A) :
  (forall a b, In a l -> In b l -> R a b -> R' a b) ->
  StronglySorted R l -> StronglySorted R' l.
Proof.
  intros Himp Hs. induction Hs as [|a l Hs IH Hall]; constructor.
  - apply IH. intros x y Hx Hy. apply Himp; right; assumption.
  - apply Forall_forall. intros b Hb. rewrite Forall_forall in Hall.
    apply Himp; [left; reflexivity|right; exact Hb|exact (Hall b Hb)].
Qed.

Lemma Qle_bool_false (x y : Q) : Qle_bool x y = false <-> (y < x)%Q.
Proof.
  split.
  - intros H. apply Qnot_le_lt. intros Hle.
    apply Qle_bool_iff in Hle. congruence.
  - intros H. destruct (Qle_bool x y) eqn:E; [|reflexivity].
    apply Qle_bool_iff in E. lra.
Qed.

Lemma Qltb_true (x y : Q) : Qltb x y = true <-> (x < y)%Q.
Proof. unfold Qltb. rewrite negb_true_iff. apply Qle_bool_false. Qed.

Lemma Qltb_false (x y : Q) : Qltb x y = false <-> (y <= x)%Q.
Proof. unfold Qltb. rewrite negb_false_iff. apply Qle_bool_iff. Qed.

(** ** Report 14 *)

Lemma expiry_status_cases (d : Q) :
  ((d < 0)%Q -> expiry_status (Some d) = "Expired") /\
  ((0 <= d)%Q -> (d <= 1)%Q -> expiry_status (Some d) = "Critical") /\
  ((1 < d)%Q -> (d <= 3)%Q -> expiry_status (Some d) = "Warning") /\
  ((3 < d)%Q -> expiry_status (Some d) = "Safe").
Proof.
  unfold expiry_status, sql_lt_real, sql_le_real.
  repeat split; intros.
  - rewrite (proj2 (Qltb_true d 0)); auto.
  - rewrite (proj2 (Qltb_false d 0)); auto.
    rewrite (proj2 (Qle_bool_iff d 1)); auto.
  - rewrite (proj2 (Qltb_false d 0)) by lra.
    rewrite (proj2 (Qle_bool_false d 1)); auto.
    rewrite (proj2 (Qle_bool_iff d 3)); auto.
  - rewrite (proj2 (Qltb_false d 0)) by lra.
    rewrite (proj2 (Qle_bool_false d 1)) by lra.
    rewrite (proj2 (Qle_bool_false d 3)); auto.
Qed.


Section Report14Facts.
Variable julianday : string -> option Q.
Variable ck : Clock.

Let days (fl : FoodListing.row) : option Q :=
  days_until_expiry julianday ck (FoodListing.Expiry_Date fl).


Lemma select_14_In (fls : list FoodListing.row) (r : Report14.row) :
  In r (select_14 julianday ck fls) <->
  exists fl, In fl fls /\ sql_le_real (days fl) 5 = true /\ r = row_14 julianday ck fl.
Proof.
  unfold select_14. rewrite ORDER_BY_In, in_map_iff. split.
  - intros (fl & <- & H). apply filter_In in H. exists fl. tauto.
  - intros (fl & Hin & Hle & ->). exists fl. split; [reflexivity|].
    apply filter_In. tauto.
Qed.

Lemma sql_le_real_true (d : option Q) (n : Q) :
  sql_le_real d n = true <-> exists x, d = Some x /\ (x <= n)%Q.
Proof.
  destruct d as [x|]; simpl.
  - rewrite Qle_bool_iff. split; [eauto|]. intros (y & H & Hy). congruence.
  - split; [discriminate|]. intros (y & H & _). discriminate.
Qed.


End Report14Facts.






(** ** Report 15 *)

Lemma select_15_In (julianday : string -> option Q) (ck : Clock)
  (fls : list FoodListing.row) (ps : list Provider.row) (cs : list Claim.row)
  (r : Report15.row) :
  In r (select_15 julianday ck fls ps cs) <->
  exists fl p,
    In fl fls /\ In p ps /\
    FoodListing.Provider_ID fl = Some (Provider.Provider_ID p) /\
    (forall c, In c cs -> Claim.Food_ID c <> Some (FoodListing.Food_ID fl)) /\
    r = row_15 julianday ck fl p.
Proof.
  unfold select_15. rewrite ORDER_BY_In, in_map_iff. split.
  - intros ([[fl p] oc] & <- & H). simpl.
    apply filter_In in H. destruct H as [H Hnull].
    apply LEFT_JOIN_In in H. destruct H as [Hj Hoc].
    apply JOIN_In in Hj. destruct Hj as (Hfl & Hp & Hon).
    apply sql_eq_int_Some_r in Hon.
    exists fl, p. repeat split; auto.
    destruct oc as [c|]; simpl in *.
    + destruct Hoc as [_ Hc]. apply sql_eq_int_Some_l in Hc.
      rewrite Hc in Hnull. discriminate.
    + intros c Hc Heq. specialize (Hoc c Hc).
      rewrite Heq in Hoc. simpl in Hoc. rewrite Z.eqb_refl in Hoc. discriminate.
  - intros (fl & p & Hfl & Hp & Hid & Hno & ->).
    exists ((fl, p), None). split; [reflexivity|].
    apply filter_In. split; [|reflexivity].
    apply LEFT_JOIN_In. split.
    + apply JOIN_In. repeat split; auto. apply sql_eq_int_Some_r. exact Hid.
    + intros c Hc.
      change (sql_eq_int (Some (FoodListing.Food_ID fl)) (Claim.Food_ID c) = false).
      destruct (sql_eq_int (Some (FoodListing.Food_ID fl)) (Claim.Food_ID c)) eqn:E;
        [|reflexivity].
      apply sql_eq_int_Some_l in E. exfalso. exact (Hno c Hc E).
Qed.

(** C1, as the code has it.  On a file that opens and holds the three
    tables, the rows of report 15 are exactly the rows built from a
    listing that no claim names (whatever the status of the claims that
    name other listings) and a provider whose [Provider_ID] the listing
    carries; each row holds that provider's name and contact; the rows
    are in ascending order of [Expiry_Date]. *)
Theorem query_15_lists_unclaimed_food_with_provider (julianday : string -> option Q)
  (w : World) (db : Database) (fls : list FoodListing.row) (ps : list Provider.row)
  (cs : list Claim.row) :
  disk w = Some db ->
  food_listings db = Some fls ->
  providers db = Some ps ->
  claims db = Some cs ->
  exists df,
    fst (query_15_unclaimed_food julianday w) = Returned df /\
    (forall r, In r (rows df) <->
       exists fl p,
         In fl fls /\ In p ps /\
         FoodListing.Provider_ID fl = Some (Provider.Provider_ID p) /\
         (forall c, In c cs -> Claim.Food_ID c <> Some (FoodListing.Food_ID fl)) /\
         r = row_15 julianday (clock w) fl p) /\
    (forall fl p, Report15.Provider_Name (row_15 julianday (clock w) fl p) = Provider.Name p /\
                  Report15.Provider_Contact (row_15 julianday (clock w) fl p)
                  = Provider.Contact p) /\
    StronglySorted expiry_date_le (rows df).
Proof.
  intros Hd Hf Hp Hc.
  eexists. split.
  { unfold query_15_unclaimed_food. apply (execute_query_ok _ w db); [exact Hd|].
    simpl. rewrite Hf, Hp, Hc. reflexivity. }
  simpl. split; [intros r; apply select_15_In|].
  split; [intros; split; reflexivity|].
  unfold select_15.
  apply (ORDER_BY_sorted (ASC textleb_null Report15.Expiry_Date)).
  - intros a b. unfold ASC. apply textleb_null_total.
  - intros a b c. unfold ASC. apply textleb_null_trans.
Qed.

(** ** Rounding *)

Lemma ROUND_2_error (x : Q) : (Qabs (ROUND x 2 - x) <= 1 # 200)%Q.
Proof.
  unfold ROUND.
  change (inject_Z (10 ^ Z.of_nat 2)) with (100 # 1)%Q.
  apply (proj2 (Qabs_Qle_condition _ _)).
  destruct (Qle_bool 0 x).
  - pose proof (Qfloor_le (x * (100 # 1) + (1 # 2))) as Hlo.
    pose proof (Qlt_floor (x * (100 # 1) + (1 # 2))) as Hhi.
    rewrite inject_Z_plus in Hhi.
    change (inject_Z 1) with 1%Q in Hhi.
    set (f := inject_Z (Qfloor (x * (100 # 1) + (1 # 2)))) in *. clearbody f.
    unfold Qdiv. change (/ (100 # 1))%Q with (1 # 100)%Q. lra.
  - pose proof (Qfloor_le (- x * (100 # 1) + (1 # 2))) as Hlo.
    pose proof (Qlt_floor (- x * (100 # 1) + (1 # 2))) as Hhi.
    rewrite inject_Z_plus in Hhi.
    change (inject_Z 1) with 1%Q in Hhi.
    set (f := inject_Z (Qfloor (- x * (100 # 1) + (1 # 2)))) in *. clearbody f.
    unfold Qdiv. change (/ (100 # 1))%Q with (1 # 100)%Q. lra.
Qed.

Lemma ROUND_2_rounds (x : Q) : rounds_to_2_decimals x (ROUND x 2).
Proof.
  split; [|split; [apply ROUND_2_error|]].
  - unfold ROUND. change (inject_Z (10 ^ Z.of_nat 2)) with (100 # 1)%Q.
    destruct (Qle_bool 0 x).
    + eexists. reflexivity.
    + exists (- Qfloor (- x * (100 # 1) + (1 # 2))).
      rewrite inject_Z_opp. unfold Qdiv. ring.
  - unfold ROUND. change (inject_Z (10 ^ Z.of_nat 2)) with (100 # 1)%Q.
    destruct (Qle_bool 0 x) eqn:Hx.
    + apply Qle_bool_iff in Hx.
      pose proof (Qfloor_le (x * (100 # 1) + (1 # 2))) as Hlo.
      pose proof (Qlt_floor (x * (100 # 1) + (1 # 2))) as Hhi.
      rewrite inject_Z_plus in Hhi. change (inject_Z 1) with 1%Q in Hhi.
      set (f := inject_Z (Qfloor (x * (100 # 1) + (1 # 2)))) in *. clearbody f.
      unfold Qdiv. change (/ (100 # 1))%Q with (1 # 100)%Q.
      intros H.
      assert (Hf : (0 <= f * (1 # 100))%Q).
      { destruct (Qlt_le_dec (f * (1#100)) 0) as [Hn|Hn]; [|exact Hn].
        exfalso. rewrite Qabs_neg in H by lra. lra. }
      rewrite (Qabs_pos x) by exact Hx. rewrite (Qabs_pos _ Hf).
      destruct (Qlt_le_dec (f * (1 # 100)) x) as [Hlt|Hge]; [|exact Hge].
      exfalso. rewrite Qabs_neg in H by lra. lra.
    + assert (Hneg : (x < 0)%Q).
      { destruct (Qlt_le_dec x 0) as [Hn|Hn]; [exact Hn|].
        apply Qle_bool_iff in Hn. congruence. }
      pose proof (Qfloor_le (- x * (100 # 1) + (1 # 2))) as Hlo.
      pose proof (Qlt_floor (- x * (100 # 1) + (1 # 2))) as Hhi.
      rewrite inject_Z_plus in Hhi. change (inject_Z 1) with 1%Q in Hhi.
      set (f := inject_Z (Qfloor (- x * (100 # 1) + (1 # 2)))) in *. clearbody f.
      unfold Qdiv. change (/ (100 # 1))%Q with (1 # 100)%Q.
      intros H.
      rewrite (Qabs_neg x) by lra.
      destruct (Qlt_le_dec (f * (1 # 100)) (- x)) as [Hlt|Hge].
      * exfalso. rewrite Qabs_pos in H by lra. lra.
      * destruct (Qlt_le_dec 0 (f * (1 # 100))) as [Hp|Hp].
        -- rewrite Qabs_neg by lra. lra.
        -- exfalso. lra.
Qed.

(** The description fixes the rounded number. *)
Lemma rounds_to_2_decimals_unique (x p q : Q) :
  rounds_to_2_decimals x p -> rounds_to_2_decimals x q -> (p == q)%Q.
Proof.
  intros ((n & Hn) & Hp & Hpt) ((m & Hm) & Hq & Hqt).
  assert (Hcases : n = m \/ n = m + 1 \/ m = n + 1).
  { apply Qabs_Qle_condition in Hp, Hq.
    assert (H1 : (inject_Z (n - m) <= 1)%Q).
    { unfold Zminus. rewrite inject_Z_plus, inject_Z_opp.
      rewrite Hn in Hp. rewrite Hm in Hq. unfold Qdiv in *. change (/ 100)%Q with (1 # 100)%Q in *.
      set (a := inject_Z n) in *. set (b := inject_Z m) in *. clearbody a b.
      clear Hn Hm Hpt Hqt. lra. }
    assert (H2 : (inject_Z (m - n) <= 1)%Q).
    { unfold Zminus. rewrite inject_Z_plus, inject_Z_opp.
      rewrite Hn in Hp. rewrite Hm in Hq. unfold Qdiv in *. change (/ 100)%Q with (1 # 100)%Q in *.
      set (a := inject_Z n) in *. set (b := inject_Z m) in *. clearbody a b.
      clear Hn Hm Hpt Hqt. lra. }
    change 1%Q with (inject_Z 1) in H1, H2.
    rewrite <- Zle_Qle in H1, H2. lia. }
  destruct Hcases as [-> | [-> | ->]].
  - rewrite Hn, Hm. reflexivity.
  - exfalso.
    assert (Hqx : (q - x == - (1 # 200))%Q /\ (p - x == 1 # 200)%Q).
    { apply Qabs_Qle_condition in Hp, Hq. rewrite Hn, Hm in *.
      rewrite inject_Z_plus in *. change (inject_Z 1) with 1%Q in *. unfold Qdiv in *. change (/ 100)%Q with (1 # 100)%Q in *.
      set (b := inject_Z m) in *. clearbody b. split; lra. }
    destruct Hqx as [Hqx Hpx].
    assert (Hqa : (Qabs (q - x) == 1 # 200)%Q) by (rewrite Hqx; reflexivity).
    assert (Hpa : (Qabs (p - x) == 1 # 200)%Q) by (rewrite Hpx; reflexivity).
    specialize (Hpt Hpa). specialize (Hqt Hqa).
    rewrite Hn, Hm in *. rewrite inject_Z_plus in *.
    change (inject_Z 1) with 1%Q in *. unfold Qdiv in *. change (/ 100)%Q with (1 # 100)%Q in *.
    destruct (Z_le_gt_dec 0 m) as [Hs|Hs].
    + assert (Hb : (0 <= inject_Z m)%Q) by (change 0%Q with (inject_Z 0); rewrite <- Zle_Qle; exact Hs).
      set (b := inject_Z m) in *. clearbody b.
      rewrite (Qabs_pos x) in Hqt by lra. rewrite (Qabs_pos (b * (1 # 100))) in Hqt by lra. lra.
    + assert (Hb : (inject_Z m <= - (1))%Q)
        by (change (- (1))%Q with (inject_Z (-1)); rewrite <- Zle_Qle; lia).
      set (b := inject_Z m) in *. clearbody b.
      rewrite (Qabs_neg x) in Hpt by lra.
      rewrite (Qabs_neg ((b + 1) * (1 # 100))) in Hpt by lra. lra.
  - exfalso.
    assert (Hqx : (p - x == - (1 # 200))%Q /\ (q - x == 1 # 200)%Q).
    { apply Qabs_Qle_condition in Hp, Hq. rewrite Hn, Hm in *.
      rewrite inject_Z_plus in *. change (inject_Z 1) with 1%Q in *. unfold Qdiv in *. change (/ 100)%Q with (1 # 100)%Q in *.
      set (b := inject_Z n) in *. clearbody b. split; lra. }
    destruct Hqx as [Hpx Hqx].
    assert (Hqa : (Qabs (q - x) == 1 # 200)%Q) by (rewrite Hqx; reflexivity).
    assert (Hpa : (Qabs (p - x) == 1 # 200)%Q) by (rewrite Hpx; reflexivity).
    specialize (Hpt Hpa). specialize (Hqt Hqa).
    rewrite Hn, Hm in *. rewrite inject_Z_plus in *.
    change (inject_Z 1) with 1%Q in *. unfold Qdiv in *. change (/ 100)%Q with (1 # 100)%Q in *.
    destruct (Z_le_gt_dec 0 n) as [Hs|Hs].
    + assert (Hb : (0 <= inject_Z n)%Q) by (change 0%Q with (inject_Z 0); rewrite <- Zle_Qle; exact Hs).
      set (b := inject_Z n) in *. clearbody b.
      rewrite (Qabs_pos x) in Hpt by lra. rewrite (Qabs_pos (b * (1 # 100))) in Hpt by lra. lra.
    + assert (Hb : (inject_Z n <= - (1))%Q)
        by (change (- (1))%Q with (inject_Z (-1)); rewrite <- Zle_Qle; lia).
      set (b := inject_Z n) in *. clearbody b.
      rewrite (Qabs_neg x) in Hqt by lra.
      rewrite (Qabs_neg ((b + 1) * (1 # 100))) in Hqt by lra. lra.
Qed.

Lemma Qsum_ROUND_2_error (l : list Q) :
  (Qabs (Qsum (map (fun x => ROUND x 2) l) - Qsum l)
   <= inject_Z (Z.of_nat (List.length l)) * (1 # 200))%Q.
Proof.
  induction l as [|x l IH].
  - vm_compute. discriminate.
  - cbn [map Qsum fold_right List.length].
    fold (Qsum (map (fun x => ROUND x 2) l)). fold (Qsum l).
    rewrite Nat2Z.inj_succ, <- Z.add_1_r, inject_Z_plus.
    change (inject_Z 1) with 1%Q.
    pose proof (ROUND_2_error x) as Hx.
    apply Qabs_Qle_condition in Hx, IH. apply (proj2 (Qabs_Qle_condition _ _)).
    set (n := inject_Z (Z.of_nat (List.length l))) in *.
    set (a := ROUND x 2) in *.
    set (sa := Qsum (map (fun x => ROUND x 2) l)) in *.
    set (s := Qsum l) in *.
    clearbody n a sa s. lra.
Qed.

Lemma Qsum_shares (counts : list Z) (total : Z) :
  total <> 0 ->
  (Qsum (map (fun c => inject_Z c * 100 / inject_Z total) counts)
   == inject_Z (Zsum counts) * 100 / inject_Z total)%Q.
Proof.
  intros Ht.
  assert (Hq : ~ (inject_Z total == 0)%Q).
  { intros H. apply Ht. unfold Qeq, inject_Z in H. simpl in H. lia. }
  induction counts as [|c counts IH].
  - simpl. field. exact Hq.
  - cbn [map Qsum Zsum fold_right].
    fold (Zsum counts).
    fold (Qsum (map (fun c => (inject_Z c * 100 / inject_Z total)%Q) counts)).
    rewrite IH, inject_Z_plus. field. exact Hq.
Qed.

(** ** GROUP BY *)

Section GroupFacts.
Context {A K : Type} (K_eq_dec : forall x y : K, {x = y} + {x <> y}) (key : A -> K).

Lemma same_key_true (k : K) (a : A) : same_key K_eq_dec key k a = true <-> key a = k.
Proof. unfold same_key. destruct (K_eq_dec (key a) k); split; congruence. Qed.

Lemma GROUP_BY_keys (l : list A) :
  map fst (GROUP_BY K_eq_dec key l) = nodup K_eq_dec (map key l).
Proof.
  unfold GROUP_BY. rewrite map_map. simpl. apply map_id.
Qed.

Lemma GROUP_BY_In (l : list A) (k : K) (g : list A) :
  In (k, g) (GROUP_BY K_eq_dec key l) <->
  In k (map key l) /\ g = filter (same_key K_eq_dec key k) l.
Proof.
  unfold GROUP_BY. rewrite in_map_iff. split.
  - intros (k' & Heq & Hin). inversion Heq; subst.
    apply nodup_In in Hin. auto.
  - intros (Hin & ->). exists k. split; [reflexivity|].
    apply nodup_In. exact Hin.
Qed.

Lemma one_key_among (ks : list K) (k : K) :
  NoDup ks -> In k ks ->
  list_sum (map (fun k' => if K_eq_dec k k' then 1 else 0)%nat ks) = 1%nat.
Proof.
  induction 1 as [|k0 ks Hnotin Hnd IH]; [contradiction|].
  intros [->|Hin]; simpl.
  - destruct (K_eq_dec k k); [|congruence].
    assert (H0 : list_sum (map (fun k' => if K_eq_dec k k' then 1 else 0)%nat ks) = 0%nat).
    { clear IH Hnd. induction ks as [|k1 ks IH]; [reflexivity|]. simpl.
      destruct (K_eq_dec k k1) as [->|_].
      - exfalso. apply Hnotin. left. reflexivity.
      - apply IH. intros H. apply Hnotin. right. exact H. }
    rewrite H0. reflexivity.
  - destruct (K_eq_dec k k0) as [->|_]; [contradiction|].
    simpl. exact (IH Hin).
Qed.

(** The groups partition the rows: their sizes add up to the number of
    rows. *)
Lemma group_sizes_total (l : list A) (ks : list K) :
  NoDup ks -> (forall a, In a l -> In (key a) ks) ->
  list_sum (map (fun k => List.length (filter (same_key K_eq_dec key k) l)) ks)
  = List.length l.
Proof.
  intros Hnd. induction l as [|a l IH]; intros Hks.
  - clear Hnd Hks. induction ks as [|k ks IHk]; [reflexivity|exact IHk].
  - assert (Hsplit :
      forall ks',
        list_sum (map (fun k => List.length (filter (same_key K_eq_dec key k) (a :: l))) ks')
        = (list_sum (map (fun k' => if K_eq_dec (key a) k' then 1 else 0)%nat ks')
           + list_sum (map (fun k => List.length (filter (same_key K_eq_dec key k) l)) ks'))%nat).
    { induction ks' as [|k ks' IHk]; [reflexivity|].
      change (list_sum (map ?f (k :: ks'))) with (f k + list_sum (map f ks'))%nat.
      rewrite IHk. cbn [filter].
      unfold same_key at 1. destruct (K_eq_dec (key a) k); simpl; lia. }
    rewrite Hsplit, one_key_among; [|exact Hnd|apply Hks; left; reflexivity].
    rewrite IH; [reflexivity|]. intros b Hb. apply Hks. right. exact Hb.
Qed.

End GroupFacts.

Lemma Zsum_Permutation (l l' : list Z) : Permutation l l' -> Zsum l = Zsum l'.
Proof.
  induction 1; simpl; lia.
Qed.

Lemma Zsum_of_nat (l : list nat) : Zsum (map Z.of_nat l) = Z.of_nat (list_sum l).
Proof.
  induction l as [|n l IH]; [reflexivity|].
  cbn [map Zsum fold_right list_sum]. fold (Zsum (map Z.of_nat l)).
  fold (list_sum l). rewrite IH. lia.
Qed.

(** ** Report 10 *)

Lemma select_10_Permutation (cs : list Claim.row) :
  cs <> [] ->
  Permutation (select_10 cs)
    (map (row_10 cs) (nodup status_eq_dec (map Claim.Status cs))).
Proof.
  intros Hne. unfold select_10.
  rewrite ORDER_BY_Permutation. unfold GROUP_BY. rewrite map_map.
  erewrite map_ext; [reflexivity|].
  intros s. unfold row_10, claims_with_status, share_of, COUNT_star. simpl.
  destruct (Z.of_nat (List.length cs) =? 0) eqn:E; [|reflexivity].
  apply Z.eqb_eq in E. destruct cs; [congruence|simpl in E; lia].
Qed.

Lemma select_10_sorted (cs : list Claim.row) :
  StronglySorted count_ge (select_10 cs).
Proof.
  unfold select_10.
  eapply StronglySorted_impl_In;
    [|apply (ORDER_BY_sorted (DESC Z.leb Report10.Count))].
  - intros a b _ _ H. unfold DESC in H. apply Z.leb_le in H. exact H.
  - intros a b. unfold DESC. rewrite !Z.leb_le. lia.
  - intros a b c. unfold DESC. rewrite !Z.leb_le. lia.
Qed.

Lemma status_counts_total (cs : list Claim.row) :
  Zsum (map Report10.Count (map (row_10 cs) (nodup status_eq_dec (map Claim.Status cs))))
  = Z.of_nat (List.length cs).
Proof.
  rewrite map_map. simpl.
  rewrite <- (map_map (fun s => List.length (claims_with_status s cs)) Z.of_nat).
  rewrite Zsum_of_nat. f_equal.
  apply group_sizes_total.
  - apply NoDup_nodup.
  - intros c Hc. apply nodup_In. apply in_map. exact Hc.
Qed.

(** C6.  On a file that opens and holds at least one claim, report 10
    returns one row per distinct status among the claims; a row's
    [Count] is the number of claims with exactly that status and its
    [Percentage] is [Count * 100 / (number of claims)] rounded to two
    decimals, that is a whole number of hundredths nearest to that
    quotient, half a hundredth going away from zero; the rows are in
    descending order of [Count]; and the percentages add up to 100 within
    half a hundredth per row. *)
Theorem query_10_status_distribution (w : World) (db : Database) (cs : list Claim.row) :
  disk w = Some db ->
  claims db = Some cs ->
  cs <> [] ->
  exists df,
    fst (query_10_claim_status_distribution w) = Returned df /\
    NoDup (map Report10.Status (rows df)) /\
    (forall s, In s (map Report10.Status (rows df)) <-> In s (map Claim.Status cs)) /\
    (forall r, In r (rows df) ->
       Report10.Count r
       = Z.of_nat (List.length (claims_with_status (Report10.Status r) cs)) /\
       Report10.Percentage r
       = Some (share_of (Report10.Count r) (Z.of_nat (List.length cs))) /\
       exists p,
         Report10.Percentage r = Some p /\
         rounds_to_2_decimals
           (inject_Z (Report10.Count r) * 100 / inject_Z (Z.of_nat (List.length cs))) p) /\
    StronglySorted count_ge (rows df) /\
    exists percentages,
      map Report10.Percentage (rows df) = map Some percentages /\
      (Qabs (Qsum percentages - 100)
       <= inject_Z (Z.of_nat (List.length (rows df))) * (1 # 200))%Q.
Proof.
  intros Hd Hc Hne.
  eexists. split.
  { unfold query_10_claim_status_distribution.
    apply (execute_query_ok _ w db); [exact Hd|].
    simpl. rewrite Hc. reflexivity. }
  cbn [rows].
  pose proof (select_10_Permutation cs Hne) as Hperm.
  set (keys := nodup status_eq_dec (map Claim.Status cs)) in *.
  assert (Hstatus : Permutation (map Report10.Status (select_10 cs)) keys).
  { rewrite (Permutation_map Report10.Status Hperm), map_map. simpl.
    rewrite map_id. reflexivity. }
  assert (Hrow : forall r, In r (select_10 cs) ->
             Report10.Count r
             = Z.of_nat (List.length (claims_with_status (Report10.Status r) cs)) /\
             Report10.Percentage r
             = Some (share_of (Report10.Count r) (Z.of_nat (List.length cs))) /\
             exists p,
               Report10.Percentage r = Some p /\
               rounds_to_2_decimals
                 (inject_Z (Report10.Count r) * 100
                  / inject_Z (Z.of_nat (List.length cs))) p).
  { intros r Hr. apply (Permutation_in _ Hperm) in Hr.
    apply in_map_iff in Hr. destruct Hr as (s & <- & _).
    split; [reflexivity|split; [reflexivity|]].
    eexists. split; [reflexivity|]. apply ROUND_2_rounds. }
  split; [|split; [|split; [exact Hrow|split; [apply select_10_sorted|]]]].
  - apply (Permutation_NoDup (Permutation_sym Hstatus)). apply NoDup_nodup.
  - intros s. split; intros H.
    + apply (Permutation_in _ Hstatus) in H. apply nodup_In in H. exact H.
    + apply (Permutation_in _ (Permutation_sym Hstatus)). apply nodup_In. exact H.
  - set (total := Z.of_nat (List.length cs)) in *.
    exists (map (fun x => ROUND x 2)
              (map (fun c => (inject_Z c * 100 / inject_Z total)%Q)
                 (map Report10.Count (select_10 cs)))).
    split.
    + rewrite !map_map. apply map_ext_in. intros r Hr.
      destruct (Hrow r Hr) as (_ & -> & _). reflexivity.
    + assert (Htotal : total <> 0)
        by (unfold total; destruct cs; [congruence|simpl; lia]).
      pose proof (Qsum_ROUND_2_error
                    (map (fun c => (inject_Z c * 100 / inject_Z total)%Q)
                       (map Report10.Count (select_10 cs)))) as Herr.
      pose proof (Qsum_shares (map Report10.Count (select_10 cs)) total Htotal) as Hsh.
      rewrite (Zsum_Permutation _ _ (Permutation_map Report10.Count Hperm)) in Hsh.
      fold keys in Hsh. unfold keys in Hsh. rewrite status_counts_total in Hsh.
      fold total in Hsh.
      assert (H100 : (inject_Z total * 100 / inject_Z total == 100)%Q).
      { field. intros H. apply Htotal. unfold Qeq, inject_Z in H. simpl in H. lia. }
      rewrite H100 in Hsh.
      rewrite !length_map in Herr.
      apply Qabs_Qle_condition in Herr. apply (proj2 (Qabs_Qle_condition _ _)).
      rewrite Hsh in Herr. exact Herr.
Qed.

(** ** Lists, continued *)

Lemma flat_map_flat_map {A B C} (g : A -> list B) (h : B -> list C) (l : list A) :
  flat_map h (flat_map g l) = flat_map (fun a => flat_map h (g a)) l.
Proof.
  induction l as [|a l IH]; simpl; [reflexivity|].
  rewrite flat_map_app, IH. reflexivity.
Qed.

Lemma flat_map_map {A B C} (g : A -> B) (h : B -> list C) (l : list A) :
  flat_map h (map g l) = flat_map (fun a => h (g a)) l.
Proof. induction l as [|a l IH]; simpl; [reflexivity|]. rewrite IH. reflexivity. Qed.

Lemma filter_flat_map {A B} (f : B -> bool) (g : A -> list B) (l : list A) :
  filter f (flat_map g l) = flat_map (fun a => filter f (g a)) l.
Proof.
  induction l as [|a l IH]; simpl; [reflexivity|].
  rewrite filter_app, IH. reflexivity.
Qed.

Lemma filter_map_swap {A B} (f : B -> bool) (g : A -> B) (l : list A) :
  filter f (map g l) = map g (filter (fun a => f (g a)) l).
Proof.
  induction l as [|a l IH]; simpl; [reflexivity|].
  destruct (f (g a)); simpl; rewrite IH; reflexivity.
Qed.

Lemma filter_filter {A} (f g : A -> bool) (l : list A) :
  filter f (filter g l) = filter (fun a => g a && f a) l.
Proof.
  induction l as [|a l IH]; simpl; [reflexivity|].
  destruct (g a); simpl; [destruct (f a)|]; rewrite IH; reflexivity.
Qed.

Lemma filter_all {A} (f : A -> bool) (l : list A) :
  (forall a, In a l -> f a = true) -> filter f l = l.
Proof.
  induction l as [|a l IH]; simpl; intros H; [reflexivity|].
  rewrite (H a (or_introl eq_refl)). f_equal. apply IH. auto.
Qed.

Lemma filter_none {A} (f : A -> bool) (l : list A) :
  (forall a, In a l -> f a = false) -> filter f l = [].
Proof.
  induction l as [|a l IH]; simpl; intros H; [reflexivity|].
  rewrite (H a (or_introl eq_refl)). apply IH. auto.
Qed.

Lemma length_filter_orb_disjoint {A} (X Y : A -> bool) (l : list A) :
  (forall a, X a = true -> Y a = false) ->
  List.length (filter (fun a => X a || Y a) l)
  = (List.length (filter X l) + List.length (filter Y l))%nat.
Proof.
  intros Hd. induction l as [|a l IH]; simpl; [reflexivity|].
  destruct (X a) eqn:Ex; simpl.
  - rewrite (Hd a Ex). simpl. rewrite IH. reflexivity.
  - destruct (Y a); simpl; rewrite IH; lia.
Qed.

Lemma NoDup_map_filter {A B} (g : A -> B) (f : A -> bool) (l : list A) :
  NoDup (map g l) -> NoDup (map g (filter f l)).
Proof.
  induction l as [|a l IH]; simpl; intros H; [constructor|].
  inversion H as [|? ? Hnotin Hnd]; subst.
  destruct (f a); simpl; [constructor|]; auto.
  intros Hin. apply Hnotin.
  apply in_map_iff in Hin. destruct Hin as (b & Hb & Hin).
  apply filter_In in Hin. rewrite <- Hb. apply in_map. tauto.
Qed.

Lemma is_nil_false {A} (l : list A) : negb (is_nil l) = true <-> l <> [].
Proof. destruct l; simpl; split; congruence. Qed.

(** ** GROUP BY over rows that come provider by provider *)

Section GroupByParent.
Context {P A K : Type} (K_eq_dec : forall x y : K, {x = y} + {x <> y}).
Variables (key : A -> K) (pkey : P -> K) (f : P -> list A).
Hypothesis key_of_parent : forall q a, In a (f q) -> key a = pkey q.

Lemma filter_key_flat_map (ps : list P) (p : P) :
  NoDup (map pkey ps) -> In p ps ->
  filter (same_key K_eq_dec key (pkey p)) (flat_map f ps) = f p.
Proof.
  induction ps as [|q ps IH]; [contradiction|].
  simpl. intros Hnd Hin. inversion Hnd as [|? ? Hnotin Hnd']; subst.
  rewrite filter_app.
  destruct Hin as [->|Hin].
  - rewrite filter_all, filter_none, app_nil_r; [reflexivity| |].
    + intros a Ha. apply in_flat_map in Ha. destruct Ha as (q & Hq & Ha).
      destruct (same_key K_eq_dec key (pkey p) a) eqn:E; [|reflexivity].
      apply same_key_true in E. rewrite (key_of_parent q a Ha) in E.
      exfalso. apply Hnotin. rewrite <- E. apply in_map. exact Hq.
    + intros a Ha. apply same_key_true. apply key_of_parent. exact Ha.
  - rewrite filter_none, IH; auto.
    intros a Ha.
    destruct (same_key K_eq_dec key (pkey p) a) eqn:E; [|reflexivity].
    apply same_key_true in E. rewrite (key_of_parent q a Ha) in E.
    exfalso. apply Hnotin. rewrite E. apply in_map. exact Hin.
Qed.

Lemma GROUP_BY_flat_map (ps : list P) :
  NoDup (map pkey ps) ->
  Permutation (GROUP_BY K_eq_dec key (flat_map f ps))
    (map (fun p => (pkey p, f p)) (filter (fun p => negb (is_nil (f p))) ps)).
Proof.
  intros Hnd. unfold GROUP_BY.
  assert (Hmap :
    map (fun p => (pkey p, f p)) (filter (fun p => negb (is_nil (f p))) ps)
    = map (fun k => (k, filter (same_key K_eq_dec key k) (flat_map f ps)))
        (map pkey (filter (fun p => negb (is_nil (f p))) ps))).
  { rewrite map_map. apply map_ext_in. intros p Hp.
    apply filter_In in Hp. destruct Hp as [Hp _].
    rewrite filter_key_flat_map; auto. }
  rewrite Hmap. apply Permutation_map.
  apply NoDup_Permutation.
  - apply NoDup_nodup.
  - apply NoDup_map_filter. exact Hnd.
  - intros k. rewrite nodup_In, !in_map_iff. split.
    + intros (a & Hk & Ha). apply in_flat_map in Ha. destruct Ha as (p & Hp & Ha).
      exists p. split; [rewrite <- Hk; symmetry; exact (key_of_parent p a Ha)|].
      apply filter_In. split; [exact Hp|].
      apply is_nil_false. destruct (f p); [contradiction|discriminate].
    + intros (p & Hk & Hp). apply filter_In in Hp. destruct Hp as [Hp Hne].
      apply is_nil_false in Hne.
      destruct (f p) as [|a l] eqn:Hf; [congruence|].
      exists a. split.
      * rewrite <- Hk. apply key_of_parent. rewrite Hf. left. reflexivity.
      * apply in_flat_map. exists p. split; [exact Hp|]. rewrite Hf. left. reflexivity.
Qed.

End GroupByParent.

(** ** Aggregates *)

Lemma SUM_case_count {A} (P : A -> bool) (g : list A) :
  SUM (fun a => if P a then Some 1 else Some 0) g
  = match g with
    | [] => None
    | _ => Some (Z.of_nat (List.length (filter P g)))
    end.
Proof.
  induction g as [|a g IH]; [reflexivity|].
  cbn [SUM fold_right]. fold (SUM (fun a => if P a then Some 1 else Some 0) g).
  rewrite IH. cbn [filter].
  destruct (P a), g as [|b g]; cbn [List.length filter];
    rewrite ?Nat2Z.inj_succ; f_equal; lia.
Qed.

Lemma COUNT_all {A B} (column : A -> option B) (g : list A) :
  (forall a, In a g -> exists b, column a = Some b) ->
  COUNT column g = Z.of_nat (List.length g).
Proof.
  intros H. unfold COUNT. rewrite filter_all; [reflexivity|].
  intros a Ha. destruct (H a Ha) as (b & ->). reflexivity.
Qed.

Lemma filter_IS_NOT_NULL_LEFT_JOIN {A B C} (l : list A) (r : list B)
  (on : A -> B -> bool) (column : option B -> option C) :
  column None = None ->
  (forall b, exists c, column (Some b) = Some c) ->
  filter (fun x => IS_NOT_NULL (column (snd x))) (LEFT_JOIN l r on)
  = flat_map (fun a => map (fun b => (a, Some b)) (filter (on a) r)) l.
Proof.
  intros Hnone Hsome. unfold LEFT_JOIN. rewrite filter_flat_map.
  apply flat_map_ext. intros a.
  destruct (filter (on a) r) as [|m ms].
  - simpl. rewrite Hnone. reflexivity.
  - apply filter_all. intros x Hx. apply in_map_iff in Hx.
    destruct Hx as (b & <- & _). simpl.
    destruct (Hsome b) as (c & ->). reflexivity.
Qed.

(** ** Report 9 *)

Section Report9Facts.
Variables (fls : list FoodListing.row) (cs : list Claim.row).

Lemma kept_9 (ps : list Provider.row) :
  filter (fun r : Provider.row * FoodListing.row * option Claim.row =>
            IS_NOT_NULL (Claim_ID_of (snd r)))
    (LEFT_JOIN
       (JOIN ps fls
          (fun p fl =>
             sql_eq_int (Some (Provider.Provider_ID p)) (FoodListing.Provider_ID fl)))
       cs
       (fun r c => sql_eq_int (Some (FoodListing.Food_ID (snd r))) (Claim.Food_ID c)))
  = flat_map (rows_9 fls cs) ps.
Proof.
  rewrite (filter_IS_NOT_NULL_LEFT_JOIN _ _ _ Claim_ID_of);
    [|reflexivity|intros b; eexists; reflexivity].
  unfold JOIN. rewrite flat_map_flat_map.
  apply flat_map_ext. intros p. rewrite flat_map_map. reflexivity.
Qed.

Lemma rows_9_key (p : Provider.row) r :
  In r (rows_9 fls cs p) -> provider_key (fst (fst r)) = provider_key p.
Proof.
  unfold rows_9. rewrite in_flat_map. intros (fl & _ & H).
  apply in_map_iff in H. destruct H as (c & <- & _). reflexivity.
Qed.

Lemma rows_9_claim (p : Provider.row) r :
  In r (rows_9 fls cs p) -> exists c, snd r = Some c.
Proof.
  unfold rows_9. rewrite in_flat_map. intros (fl & _ & H).
  apply in_map_iff in H. destruct H as (c & <- & _). eexists. reflexivity.
Qed.

Lemma claim_on_unique (fl : FoodListing.row) (rest : list FoodListing.row)
  (p : Provider.row) (c : Claim.row) :
  ~ In (FoodListing.Food_ID fl) (map FoodListing.Food_ID rest) ->
  claim_on fl c = true ->
  existsb (fun fl' => listing_of p fl' && claim_on fl' c) rest = false.
Proof.
  intros Hnotin Hc. apply sql_eq_int_Some_l in Hc.
  destruct (existsb _ rest) eqn:E; [|reflexivity].
  apply existsb_exists in E. destruct E as (fl' & Hin & H).
  apply andb_true_iff in H. destruct H as [_ H].
  apply sql_eq_int_Some_l in H. rewrite Hc in H. inversion H as [Hid].
  exfalso. apply Hnotin. rewrite Hid. apply in_map. exact Hin.
Qed.

Lemma count_rows_9 (P : Claim.row -> bool) (p : Provider.row) :
  NoDup (map FoodListing.Food_ID fls) ->
  List.length
    (filter (fun r : Provider.row * FoodListing.row * option Claim.row =>
               match snd r with Some c => P c | None => false end)
       (rows_9 fls cs p))
  = List.length (filter P (claims_on_provider fls cs p)).
Proof.
  unfold rows_9, claims_on_provider. rewrite filter_filter.
  induction fls as [|fl rest IH]; intros Hnd.
  - simpl. rewrite filter_none; [reflexivity|]. reflexivity.
  - inversion Hnd as [|? ? Hnotin Hnd']; subst.
    cbn [filter existsb].
    destruct (listing_of p fl) eqn:E.
    + cbn [flat_map]. rewrite filter_app, length_app, IH by exact Hnd'.
      rewrite filter_map_swap, length_map, filter_filter. cbn [snd andb].
      rewrite <- length_filter_orb_disjoint.
      * f_equal. apply filter_ext. intros c.
        destruct (claim_on fl c), (P c), (existsb _ rest); reflexivity.
      * intros c Hc. apply andb_true_iff in Hc. destruct Hc as [Hc _].
        rewrite (claim_on_unique fl rest p c Hnotin Hc). reflexivity.
    + rewrite IH by exact Hnd'. f_equal.
Qed.

Lemma length_rows_9 (p : Provider.row) :
  NoDup (map FoodListing.Food_ID fls) ->
  List.length (rows_9 fls cs p) = List.length (claims_on_provider fls cs p).
Proof.
  intros Hnd.
  rewrite <- (filter_all (fun _ => true) (claims_on_provider fls cs p)) by reflexivity.
  rewrite <- (count_rows_9 (fun _ => true) p Hnd).
  rewrite filter_all; [reflexivity|].
  intros r Hr. destruct (rows_9_claim p r Hr) as (c & ->). reflexivity.
Qed.

Lemma is_nil_rows_9 (p : Provider.row) :
  NoDup (map FoodListing.Food_ID fls) ->
  is_nil (rows_9 fls cs p) = is_nil (claims_on_provider fls cs p).
Proof.
  intros Hnd. pose proof (length_rows_9 p Hnd) as H.
  destruct (rows_9 fls cs p), (claims_on_provider fls cs p);
    simpl in *; congruence.
Qed.

Lemma NoDup_provider_key (ps : list Provider.row) :
  NoDup (map Provider.Provider_ID ps) -> NoDup (map provider_key ps).
Proof.
  intros H. apply (NoDup_map_inv (fun k => fst (fst (fst k)))).
  rewrite map_map. exact H.
Qed.

Lemma select_9_Permutation (ps : list Provider.row) :
  NoDup (map Provider.Provider_ID ps) ->
  NoDup (map FoodListing.Food_ID fls) ->
  Permutation (select_9 ps fls cs)
    (map (row_9 fls cs)
       (filter (fun p => negb (is_nil (claims_on_provider fls cs p))) ps)).
Proof.
  intros Hps Hfls. unfold select_9.
  rewrite ORDER_BY_Permutation, kept_9.
  rewrite (Permutation_map _
             (GROUP_BY_flat_map provider_key_eq_dec
                (fun r : Provider.row * FoodListing.row * option Claim.row =>
                   provider_key (fst (fst r)))
                provider_key (rows_9 fls cs) rows_9_key ps (NoDup_provider_key ps Hps))).
  rewrite map_map.
  rewrite (filter_ext _ (fun p => negb (is_nil (claims_on_provider fls cs p))))
    by (intros p; rewrite is_nil_rows_9 by exact Hfls; reflexivity).
  apply Permutation_refl'. apply map_ext_in. intros p Hp.
  apply filter_In in Hp. destruct Hp as [_ Hne]. apply is_nil_false in Hne.
  cbn [fst snd provider_key].
  assert (Hcount :
    COUNT (fun r : Provider.row * FoodListing.row * option Claim.row =>
             Claim_ID_of (snd r)) (rows_9 fls cs p)
    = Z.of_nat (List.length (claims_on_provider fls cs p))).
  { rewrite COUNT_all, length_rows_9 by
      (try exact Hfls; intros r Hr; destruct (rows_9_claim p r Hr) as (c & ->);
       eexists; reflexivity).
    reflexivity. }
  assert (Hsum :
    SUM (fun r : Provider.row * FoodListing.row * option Claim.row =>
           completed_1_else_0 (snd r)) (rows_9 fls cs p)
    = Some (Z.of_nat (List.length (filter completed (claims_on_provider fls cs p))))).
  { unfold completed_1_else_0.
    rewrite (SUM_case_count
               (fun r : Provider.row * FoodListing.row * option Claim.row =>
                  sql_eq_text (col Claim.Status (snd r)) (Some "Completed"))).
    rewrite <- (count_rows_9 completed p Hfls).
    destruct (rows_9 fls cs p) as [|r0 rs0] eqn:Hr.
    - exfalso. apply Hne.
      pose proof (length_rows_9 p Hfls) as Hl. rewrite Hr in Hl. simpl in Hl.
      destruct (claims_on_provider fls cs p); [reflexivity|discriminate].
    - do 3 f_equal. apply filter_ext. intros [a [c|]]; reflexivity. }
  rewrite Hcount, Hsum. unfold row_9. f_equal.
  unfold share_of.
  destruct (claims_on_provider fls cs p) as [|c0 l0] eqn:Hcl; [congruence|].
  set (total := Z.of_nat (List.length (c0 :: l0))).
  assert (Ht : 0 < total) by (unfold total; simpl; lia).
  unfold NULLIF0. destruct total eqn:Et; try lia.
  unfold percent_of. simpl Z.eqb. cbv iota. reflexivity.
Qed.

Lemma select_9_sorted (ps : list Provider.row) :
  NoDup (map Provider.Provider_ID ps) ->
  NoDup (map FoodListing.Food_ID fls) ->
  StronglySorted successful_ge (select_9 ps fls cs).
Proof.
  intros Hps Hfls.
  pose proof (select_9_Permutation ps Hps Hfls) as Hperm.
  assert (Hsome : forall r, In r (select_9 ps fls cs) ->
                            exists x, Report9.Successful_Claims r = Some x).
  { intros r Hr. apply (Permutation_in _ Hperm) in Hr.
    apply in_map_iff in Hr. destruct Hr as (p & <- & _). eexists. reflexivity. }
  eapply StronglySorted_impl_In;
    [|apply (ORDER_BY_sorted (DESC Zleb_null Report9.Successful_Claims))].
  - intros a b Ha Hb. fold (select_9 ps fls cs) in Ha, Hb.
    destruct (Hsome a Ha) as (x & Hx), (Hsome b Hb) as (y & Hy).
    unfold DESC, successful_ge. rewrite Hx, Hy. simpl. apply Z.leb_le.
  - intros a b. unfold DESC. apply Zleb_null_total.
  - intros a b c H1 H2. unfold DESC in *. eapply Zleb_null_trans; eassumption.
Qed.

End Report9Facts.

(** C4.  On a file that opens and holds the three tables, with
    [Provider_ID] a key of [providers] and [Food_ID] a key of
    [food_listings], report 9 returns one row for each provider that has
    at least one claim on one of its listings and no row for the others;
    the row holds the provider's name, type and city, the number of
    claims on its listings, the number of those whose status is exactly
    'Completed', and the second as a percentage of the first rounded to
    two decimals (never NULL, the first count being positive), that is a
    whole number of hundredths nearest to that percentage, half a
    hundredth going away from zero; the rows are in descending order of
    the number of completed claims. *)
Theorem query_9_counts_claims_per_provider (w : World) (db : Database)
  (ps : list Provider.row) (fls : list FoodListing.row) (cs : list Claim.row) :
  disk w = Some db ->
  providers db = Some ps ->
  food_listings db = Some fls ->
  claims db = Some cs ->
  NoDup (map Provider.Provider_ID ps) ->
  NoDup (map FoodListing.Food_ID fls) ->
  exists df,
    fst (query_9_successful_providers w) = Returned df /\
    Permutation (rows df)
      (map (row_9 fls cs)
         (filter (fun p => negb (is_nil (claims_on_provider fls cs p))) ps)) /\
    (forall r, In r (rows df) ->
       exists successful rate,
         Report9.Successful_Claims r = Some successful /\
         Report9.Success_Rate_Percent r = Some rate /\
         rounds_to_2_decimals
           (inject_Z successful * 100 / inject_Z (Report9.Total_Claims r)) rate) /\
    StronglySorted successful_ge (rows df).
Proof.
  intros Hd Hp Hf Hc Hps Hfls.
  eexists. split.
  { unfold query_9_successful_providers.
    apply (execute_query_ok _ w db); [exact Hd|].
    simpl. rewrite Hp, Hf, Hc. reflexivity. }
  cbn [rows]. split; [|split].
  - apply select_9_Permutation; assumption.
  - intros r Hr.
    apply (Permutation_in _ (select_9_Permutation fls cs ps Hps Hfls)) in Hr.
    apply in_map_iff in Hr. destruct Hr as (p & <- & _).
    do 2 eexists. split; [reflexivity|split; [reflexivity|]].
    apply ROUND_2_rounds.
  - apply select_9_sorted; assumption.
Qed.

(** * The rest of the query layer *)

(** ** Lists and orders, continued *)

Lemma Permutation_filter {A} (f : A -> bool) (l l' : list A) :
  Permutation l l' -> Permutation (filter f l) (filter f l').
Proof.
  induction 1 as [|x l l' _ IH|x y l|l l' l'' _ IH1 _ IH2]; simpl.
  - constructor.
  - destruct (f x); [constructor|]; exact IH.
  - destruct (f x), (f y); try apply perm_swap; reflexivity.
  - etransitivity; eassumption.
Qed.

Lemma SUM_all_Some {A} (f : A -> Z) (g : list A) :
  SUM (fun a => Some (f a)) g
  = match g with
    | [] => None
    | _ => Some (Zsum (map f g))
    end.
Proof.
  induction g as [|a g IH]; [reflexivity|].
  cbn [SUM fold_right]. fold (SUM (fun a => Some (f a)) g). rewrite IH.
  destruct g; cbn [map Zsum fold_right]; f_equal; lia.
Qed.



Lemma string_compare_Gt_Lt (s t : string) :
  String.compare s t = Gt -> String.compare t s = Lt.
Proof. intros H. rewrite String.compare_antisym, H. reflexivity. Qed.

Lemma string_compare_Eq_sym (s t : string) :
  String.compare s t = Eq -> String.compare t s = Eq.
Proof. intros H. rewrite String.compare_antisym, H. reflexivity. Qed.

Lemma text2_leb_total (a b : string * string) :
  text2_leb a b = true \/ text2_leb b a = true.
Proof.
  unfold text2_leb. destruct (String.compare (fst a) (fst b)) eqn:E.
  - rewrite (string_compare_Eq_sym _ _ E). apply String.leb_total.
  - left. reflexivity.
  - right. rewrite (string_compare_Gt_Lt _ _ E). reflexivity.
Qed.

Lemma text2_leb_trans (a b c : string * string) :
  text2_leb a b = true -> text2_leb b c = true -> text2_leb a c = true.
Proof.
  unfold text2_leb.
  destruct (String.compare (fst a) (fst b)) eqn:Eab; try discriminate;
    destruct (String.compare (fst b) (fst c)) eqn:Ebc; try discriminate.
  - apply String.compare_eq_iff in Eab, Ebc. rewrite Eab, Ebc, string_compare_refl.
    apply string_leb_trans.
  - apply String.compare_eq_iff in Eab. rewrite Eab, Ebc. reflexivity.
  - apply String.compare_eq_iff in Ebc. rewrite <- Ebc, Eab. reflexivity.
  - rewrite (string_compare_Lt_trans _ _ _ Eab Ebc). reflexivity.
Qed.

Lemma GROUP_BY_nonempty {A K} (K_eq_dec : forall x y : K, {x = y} + {x <> y})
  (key : A -> K) (l : list A) (g : K * list A) :
  In g (GROUP_BY K_eq_dec key l) -> snd g <> [].
Proof.
  destruct g as [k g]. intros H. apply GROUP_BY_In in H. destruct H as [Hk ->].
  simpl. apply in_map_iff in Hk. destruct Hk as (a & Ha & Hin).
  intros Hnil.
  assert (Hin' : In a (filter (same_key K_eq_dec key k) l))
    by (apply filter_In; split; [exact Hin|apply same_key_true; exact Ha]).
  rewrite Hnil in Hin'. contradiction.
Qed.

Lemma GROUP_BY_sizes {A K} (K_eq_dec : forall x y : K, {x = y} + {x <> y})
  (key : A -> K) (l : list A) :
  Zsum (map (fun g => Z.of_nat (List.length (snd g))) (GROUP_BY K_eq_dec key l))
  = Z.of_nat (List.length l).
Proof.
  unfold GROUP_BY. rewrite map_map. simpl.
  rewrite <- (map_map (fun k => List.length (filter (same_key K_eq_dec key k) l))
                Z.of_nat).
  rewrite Zsum_of_nat. f_equal. apply group_sizes_total.
  - apply NoDup_nodup.
  - intros a Ha. apply nodup_In. apply in_map. exact Ha.
Qed.

(** ** Report 1 *)

Lemma select_1_Permutation (ps : list Provider.row) (rs : list Receiver.row) :
  Permutation (select_1 ps rs)
    (map (fun g => {| Report1.City := fst g;
                      Report1.Count := COUNT_star (snd g);
                      Report1.Type_ := "Providers" |})
         (GROUP_BY string_dec Provider.City ps)
     ++
     map (fun g => {| Report1.City := fst g;
                      Report1.Count := COUNT_star (snd g);
                      Report1.Type_ := "Receivers" |})
         (GROUP_BY string_dec Receiver.City rs)).
Proof. apply ORDER_BY_Permutation. Qed.

(** X1.  On a file that opens and holds [providers] and [receivers],
    the counts of the rows of report 1 whose type is Providers add up to
    the number of providers and those of the rows whose type is
    Receivers to the number of receivers; every row has one of the two
    types and a positive count; the rows are ordered by city, then
    type. *)
Theorem query_1_counts_every_provider_and_receiver (w : World) (db : Database)
  (ps : list Provider.row) (rs : list Receiver.row) :
  disk w = Some db ->
  providers db = Some ps ->
  receivers db = Some rs ->
  exists df,
    fst (query_1_providers_receivers_by_city w) = Returned df /\
    Zsum (map Report1.Count
            (filter (fun r => String.eqb (Report1.Type_ r) "Providers") (rows df)))
    = Z.of_nat (List.length ps) /\
    Zsum (map Report1.Count
            (filter (fun r => String.eqb (Report1.Type_ r) "Receivers") (rows df)))
    = Z.of_nat (List.length rs) /\
    (forall r, In r (rows df) ->
       (Report1.Type_ r = "Providers" \/ Report1.Type_ r = "Receivers") /\
       0 < Report1.Count r) /\
    StronglySorted
      (fun a b => text2_le (Report1.City a, Report1.Type_ a)
                           (Report1.City b, Report1.Type_ b))
      (rows df).
Proof.
  intros Hd Hp Hr.
  eexists. split.
  { unfold query_1_providers_receivers_by_city.
    apply (execute_query_ok _ w db); [exact Hd|].
    simpl. rewrite Hp, Hr. reflexivity. }
  cbn [rows].
  pose proof (select_1_Permutation ps rs) as Hperm.
  set (P := map (fun g => {| Report1.City := fst g;
                             Report1.Count := COUNT_star (snd g);
                             Report1.Type_ := "Providers" |})
                (GROUP_BY string_dec Provider.City ps)) in *.
  set (R := map (fun g => {| Report1.City := fst g;
                             Report1.Count := COUNT_star (snd g);
                             Report1.Type_ := "Receivers" |})
                (GROUP_BY string_dec Receiver.City rs)) in *.
  assert (HP : forall r, In r P -> Report1.Type_ r = "Providers" /\ 0 < Report1.Count r).
  { intros r Hr'. apply in_map_iff in Hr'. destruct Hr' as (g & <- & Hg).
    split; [reflexivity|]. simpl. unfold COUNT_star.
    apply GROUP_BY_nonempty in Hg. destruct (snd g); [congruence|simpl; lia]. }
  assert (HR : forall r, In r R -> Report1.Type_ r = "Receivers" /\ 0 < Report1.Count r).
  { intros r Hr'. apply in_map_iff in Hr'. destruct Hr' as (g & <- & Hg).
    split; [reflexivity|]. simpl. unfold COUNT_star.
    apply GROUP_BY_nonempty in Hg. destruct (snd g); [congruence|simpl; lia]. }
  assert (HPP : filter (fun r => String.eqb (Report1.Type_ r) "Providers") P = P).
  { apply filter_all. intros r Hr'. destruct (HP r Hr') as [-> _]. reflexivity. }
  assert (HPR : filter (fun r => String.eqb (Report1.Type_ r) "Receivers") P = []).
  { apply filter_none. intros r Hr'. destruct (HP r Hr') as [-> _]. reflexivity. }
  assert (HRP : filter (fun r => String.eqb (Report1.Type_ r) "Providers") R = []).
  { apply filter_none. intros r Hr'. destruct (HR r Hr') as [-> _]. reflexivity. }
  assert (HRR : filter (fun r => String.eqb (Report1.Type_ r) "Receivers") R = R).
  { apply filter_all. intros r Hr'. destruct (HR r Hr') as [-> _]. reflexivity. }
  split; [|split; [|split]].
  - rewrite (Zsum_Permutation _ _
               (Permutation_map _ (Permutation_filter _ _ _ Hperm))).
    rewrite filter_app, HPP, HRP, app_nil_r.
    unfold P. rewrite map_map. cbn [Report1.Count]. unfold COUNT_star.
    apply (GROUP_BY_sizes string_dec Provider.City ps).
  - rewrite (Zsum_Permutation _ _
               (Permutation_map _ (Permutation_filter _ _ _ Hperm))).
    rewrite filter_app, HPR, HRR. cbn [app].
    unfold R. rewrite map_map. cbn [Report1.Count]. unfold COUNT_star.
    apply (GROUP_BY_sizes string_dec Receiver.City rs).
  - intros r Hr'. apply (Permutation_in _ Hperm) in Hr'.
    apply in_app_or in Hr'. destruct Hr' as [H|H].
    + destruct (HP r H). auto.
    + destruct (HR r H). auto.
  - unfold select_1, text2_le.
    apply (ORDER_BY_sorted
             (ASC text2_leb (fun r => (Report1.City r, Report1.Type_ r)))).
    + intros a b. unfold ASC. apply text2_leb_total.
    + intros a b c. unfold ASC. apply text2_leb_trans.
Qed.

(** ** Report 3 *)

(** X2.  On a file that opens and holds [providers], report 3 called
    with any text returns exactly the providers whose [City] is that
    text, character for character (one row each, with name, type,
    address and contact), ordered by type, then name. *)
Theorem query_3_lists_the_providers_of_the_city (city : string) (w : World)
  (db : Database) (ps : list Provider.row) :
  disk w = Some db ->
  providers db = Some ps ->
  exists df,
    fst (query_3_provider_contacts_by_city city w) = Returned df /\
    Permutation (rows df)
      (map row_3 (filter (fun p => String.eqb (Provider.City p) city) ps)) /\
    StronglySorted
      (fun a b => text2_le (Report3.Type_ a, Report3.Name a)
                           (Report3.Type_ b, Report3.Name b))
      (rows df).
Proof.
  intros Hd Hp.
  destruct (execute_query_run query_3 (Some [Text city]) w) as (df & w1 & Hrun & _ & H).
  rewrite Hd in H. simpl in H. rewrite Hp in H. simpl in H. destruct H as [-> _].
  eexists. split.
  { unfold query_3_provider_contacts_by_city. rewrite Hrun. reflexivity. }
  cbn [rows]. split.
  - unfold select_3. rewrite ORDER_BY_Permutation. reflexivity.
  - unfold select_3, text2_le.
    apply (ORDER_BY_sorted
             (ASC text2_leb (fun r => (Report3.Type_ r, Report3.Name r)))).
    + intros a b. unfold ASC. apply text2_leb_total.
    + intros a b c. unfold ASC. apply text2_leb_trans.
Qed.

(** ** Aggregates over the listings *)


Lemma values_length {A B} (column : A -> option B) (g : list A) :
  (List.length (values column g) <= List.length g)%nat.
Proof.
  induction g as [|a g IH]; simpl; [lia|].
  rewrite length_app. destruct (column a); simpl; lia.
Qed.



Lemma key_once {K} (K_eq_dec : forall x y : K, {x = y} + {x <> y})
  (ks : list K) (k : K) (z : Z) :
  NoDup ks -> In k ks ->
  Zsum (map (fun k' => if K_eq_dec k k' then z else 0) ks) = z.
Proof.
  induction 1 as [|k0 ks Hnotin Hnd IH]; [contradiction|].
  intros Hin. cbn [map Zsum fold_right].
  fold (Zsum (map (fun k' => if K_eq_dec k k' then z else 0) ks)).
  destruct (K_eq_dec k k0) as [->|Hne].
  - assert (H0 : Zsum (map (fun k' => if K_eq_dec k0 k' then z else 0) ks) = 0).
    { clear IH Hnd Hin. induction ks as [|k1 ks IH]; [reflexivity|].
      cbn [map Zsum fold_right].
      fold (Zsum (map (fun k' => if K_eq_dec k0 k' then z else 0) ks)).
      destruct (K_eq_dec k0 k1) as [->|_].
      - exfalso. apply Hnotin. left. reflexivity.
      - rewrite IH; [reflexivity|]. intros H. apply Hnotin. right. exact H. }
    rewrite H0. lia.
  - destruct Hin as [->|Hin]; [congruence|]. rewrite (IH Hin). lia.
Qed.

Lemma Zsum_map_add {X} (f g : X -> Z) (l : list X) :
  Zsum (map (fun x => f x + g x) l) = Zsum (map f l) + Zsum (map g l).
Proof.
  induction l as [|x l IH]; [reflexivity|].
  cbn [map Zsum fold_right].
  fold (Zsum (map (fun x => f x + g x) l)). fold (Zsum (map f l)). fold (Zsum (map g l)).
  lia.
Qed.

(** The groups of a GROUP BY share out the rows: a weight added up group
    by group is the weight of all the rows. *)
Lemma group_sums_total {A K} (K_eq_dec : forall x y : K, {x = y} + {x <> y})
  (key : A -> K) (q : A -> Z) (l : list A) (ks : list K) :
  NoDup ks -> (forall a, In a l -> In (key a) ks) ->
  Zsum (map (fun k => Zsum (map q (filter (same_key K_eq_dec key k) l))) ks)
  = Zsum (map q l).
Proof.
  intros Hnd. induction l as [|a l IH]; intros Hks.
  - clear. induction ks as [|k ks IHk]; [reflexivity|].
    cbn [map Zsum fold_right filter] in *. exact IHk.
  - rewrite (map_ext
               (fun k => Zsum (map q (filter (same_key K_eq_dec key k) (a :: l))))
               (fun k => (if K_eq_dec (key a) k then q a else 0)
                         + Zsum (map q (filter (same_key K_eq_dec key k) l)))).
    + rewrite Zsum_map_add, IH by (intros b Hb; apply Hks; right; exact Hb).
      rewrite key_once; [reflexivity|exact Hnd|apply Hks; left; reflexivity].
    + intros k. cbn [filter]. unfold same_key at 1.
      destruct (K_eq_dec (key a) k); reflexivity.
Qed.

Lemma GROUP_BY_sums {A K} (K_eq_dec : forall x y : K, {x = y} + {x <> y})
  (key : A -> K) (q : A -> Z) (l : list A) :
  Zsum (map (fun g => Zsum (map q (snd g))) (GROUP_BY K_eq_dec key l))
  = Zsum (map q l).
Proof.
  unfold GROUP_BY. rewrite map_map. simpl.
  apply group_sums_total.
  - apply NoDup_nodup.
  - intros a Ha. apply nodup_In. apply in_map. exact Ha.
Qed.


Lemma DESC_Z_sorted {A} (key : A -> Z) (l : list A) :
  StronglySorted (fun a b => key b <= key a) (ORDER_BY (DESC Z.leb key) l).
Proof.
  eapply StronglySorted_impl_In; [|apply (ORDER_BY_sorted (DESC Z.leb key))].
  - intros a b _ _ H. unfold DESC in H. apply Z.leb_le in H. exact H.
  - intros a b. unfold DESC. rewrite !Z.leb_le. lia.
  - intros a b c. unfold DESC. rewrite !Z.leb_le. lia.
Qed.

Lemma DESC_Zleb_null_sorted {A} (key : A -> option Z) (l : list A) :
  StronglySorted (fun a b => Zleb_null (key b) (key a) = true)
    (ORDER_BY (DESC Zleb_null key) l).
Proof.
  apply (ORDER_BY_sorted (DESC Zleb_null key)).
  - intros a b. unfold DESC. apply Zleb_null_total.
  - intros a b c. unfold DESC. intros H1 H2. exact (Zleb_null_trans _ _ _ H2 H1).
Qed.

(** ** SUM in 64 bits *)

Lemma Zsum_nonneg (vs : list Z) : Forall (fun v => 0 <= v) vs -> 0 <= Zsum vs.
Proof.
  induction 1 as [|v vs Hv _ IH]; cbn [Zsum fold_right]; [lia|].
  fold (Zsum vs). lia.
Qed.

Lemma overflows_from_nonneg (vs : list Z) (acc : Z) :
  0 <= acc <= largest_integer -> Forall (fun v => 0 <= v) vs ->
  overflows_from acc vs = negb (acc + Zsum vs <=? largest_integer).
Proof.
  revert acc. induction vs as [|v vs IH]; intros acc Hacc Hvs.
  - cbn [overflows_from Zsum fold_right]. symmetry. apply negb_false_iff.
    apply Z.leb_le. lia.
  - inversion Hvs as [|? ? Hv Hvs']; subst.
    pose proof (Zsum_nonneg vs Hvs') as Hs.
    cbn [overflows_from Zsum fold_right]. fold (Zsum vs).
    unfold in_int64, int64_min, int64_max.
    change (2 ^ 63 - 1) with largest_integer.
    destruct (Z.leb_spec (acc + v) largest_integer) as [Hle|Hgt].
    + replace (- 2 ^ 63 <=? acc + v) with true by (symmetry; apply Z.leb_le; lia).
      cbn [andb]. rewrite IH by (try assumption; lia).
      f_equal. f_equal. lia.
    + rewrite andb_false_r. symmetry. apply negb_true_iff. apply Z.leb_gt. lia.
Qed.

Lemma SUM_overflows_nonneg {A} (expr : A -> option Z) (g : list A) :
  Forall (fun v => 0 <= v) (values expr g) ->
  SUM_overflows expr g = negb (Zsum (values expr g) <=? largest_integer).
Proof.
  intros H. unfold SUM_overflows.
  rewrite overflows_from_nonneg; [reflexivity|unfold largest_integer; lia|exact H].
Qed.

Lemma values_all_Some {A B} (f : A -> B) (g : list A) :
  values (fun a => Some (f a)) g = map f g.
Proof.
  unfold values. induction g as [|a g IH]; [reflexivity|].
  cbn [flat_map map app]. rewrite IH. reflexivity.
Qed.

Lemma values_app {A B} (f : A -> option B) (g g' : list A) :
  values f (g ++ g') = (values f g ++ values f g')%list.
Proof. unfold values. apply flat_map_app. Qed.

Lemma SUM_values {A} (expr : A -> option Z) (g : list A) :
  SUM expr g = match values expr g with
               | [] => None
               | vs => Some (Zsum vs)
               end.
Proof.
  induction g as [|a g IH]; [reflexivity|].
  cbn [SUM fold_right]. fold (SUM expr g). rewrite IH.
  unfold values. cbn [flat_map]. fold (values expr g).
  destruct (expr a) as [x|]; [|reflexivity].
  cbn [app]. destruct (values expr g) as [|v vs]; cbn [Zsum fold_right]; f_equal; lia.
Qed.

Lemma existsb_false {A} (f : A -> bool) (l : list A) :
  existsb f l = false <-> forall a, In a l -> f a = false.
Proof.
  induction l as [|x l IH]; cbn [existsb].
  - split; [intros _ a []|reflexivity].
  - rewrite orb_false_iff, IH. split.
    + intros [Hx Hl] a [<-|Ha]; auto.
    + intros H. split; [apply H; left; reflexivity|].
      intros a Ha. apply H. right. exact Ha.
Qed.

(** The SUM of the quantities of some listings overflows when they add
    up to more than the largest integer, and then only. *)
Lemma SUM_overflows_quantities (fls : list FoodListing.row) :
  no_negative_quantity fls ->
  SUM_overflows (fun fl => Some (FoodListing.Quantity fl)) fls
  = negb (quantity_of_all fls <=? largest_integer).
Proof.
  intros H. rewrite SUM_overflows_nonneg; rewrite values_all_Some; [reflexivity|].
  apply Forall_map. exact H.
Qed.


Lemma execute_query_overflows {A} (query : Statement A) (w : World) (db : Database) :
  disk w = Some db ->
  run query [] (clock w) db = Raised integer_overflow ->
  fails_with_integer_overflow query w.
Proof.
  intros Hd Hr.
  destruct (execute_query_run query None w) as (df & w1 & Hrun & _ & H).
  rewrite Hd in H. cbn [bound] in H. rewrite Hr in H. destruct H as [-> Hout].
  exists w1. split; [exact Hrun|exact Hout].
Qed.

(** ** Report 5 *)


(** ** Reports 6 and 7 *)










(** ** Report 8 *)

Lemma LEFT_JOIN_listings_claims (fls : list FoodListing.row) (cs : list Claim.row) :
  LEFT_JOIN fls cs
    (fun fl c => sql_eq_int (Some (FoodListing.Food_ID fl)) (Claim.Food_ID c))
  = flat_map (rows_8 cs) fls.
Proof. reflexivity. Qed.

Lemma rows_8_not_nil (cs : list Claim.row) (fl : FoodListing.row) :
  is_nil (rows_8 cs fl) = false.
Proof. unfold rows_8. destruct (filter (claim_on fl) cs); reflexivity. Qed.

Lemma rows_8_listing (cs : list Claim.row) (fl : FoodListing.row) x :
  In x (rows_8 cs fl) -> fst x = fl.
Proof.
  unfold rows_8. destruct (filter (claim_on fl) cs) as [|c m].
  - intros [<-|[]]. reflexivity.
  - intros H. apply in_map_iff in H. destruct H as (c' & <- & _). reflexivity.
Qed.

Lemma COUNT_rows_8 (cs : list Claim.row) (fl : FoodListing.row) :
  COUNT (fun x : FoodListing.row * option Claim.row => Claim_ID_of (snd x)) (rows_8 cs fl)
  = Z.of_nat (List.length (filter (claim_on fl) cs)).
Proof.
  unfold rows_8. destruct (filter (claim_on fl) cs) as [|c m]; [reflexivity|].
  rewrite COUNT_all, length_map; [reflexivity|].
  intros x Hx. apply in_map_iff in Hx. destruct Hx as (c' & <- & _).
  eexists. reflexivity.
Qed.

Lemma count_status_rows_8 (status : string) (cs : list Claim.row) (fl : FoodListing.row) :
  List.length
    (filter (fun x : FoodListing.row * option Claim.row =>
               sql_eq_text (col Claim.Status (snd x)) (Some status))
       (rows_8 cs fl))
  = List.length (filter (with_status status) (filter (claim_on fl) cs)).
Proof.
  unfold rows_8. destruct (filter (claim_on fl) cs) as [|c m]; [reflexivity|].
  rewrite filter_map_swap, length_map. reflexivity.
Qed.

Lemma SUM_status_rows_8 (status : string) (cs : list Claim.row) (fl : FoodListing.row) :
  SUM (fun x : FoodListing.row * option Claim.row => status_1_else_0 status (snd x))
      (rows_8 cs fl)
  = Some (Z.of_nat (List.length (filter (with_status status) (filter (claim_on fl) cs)))).
Proof.
  unfold status_1_else_0.
  rewrite (SUM_case_count
             (fun x : FoodListing.row * option Claim.row =>
                sql_eq_text (col Claim.Status (snd x)) (Some status))).
  rewrite count_status_rows_8.
  pose proof (rows_8_not_nil cs fl) as Hne.
  destruct (rows_8 cs fl); [discriminate|reflexivity].
Qed.

Lemma NoDup_listing_key (fls : list FoodListing.row) :
  NoDup (map FoodListing.Food_ID fls) -> NoDup (map listing_key fls).
Proof.
  intros H. apply (NoDup_map_inv (fun k => fst (fst (fst k)))).
  rewrite map_map. exact H.
Qed.

Lemma groups_by_listing (fls : list FoodListing.row) (cs : list Claim.row) :
  NoDup (map FoodListing.Food_ID fls) ->
  Permutation
    (GROUP_BY listing_key_eq_dec
       (fun x : FoodListing.row * option Claim.row => listing_key (fst x))
       (flat_map (rows_8 cs) fls))
    (map (fun fl => (listing_key fl, rows_8 cs fl)) fls).
Proof.
  intros Hnd.
  rewrite (GROUP_BY_flat_map listing_key_eq_dec
             (fun x : FoodListing.row * option Claim.row => listing_key (fst x))
             listing_key (rows_8 cs)).
  - rewrite filter_all; [reflexivity|].
    intros fl _. rewrite rows_8_not_nil. reflexivity.
  - intros fl x Hx. rewrite (rows_8_listing cs fl x Hx). reflexivity.
  - apply NoDup_listing_key. exact Hnd.
Qed.

Lemma select_8_Permutation (fls : list FoodListing.row) (cs : list Claim.row) :
  NoDup (map FoodListing.Food_ID fls) ->
  Permutation (select_8 fls cs) (map (row_8 cs) fls).
Proof.
  intros Hnd. unfold select_8.
  rewrite ORDER_BY_Permutation, LEFT_JOIN_listings_claims.
  rewrite (Permutation_map row_8_of (groups_by_listing fls cs Hnd)), map_map.
  apply Permutation_refl'. apply map_ext. intros fl.
  unfold row_8_of, row_8. cbn [fst snd listing_key].
  rewrite COUNT_rows_8, !SUM_status_rows_8. reflexivity.
Qed.

(** X6.  On a file that opens and holds the listings [fls], no two with
    the same [Food_ID], and the claims [cs], report 8 has exactly one
    row per listing, also for a listing nobody claimed: the row carries
    the listing's name, quantity and location, the number of claims
    whose [Food_ID] is the listing's and how many of them have status
    'Completed', 'Pending' and 'Cancelled' (all 0 for an unclaimed
    listing, never NULL).  The rows are in descending order of the
    number of claims. *)
Theorem query_8_counts_the_claims_on_every_listing (w : World) (db : Database)
  (fls : list FoodListing.row) (cs : list Claim.row) :
  disk w = Some db ->
  food_listings db = Some fls ->
  claims db = Some cs ->
  NoDup (map FoodListing.Food_ID fls) ->
  exists df,
    fst (query_8_claims_per_food_item w) = Returned df /\
    Permutation (rows df) (map (row_8 cs) fls) /\
    StronglySorted
      (fun a b => Report8.Total_Claims b <= Report8.Total_Claims a) (rows df).
Proof.
  intros Hd Hf Hc Hnd.
  eexists. split.
  { unfold query_8_claims_per_food_item.
    apply (execute_query_ok _ w db); [exact Hd|].
    simpl. rewrite Hf, Hc. reflexivity. }
  cbn [rows]. split.
  - apply select_8_Permutation. exact Hnd.
  - apply DESC_Z_sorted.
Qed.

(** ** Report 12 *)

Lemma SUM_ext_in {A} (f f' : A -> option Z) (g : list A) :
  (forall a, In a g -> f a = f' a) -> SUM f g = SUM f' g.
Proof.
  induction g as [|a g IH]; intros H; [reflexivity|].
  cbn [SUM fold_right]. fold (SUM f g). fold (SUM f' g).
  rewrite (H a (or_introl eq_refl)), IH; [reflexivity|].
  intros b Hb. apply H. right. exact Hb.
Qed.





















(** ** Reports 4 and 11 *)

Lemma execute_query_frame {A} (query : Statement A) (params : option (list SqlValue))
  (w : World) :
  fst (execute_query query params w) = Returned (frame_of query params w).
Proof.
  destruct (execute_query_run query params w) as (df & w1 & -> & _ & H).
  unfold frame_of. destruct (disk w) as [db|].
  - destruct (run query (bound params) (clock w) db); destruct H as [-> _]; reflexivity.
  - destruct H as [-> _]. reflexivity.
Qed.

Lemma figures_of_group
  (g : Z * string * string * string *
       list (Receiver.row * option Claim.row * option FoodListing.row)) :
  figures_11 (row_11_of g) = figures_4 (row_4_of g) /\
  Report11.Total_Claims (row_11_of g) = Report4.Total_Claims (row_4_of g).
Proof. destruct g as [[[[id name] type] city] joined]. split; reflexivity. Qed.

Lemma select_11_of_select_4 (rs : list Receiver.row) (cs : list Claim.row)
  (fls : list FoodListing.row) :
  Permutation (map figures_11 (select_11 rs cs fls))
    (map figures_4 (filter (fun r => 0 <? Report4.Total_Claims r) (select_4 rs cs fls))).
Proof.
  unfold select_11, select_4.
  rewrite (Permutation_map figures_11 (ORDER_BY_Permutation _ _)).
  rewrite (Permutation_map figures_4
             (Permutation_filter _ _ _ (ORDER_BY_Permutation _ _))).
  apply Permutation_refl'.
  induction (receiver_groups rs cs fls) as [|g gs IH]; [reflexivity|].
  cbn [map filter]. destruct (figures_of_group g) as [Hfig Htotal].
  rewrite Htotal. destruct (0 <? Report4.Total_Claims (row_4_of g)); cbn [map].
  - rewrite Hfig, IH. reflexivity.
  - exact IH.
Qed.

Lemma SUM_map {X A} (f : A -> option Z) (g : X -> A) (l : list X) :
  SUM f (map g l) = SUM (fun x => f (g x)) l.
Proof.
  induction l as [|x l IH]; [reflexivity|].
  cbn [map SUM fold_right]. fold (SUM f (map g l)). fold (SUM (fun x => f (g x)) l).
  rewrite IH. reflexivity.
Qed.

Lemma flat_map_singleton {X A} (g : X -> A) (l : list X) :
  flat_map (fun x => [g x]) l = map g l.
Proof. induction l as [|x l IH]; [reflexivity|]. cbn [flat_map map app]. rewrite IH. reflexivity. Qed.

(** With [Food_ID] a key, at most one listing answers a claim. *)
Lemma listings_of_claim (fls : list FoodListing.row) (v : option Z) :
  NoDup (map FoodListing.Food_ID fls) ->
  filter (fun fl => sql_eq_int v (Some (FoodListing.Food_ID fl))) fls
  = match find (fun fl => sql_eq_int v (Some (FoodListing.Food_ID fl))) fls with
    | Some fl => [fl]
    | None => []
    end.
Proof.
  induction fls as [|fl rest IH]; intros Hnd; [reflexivity|].
  inversion Hnd as [|? ? Hnotin Hnd']; subst.
  cbn [filter find].
  destruct (sql_eq_int v (Some (FoodListing.Food_ID fl))) eqn:E.
  - f_equal. apply filter_none. intros fl' Hin.
    destruct (sql_eq_int v (Some (FoodListing.Food_ID fl'))) eqn:E'; [|reflexivity].
    destruct v as [id|]; [|discriminate]. simpl in E, E'.
    apply Z.eqb_eq in E, E'. exfalso. apply Hnotin. rewrite <- E, E'.
    apply in_map. exact Hin.
  - apply IH. exact Hnd'.
Qed.

Lemma receiver_rows (rs : list Receiver.row) (cs : list Claim.row)
  (fls : list FoodListing.row) :
  NoDup (map FoodListing.Food_ID fls) ->
  LEFT_JOIN
    (LEFT_JOIN rs cs
       (fun r c => sql_eq_int (Some (Receiver.Receiver_ID r)) (Claim.Receiver_ID c)))
    fls
    (fun x fl => sql_eq_int (col Claim.Food_ID (snd x)) (Some (FoodListing.Food_ID fl)))
  = flat_map (rows_4 cs fls) rs.
Proof.
  intros Hnd. unfold LEFT_JOIN. rewrite flat_map_flat_map.
  apply flat_map_ext. intros r. unfold rows_4, claimed_by.
  destruct (filter _ cs) as [|c mine].
  { cbn [flat_map snd col]. rewrite app_nil_r.
    rewrite (filter_none _ fls); [reflexivity|]. intros fl _. reflexivity. }
  rewrite flat_map_map.
  rewrite (flat_map_ext _ (fun c => [((r, Some c), listing_claimed fls c)])).
  - apply flat_map_singleton.
  - intros c'. cbn [snd col]. rewrite (listings_of_claim fls _ Hnd).
    unfold listing_claimed. destruct (find _ fls); reflexivity.
Qed.

Lemma rows_4_not_nil (cs : list Claim.row) (fls : list FoodListing.row)
  (r : Receiver.row) : is_nil (rows_4 cs fls r) = false.
Proof. unfold rows_4. destruct (filter (claimed_by r) cs); reflexivity. Qed.

Lemma rows_4_receiver (cs : list Claim.row) (fls : list FoodListing.row)
  (r : Receiver.row) x :
  In x (rows_4 cs fls r) -> fst (fst x) = r.
Proof.
  unfold rows_4. destruct (filter (claimed_by r) cs) as [|c m].
  - intros [<-|[]]. reflexivity.
  - intros H. apply in_map_iff in H. destruct H as (c' & <- & _). reflexivity.
Qed.

Lemma NoDup_receiver_key (rs : list Receiver.row) :
  NoDup (map Receiver.Receiver_ID rs) -> NoDup (map receiver_key rs).
Proof.
  intros H. apply (NoDup_map_inv (fun k => fst (fst (fst k)))).
  rewrite map_map. exact H.
Qed.

Lemma receiver_groups_Permutation (rs : list Receiver.row) (cs : list Claim.row)
  (fls : list FoodListing.row) :
  NoDup (map Receiver.Receiver_ID rs) ->
  NoDup (map FoodListing.Food_ID fls) ->
  Permutation (receiver_groups rs cs fls)
    (map (fun r => (receiver_key r, rows_4 cs fls r)) rs).
Proof.
  intros Hrs Hfls. unfold receiver_groups. rewrite (receiver_rows rs cs fls Hfls).
  rewrite (GROUP_BY_flat_map provider_key_eq_dec
             (fun x : Receiver.row * option Claim.row * option FoodListing.row =>
                receiver_key (fst (fst x)))
             receiver_key (rows_4 cs fls)).
  - rewrite filter_all; [reflexivity|].
    intros r _. rewrite rows_4_not_nil. reflexivity.
  - intros r x Hx. rewrite (rows_4_receiver cs fls r x Hx). reflexivity.
  - apply NoDup_receiver_key. exact Hrs.
Qed.

Lemma COUNT_rows_4 (cs : list Claim.row) (fls : list FoodListing.row) (r : Receiver.row) :
  COUNT (fun x : Receiver.row * option Claim.row * option FoodListing.row =>
           Claim_ID_of (snd (fst x))) (rows_4 cs fls r)
  = Z.of_nat (List.length (filter (claimed_by r) cs)).
Proof.
  unfold rows_4. destruct (filter (claimed_by r) cs) as [|c m]; [reflexivity|].
  rewrite COUNT_all, length_map; [reflexivity|].
  intros x Hx. apply in_map_iff in Hx. destruct Hx as (c' & <- & _).
  eexists. reflexivity.
Qed.

Lemma SUM_rows_4 (status : string) (cs : list Claim.row) (fls : list FoodListing.row)
  (r : Receiver.row) :
  SUM (fun x : Receiver.row * option Claim.row * option FoodListing.row =>
         status_quantity_else_0 status (snd x) (snd (fst x))) (rows_4 cs fls r)
  = match filter (claimed_by r) cs with
    | [] => Some 0
    | mine => SUM (quantity_under status fls) mine
    end.
Proof.
  unfold rows_4. destruct (filter (claimed_by r) cs) as [|c m]; [reflexivity|].
  rewrite SUM_map. apply SUM_ext_in. intros c' _.
  unfold status_quantity_else_0, quantity_under, with_status. cbn [snd fst col].
  destruct (sql_eq_text (Claim.Status c') (Some status)); [|reflexivity].
  destruct (listing_claimed fls c'); reflexivity.
Qed.

Lemma select_4_Permutation (rs : list Receiver.row) (cs : list Claim.row)
  (fls : list FoodListing.row) :
  NoDup (map Receiver.Receiver_ID rs) ->
  NoDup (map FoodListing.Food_ID fls) ->
  Permutation (select_4 rs cs fls) (map (row_4 cs fls) rs).
Proof.
  intros Hrs Hfls. unfold select_4.
  rewrite ORDER_BY_Permutation.
  rewrite (Permutation_map row_4_of (receiver_groups_Permutation rs cs fls Hrs Hfls)).
  rewrite map_map. apply Permutation_refl'. apply map_ext. intros r.
  unfold row_4_of, row_4. cbn [fst snd receiver_key].
  rewrite COUNT_rows_4, !SUM_rows_4.
  destruct (filter (claimed_by r) cs); reflexivity.
Qed.

(** ** SUM per receiver in 64 bits *)

Lemma SUM_overflows_of_SUM {A} (expr : A -> option Z) (g : list A) :
  Forall (fun v => 0 <= v) (values expr g) ->
  SUM_overflows expr g
  = match SUM expr g with
    | Some q => negb (q <=? largest_integer)
    | None => false
    end.
Proof.
  intros H. rewrite (SUM_overflows_nonneg expr g H), SUM_values.
  destruct (values expr g); reflexivity.
Qed.

Lemma existsb_orb {A} (f f' : A -> bool) (l : list A) :
  existsb (fun a => f a || f' a) l = existsb f l || existsb f' l.
Proof.
  induction l as [|a l IH]; [reflexivity|].
  cbn [existsb]. rewrite IH.
  destruct (f a), (f' a), (existsb f l), (existsb f' l); reflexivity.
Qed.

Lemma existsb_Permutation {A} (f : A -> bool) (l l' : list A) :
  Permutation l l' -> existsb f l = existsb f l'.
Proof.
  induction 1 as [|x l l' _ IH|x y l|l l' l'' _ IH1 _ IH2]; cbn [existsb].
  - reflexivity.
  - rewrite IH. reflexivity.
  - destruct (f x), (f y); reflexivity.
  - congruence.
Qed.

Lemma listing_claimed_In (fls : list FoodListing.row) (c : Claim.row) (fl : FoodListing.row) :
  listing_claimed fls c = Some fl -> In fl fls.
Proof. unfold listing_claimed. intros H. apply find_some in H. exact (proj1 H). Qed.

Lemma values_rows_4_not_negative (status : string) (cs : list Claim.row)
  (fls : list FoodListing.row) (r : Receiver.row) :
  no_negative_quantity fls ->
  Forall (fun v => 0 <= v)
    (values (fun x : Receiver.row * option Claim.row * option FoodListing.row =>
               status_quantity_else_0 status (snd x) (snd (fst x))) (rows_4 cs fls r)).
Proof.
  intros Hq. unfold no_negative_quantity in Hq. rewrite Forall_forall in *.
  intros v Hv. unfold values in Hv. apply in_flat_map in Hv.
  destruct Hv as (x & Hx & Hv).
  unfold status_quantity_else_0 in Hv.
  destruct (sql_eq_text (col Claim.Status (snd (fst x))) (Some status)).
  - unfold rows_4 in Hx. destruct (filter (claimed_by r) cs) as [|c mine].
    + destruct Hx as [<-|[]]. destruct Hv.
    + apply in_map_iff in Hx. destruct Hx as (c' & <- & _). cbn [snd] in Hv.
      destruct (listing_claimed fls c') as [fl|] eqn:E; [|destruct Hv].
      cbn in Hv. destruct Hv as [<-|[]]. apply Hq.
      apply (listing_claimed_In fls c'). exact E.
  - destruct Hv as [<-|[]]. lia.
Qed.

Lemma receivers_sum_overflows (status : string) (rs : list Receiver.row)
  (cs : list Claim.row) (fls : list FoodListing.row) :
  NoDup (map Receiver.Receiver_ID rs) ->
  NoDup (map FoodListing.Food_ID fls) ->
  no_negative_quantity fls ->
  existsb (fun g => SUM_overflows
                      (fun x => status_quantity_else_0 status (snd x) (snd (fst x)))
                      (snd g))
    (receiver_groups rs cs fls) = false
  <-> forall r q, In r rs -> received_under status cs fls r = Some q -> q <= largest_integer.
Proof.
  intros Hrs Hfls Hq.
  rewrite (existsb_Permutation _ _ _ (receiver_groups_Permutation rs cs fls Hrs Hfls)).
  rewrite existsb_false. split.
  - intros H r q Hr Hsum.
    specialize (H (receiver_key r, rows_4 cs fls r) (in_map _ _ _ Hr)). cbn [snd] in H.
    rewrite SUM_overflows_of_SUM in H by (apply values_rows_4_not_negative; exact Hq).
    rewrite SUM_rows_4 in H. unfold received_under in Hsum. rewrite Hsum in H.
    apply Z.leb_le. apply negb_false_iff. exact H.
  - intros H g Hg. apply in_map_iff in Hg. destruct Hg as (r & <- & Hr). cbn [snd].
    rewrite SUM_overflows_of_SUM by (apply values_rows_4_not_negative; exact Hq).
    rewrite SUM_rows_4.
    specialize (H r). unfold received_under in H.
    destruct (match filter (claimed_by r) cs with
              | [] => Some 0
              | c :: l => SUM (quantity_under status fls) (c :: l)
              end) as [q|]; [|reflexivity].
    apply negb_false_iff. apply Z.leb_le. apply (H q Hr). reflexivity.
Qed.

Lemma receivers_sum_overflows_true (status : string) (rs : list Receiver.row)
  (cs : list Claim.row) (fls : list FoodListing.row) :
  NoDup (map Receiver.Receiver_ID rs) ->
  NoDup (map FoodListing.Food_ID fls) ->
  no_negative_quantity fls ->
  (exists r q, In r rs /\ received_under status cs fls r = Some q /\ largest_integer < q) ->
  existsb (fun g => SUM_overflows
                      (fun x => status_quantity_else_0 status (snd x) (snd (fst x)))
                      (snd g))
    (receiver_groups rs cs fls) = true.
Proof.
  intros Hrs Hfls Hq (r & q & Hr & Hsum & Hlt).
  apply not_false_iff_true. intros H.
  pose proof (proj1 (receivers_sum_overflows status rs cs fls Hrs Hfls Hq) H r q Hr Hsum).
  lia.
Qed.

Lemma row_4_received (cs : list Claim.row) (fls : list FoodListing.row) (r : Receiver.row) :
  Report4.Food_Received (row_4 cs fls r) = received_under "Completed" cs fls r /\
  Report4.Food_Pending (row_4 cs fls r) = received_under "Pending" cs fls r.
Proof.
  unfold received_under. cbn [row_4 Report4.Food_Received Report4.Food_Pending].
  destruct (filter (claimed_by r) cs); split; reflexivity.
Qed.

Lemma overflows_4_split (rs : list Receiver.row) (cs : list Claim.row)
  (fls : list FoodListing.row) :
  overflows_4 rs cs fls
  = overflows_11 rs cs fls
    || existsb (fun g => SUM_overflows
                           (fun x => status_quantity_else_0 "Pending" (snd x) (snd (fst x)))
                           (snd g))
         (receiver_groups rs cs fls).
Proof. unfold overflows_4, overflows_11. apply existsb_orb. Qed.

(** X9.  On a file that opens and holds the receivers [rs], the claims
    [cs] and the listings [fls], no two receivers with the same
    [Receiver_ID], no two listings with the same [Food_ID] and no
    listing with a negative quantity: when neither [Food_Received] nor
    [Food_Pending] passes the largest integer for a receiver, report 4
    has exactly one row per receiver, also for a receiver that claimed
    nothing (0 claims, quantities 0).  [Total_Claims] is the number of
    claims that name the receiver; [Food_Received] and [Food_Pending]
    add up, over these claims, the quantity of the listing claimed when
    the status is 'Completed', respectively 'Pending'.  The rows are in
    descending order of [Food_Received], NULL last.  When one of the two
    passes the largest integer for a receiver, the report fails: the
    frame is empty and the engine's "integer overflow" is printed. *)
Theorem query_4_has_a_row_for_every_receiver (w : World) (db : Database)
  (rs : list Receiver.row) (cs : list Claim.row) (fls : list FoodListing.row) :
  disk w = Some db ->
  receivers db = Some rs ->
  claims db = Some cs ->
  food_listings db = Some fls ->
  NoDup (map Receiver.Receiver_ID rs) ->
  NoDup (map FoodListing.Food_ID fls) ->
  no_negative_quantity fls ->
  ((forall r q, In r rs ->
      Report4.Food_Received (row_4 cs fls r) = Some q \/
      Report4.Food_Pending (row_4 cs fls r) = Some q ->
      q <= largest_integer) ->
   exists df,
     fst (query_4_top_claiming_receivers w) = Returned df /\
     Permutation (rows df) (map (row_4 cs fls) rs) /\
     StronglySorted
       (fun a b => Zleb_null (Report4.Food_Received b) (Report4.Food_Received a) = true)
       (rows df)) /\
  ((exists r q, In r rs /\
      (Report4.Food_Received (row_4 cs fls r) = Some q \/
       Report4.Food_Pending (row_4 cs fls r) = Some q) /\
      largest_integer < q) ->
   fails_with_integer_overflow query_4 w).
Proof.
  intros Hd Hr Hc Hf Hrs Hfls Hq. split.
  - intros Hfit.
    assert (Hov : overflows_4 rs cs fls = false).
    { rewrite overflows_4_split. apply orb_false_iff. split.
      - apply (proj2 (receivers_sum_overflows "Completed" rs cs fls Hrs Hfls Hq)).
        intros r q Hin Hsum. apply (Hfit r q Hin). left.
        rewrite (proj1 (row_4_received cs fls r)). exact Hsum.
      - apply (proj2 (receivers_sum_overflows "Pending" rs cs fls Hrs Hfls Hq)).
        intros r q Hin Hsum. apply (Hfit r q Hin). right.
        rewrite (proj2 (row_4_received cs fls r)). exact Hsum. }
    eexists. split.
    { unfold query_4_top_claiming_receivers.
      apply (execute_query_ok _ w db); [exact Hd|].
      cbn [run query_4 no_params]. rewrite Hr, Hc, Hf. cbn [FROM obind].
      rewrite Hov. reflexivity. }
    cbn [rows]. split.
    + apply select_4_Permutation; assumption.
    + apply DESC_Zleb_null_sorted.
  - intros (r & q & Hin & Hsum & Hlt).
    assert (Hov : overflows_4 rs cs fls = true).
    { rewrite overflows_4_split. apply orb_true_iff.
      destruct (row_4_received cs fls r) as [Hrec Hpen].
      destruct Hsum as [Hsum|Hsum]; [left; rewrite Hrec in Hsum|right; rewrite Hpen in Hsum].
      - apply (receivers_sum_overflows_true "Completed" rs cs fls Hrs Hfls Hq).
        exists r, q. auto.
      - apply (receivers_sum_overflows_true "Pending" rs cs fls Hrs Hfls Hq).
        exists r, q. auto. }
    apply (execute_query_overflows _ w db Hd).
    cbn [run query_4 no_params]. rewrite Hr, Hc, Hf. cbn [FROM obind].
    rewrite Hov. reflexivity.
Qed.

Lemma select_11_figures (rs : list Receiver.row) (cs : list Claim.row)
  (fls : list FoodListing.row) :
  NoDup (map Receiver.Receiver_ID rs) ->
  NoDup (map FoodListing.Food_ID fls) ->
  (forall r, In r (select_11 rs cs fls) -> 0 < Report11.Total_Claims r) /\
  Permutation (map figures_11 (select_11 rs cs fls))
    (map figures_4
       (filter (fun r => 0 <? Report4.Total_Claims r) (map (row_4 cs fls) rs))).
Proof.
  intros Hrs Hfls. split.
  - intros r Hr. unfold select_11 in Hr.
    apply (Permutation_in _ (ORDER_BY_Permutation _ _)) in Hr.
    apply filter_In in Hr. destruct Hr as [_ Hr]. apply Z.ltb_lt in Hr. exact Hr.
  - rewrite select_11_of_select_4.
    apply Permutation_map, Permutation_filter, select_4_Permutation; assumption.
Qed.

(** X8.  On a file that opens and holds the receivers [rs], the claims
    [cs] and the listings [fls], no two receivers with the same
    [Receiver_ID], no two listings with the same [Food_ID] and no
    listing with a negative quantity, and when the quantity received
    passes the largest integer for no receiver: report 11 returns, and
    its rows carry the name, type, city, number of claims and quantity
    received of the receivers that claimed something, each once.  When
    the quantity pending passes the largest integer for no receiver
    either, report 4 returns too and report 11 is report 4 without the
    receivers that claimed nothing; when it does for a receiver, report 4
    fails with the engine's "integer overflow" while report 11 still
    returns its rows. *)
Theorem query_11_is_query_4_of_the_receivers_with_claims (w : World) (db : Database)
  (rs : list Receiver.row) (cs : list Claim.row) (fls : list FoodListing.row) :
  disk w = Some db ->
  receivers db = Some rs ->
  claims db = Some cs ->
  food_listings db = Some fls ->
  NoDup (map Receiver.Receiver_ID rs) ->
  NoDup (map FoodListing.Food_ID fls) ->
  no_negative_quantity fls ->
  (forall r q, In r rs -> Report4.Food_Received (row_4 cs fls r) = Some q ->
               q <= largest_integer) ->
  exists df11,
    fst (query_11_avg_quantity_per_receiver w) = Returned df11 /\
    (forall r, In r (rows df11) -> 0 < Report11.Total_Claims r) /\
    Permutation (map figures_11 (rows df11))
      (map figures_4
         (filter (fun r => 0 <? Report4.Total_Claims r) (map (row_4 cs fls) rs))) /\
    ((forall r q, In r rs -> Report4.Food_Pending (row_4 cs fls r) = Some q ->
                  q <= largest_integer) ->
     exists df4,
       fst (query_4_top_claiming_receivers w) = Returned df4 /\
       Permutation (map figures_11 (rows df11))
         (map figures_4 (filter (fun r => 0 <? Report4.Total_Claims r) (rows df4)))) /\
    ((exists r q, In r rs /\ Report4.Food_Pending (row_4 cs fls r) = Some q /\
                  largest_integer < q) ->
     fails_with_integer_overflow query_4 w).
Proof.
  intros Hd Hr Hc Hf Hrs Hfls Hq Hfit.
  assert (Hov11 : overflows_11 rs cs fls = false).
  { apply (proj2 (receivers_sum_overflows "Completed" rs cs fls Hrs Hfls Hq)).
    intros r q Hin Hsum. apply (Hfit r q Hin).
    rewrite (proj1 (row_4_received cs fls r)). exact Hsum. }
  destruct (select_11_figures rs cs fls Hrs Hfls) as [Hpos Hfig].
  eexists. split.
  { unfold query_11_avg_quantity_per_receiver.
    apply (execute_query_ok _ w db); [exact Hd|].
    cbn [run query_11 no_params]. rewrite Hr, Hc, Hf. cbn [FROM obind].
    rewrite Hov11. reflexivity. }
  cbn [rows]. split; [exact Hpos|]. split; [exact Hfig|]. split.
  - intros Hfit'.
    eexists. split.
    { unfold query_4_top_claiming_receivers.
      apply (execute_query_ok _ w db); [exact Hd|].
      cbn [run query_4 no_params]. rewrite Hr, Hc, Hf. cbn [FROM obind].
      rewrite overflows_4_split, Hov11.
      rewrite (proj2 (receivers_sum_overflows "Pending" rs cs fls Hrs Hfls Hq)).
      - reflexivity.
      - intros r q Hin Hsum. apply (Hfit' r q Hin).
        rewrite (proj2 (row_4_received cs fls r)). exact Hsum. }
    cbn [rows]. apply select_11_of_select_4.
  - intros Hover.
    apply (execute_query_overflows _ w db Hd).
    cbn [run query_4 no_params]. rewrite Hr, Hc, Hf. cbn [FROM obind].
    rewrite overflows_4_split, Hov11.
    rewrite (receivers_sum_overflows_true "Pending" rs cs fls Hrs Hfls Hq).
    + reflexivity.
    + destruct Hover as (r & q & Hin & Hsum & Hlt). exists r, q.
      rewrite (proj2 (row_4_received cs fls r)) in Hsum. auto.
Qed.

(** ** Report 2 *)












(** ** [get_all_queries_results] *)

Lemma store_run {A} (title : string) (query : Statement A)
  (results : list (string * AnyFrame)) (w : World) :
  exists (df : DataFrame A) w1,
    store title (execute_query query None) results w
    = (Returned (results ++ [(title, any_frame df)])%list, w1) /\
    disk w1 = disk w /\
    (disk w = None ->
     df = pd_DataFrame /\
     stdout w1
     = (stdout w ++ [("Error executing query: " ++ str unable_to_open)%string])%list).
Proof.
  destruct (execute_query_run query None w) as (df & w1 & Hrun & Hdisk & H).
  exists df, w1. unfold store, bind. rewrite Hrun. unfold ret.
  split; [reflexivity|]. split; [exact Hdisk|].
  intros Hnone. rewrite Hnone in H. exact H.
Qed.

Ltac store_step :=
  unfold bind at 1;
  match goal with
  | |- context [store ?title (execute_query ?query None) ?results ?w] =>
      let df := fresh "df" in
      let w1 := fresh "w" in
      let Hrun := fresh "Hrun" in
      let Hdisk := fresh "Hdisk" in
      let Hnone := fresh "Hnone" in
      destruct (store_run title query results w) as (df & w1 & Hrun & Hdisk & Hnone);
      rewrite Hrun; clear Hrun
  end.

(** X11.  Whatever the storage holds, [get_all_queries_results] returns
    normally and leaves the file as it was; the dict it returns has the
    fourteen titles of reports 1, 2 and 4 to 15 in this order, and no
    entry for report 3.  When the file cannot be opened every frame of
    the dict is empty and fourteen lines have been printed, one per
    report. *)
Theorem get_all_queries_results_files_fourteen_reports
  (julianday : string -> option Q) (w : World) :
  exists results w1,
    get_all_queries_results julianday w = (Returned results, w1) /\
    map fst results = titles_of_all_queries /\
    disk w1 = disk w /\
    (disk w = None ->
     Forall (fun entry => is_pd_DataFrame (snd entry)) results /\
     stdout w1
     = (stdout w
        ++ repeat ("Error executing query: " ++ str unable_to_open)%string 14)%list).
Proof.
  unfold get_all_queries_results,
    query_1_providers_receivers_by_city, query_2_provider_type_contribution,
    query_4_top_claiming_receivers, query_5_total_food_quantity,
    query_6_city_food_listings, query_7_common_food_types,
    query_8_claims_per_food_item, query_9_successful_providers,
    query_10_claim_status_distribution, query_11_avg_quantity_per_receiver,
    query_12_popular_meal_types, query_13_provider_donations,
    query_14_expiring_food, query_15_unclaimed_food.
  unfold bind at 1. unfold ret at 1.
  do 14 store_step.
  unfold ret. do 2 eexists. split; [reflexivity|].
  split; [reflexivity|]. split; [congruence|].
  intros Hw.
  repeat match goal with
         | H : disk ?w1 = None -> _, E : disk ?w1 = None |- _ =>
             destruct (H E) as [-> ?]; clear H
         | H : disk ?w2 = disk ?w1, E : disk ?w1 = None |- _ =>
             rewrite E in H
         end.
  split.
  - repeat constructor.
  - cbn [repeat].
    repeat match goal with
           | H : stdout _ = _ |- _ => rewrite H; clear H
           end.
    rewrite <- !app_assoc. reflexivity.
Qed.

(** * The utilities *)

(** ** [get_database_stats] *)

Lemma MIN_le {A} (f : A -> Z) (g : list A) (a : A) :
  In a g -> exists m, MIN (fun a => Some (f a)) g = Some m /\ m <= f a.
Proof.
  induction g as [|b g IH]; [contradiction|].
  cbn [MIN fold_right]. fold (MIN (fun a => Some (f a)) g).
  intros [->|Hin].
  - destruct (MIN (fun a => Some (f a)) g); eexists; (split; [reflexivity|lia]).
  - destruct (IH Hin) as (m & -> & Hm). eexists. split; [reflexivity|lia].
Qed.

Lemma MAX_ge {A} (f : A -> Z) (g : list A) (a : A) :
  In a g -> exists m, MAX (fun a => Some (f a)) g = Some m /\ f a <= m.
Proof.
  induction g as [|b g IH]; [contradiction|].
  cbn [MAX fold_right]. fold (MAX (fun a => Some (f a)) g).
  intros [->|Hin].
  - destruct (MAX (fun a => Some (f a)) g); eexists; (split; [reflexivity|lia]).
  - destruct (IH Hin) as (m & -> & Hm). eexists. split; [reflexivity|lia].
Qed.

Lemma get_database_stats_run (w : World) (db : Database) ps rs fls cs :
  disk w = Some db ->
  providers db = Some ps ->
  receivers db = Some rs ->
  food_listings db = Some fls ->
  claims db = Some cs ->
  SUM_overflows (fun fl => Some (FoodListing.Quantity fl)) fls = false ->
  get_database_stats w
  = (Returned
       [("providers_count", a_count (Z.of_nat (List.length ps)));
        ("receivers_count", a_count (Z.of_nat (List.length rs)));
        ("food_listings_count", a_count (Z.of_nat (List.length fls)));
        ("claims_count", a_count (Z.of_nat (List.length cs)));
        ("food_stats",
         the_food_stats
           {| total_quantity := SUM (fun fl => Some (FoodListing.Quantity fl)) fls;
              avg_quantity := AVG (fun fl => Some (FoodListing.Quantity fl)) fls;
              min_quantity := MIN (fun fl => Some (FoodListing.Quantity fl)) fls;
              max_quantity := MAX (fun fl => Some (FoodListing.Quantity fl)) fls |});
        ("claim_stats",
         the_claim_stats
           (map (fun g => {| ClaimStat.Status := fst g;
                             ClaimStat.count := COUNT_star (snd g) |})
                (GROUP_BY status_eq_dec Claim.Status cs)))],
     set_conn None w).
Proof.
  intros Hd Hp Hr Hf Hc Hov.
  unfold get_database_stats, try_except, bind, sqlite3_connect. rewrite Hd.
  unfold for_in, bind, ret, pd_read_sql_query, first_row, close.
  cbn. rewrite Hp. cbn. rewrite Hr. cbn. rewrite Hf. cbn. rewrite Hc. cbn.
  rewrite Hf. cbn [FROM obind]. rewrite Hov. cbn. rewrite Hc. cbn.
  unfold COUNT_star. rewrite !length_map. reflexivity.
Qed.

Lemma get_database_stats_overflow_run (w : World) (db : Database) ps rs fls cs :
  disk w = Some db ->
  providers db = Some ps ->
  receivers db = Some rs ->
  food_listings db = Some fls ->
  claims db = Some cs ->
  SUM_overflows (fun fl => Some (FoodListing.Quantity fl)) fls = true ->
  exists w1,
    get_database_stats w = (Returned [], w1) /\
    stdout w1
    = (stdout w
       ++ [("❌ Error getting database stats: Execution failed on sql '"
            ++ sql select_food_stats ++ "': integer overflow")%string])%list /\
    disk w1 = disk w.
Proof.
  intros Hd Hp Hr Hf Hc Hov.
  unfold get_database_stats, try_except, bind, sqlite3_connect. rewrite Hd.
  unfold for_in, bind, ret, pd_read_sql_query, first_row, close.
  cbn. rewrite Hp. cbn. rewrite Hr. cbn. rewrite Hf. cbn. rewrite Hc. cbn.
  rewrite Hf. cbn [FROM obind]. rewrite Hov. cbn.
  eexists. split; [reflexivity|]. split; [reflexivity|]. cbn. exact Hd.
Qed.

(** X12.  On a file that opens and holds the four tables, no listing
    with a negative quantity: when the quantities add up to no more than
    the largest integer, [get_database_stats] returns a dict of six
    entries and prints nothing: the four counts are the numbers of rows
    of the tables, the food statistics give the sum of the quantities
    (NULL without listings) and bounds no listing's quantity falls
    outside of, and the claim statistics have one row per distinct
    status whose counts add up to the number of claims.  The file is
    left as it was and the connection is closed.  When the quantities
    add up to more, the dict returned is empty and the engine's "integer
    overflow" is printed. *)
Theorem get_database_stats_counts_the_tables (w : World) (db : Database)
  (ps : list Provider.row) (rs : list Receiver.row) (fls : list FoodListing.row)
  (cs : list Claim.row) :
  disk w = Some db ->
  providers db = Some ps ->
  receivers db = Some rs ->
  food_listings db = Some fls ->
  claims db = Some cs ->
  no_negative_quantity fls ->
  (quantity_of_all fls <= largest_integer ->
   exists stats food claim w1,
     get_database_stats w = (Returned stats, w1) /\
     map fst stats = ["providers_count"; "receivers_count"; "food_listings_count";
                      "claims_count"; "food_stats"; "claim_stats"] /\
     dict_get "providers_count" stats = Some (a_count (Z.of_nat (List.length ps))) /\
     dict_get "receivers_count" stats = Some (a_count (Z.of_nat (List.length rs))) /\
     dict_get "food_listings_count" stats = Some (a_count (Z.of_nat (List.length fls))) /\
     dict_get "claims_count" stats = Some (a_count (Z.of_nat (List.length cs))) /\
     dict_get "food_stats" stats = Some (the_food_stats food) /\
     dict_get "claim_stats" stats = Some (the_claim_stats claim) /\
     total_quantity food
     = match fls with [] => None | _ => Some (quantity_of_all fls) end /\
     (forall fl, In fl fls ->
        exists lo hi,
          min_quantity food = Some lo /\ max_quantity food = Some hi /\
          lo <= FoodListing.Quantity fl <= hi) /\
     NoDup (map ClaimStat.Status claim) /\
     Zsum (map ClaimStat.count claim) = Z.of_nat (List.length cs) /\
     stdout w1 = stdout w /\ disk w1 = disk w /\ conn w1 = None) /\
  (largest_integer < quantity_of_all fls ->
   exists w1,
     get_database_stats w = (Returned [], w1) /\
     stdout w1
     = (stdout w
        ++ [("❌ Error getting database stats: Execution failed on sql '"
             ++ sql select_food_stats ++ "': integer overflow")%string])%list /\
     disk w1 = disk w).
Proof.
  intros Hd Hp Hr Hf Hc Hq.
  pose proof (SUM_overflows_quantities fls Hq) as Hov.
  split; intros Hfit.
  2:{ apply (get_database_stats_overflow_run w db ps rs fls cs); try assumption.
      rewrite Hov. apply negb_true_iff. apply Z.leb_gt. exact Hfit. }
  rewrite (proj2 (Z.leb_le _ _) Hfit) in Hov.
  do 4 eexists. split; [apply (get_database_stats_run w db ps rs fls cs); assumption|].
  split; [reflexivity|].
  do 6 (split; [reflexivity|]).
  cbn [total_quantity min_quantity max_quantity].
  split; [apply SUM_all_Some|]. split; [|split; [|split; [|repeat split]]].
  - intros fl Hin.
    destruct (MIN_le FoodListing.Quantity fls fl Hin) as (lo & Hlo & Hle).
    destruct (MAX_ge FoodListing.Quantity fls fl Hin) as (hi & Hhi & Hge).
    exists lo, hi. repeat split; assumption.
  - rewrite map_map. cbn [ClaimStat.Status].
    change (map (fun g : option string * list Claim.row => fst g)
                (GROUP_BY status_eq_dec Claim.Status cs))
      with (map fst (GROUP_BY status_eq_dec Claim.Status cs)).
    rewrite GROUP_BY_keys. apply NoDup_nodup.
  - rewrite map_map. cbn [ClaimStat.count]. unfold COUNT_star. apply GROUP_BY_sizes.
Qed.

(** X13.  When the file cannot be opened or lacks one of the four
    tables, [get_database_stats] returns the empty dict, not a partial
    one, after printing one line that begins with the error prefix; the
    file is left as it was. *)
Theorem get_database_stats_is_all_or_nothing (w : World) :
  all_tables_present (disk w) = false ->
  exists reason w1,
    get_database_stats w = (Returned [], w1) /\
    stdout w1 = (stdout w ++ [("❌ Error getting database stats: " ++ reason)%string])%list /\
    disk w1 = disk w.
Proof.
  intros Hmissing.
  unfold get_database_stats, try_except, bind, sqlite3_connect.
  destruct (disk w) as [db|] eqn:Hd.
  2:{ do 2 eexists. split; [reflexivity|]. split; [reflexivity|]. exact Hd. }
  unfold for_in, bind, ret, pd_read_sql_query, first_row, close.
  cbn in Hmissing. cbn.
  destruct (providers db) as [ps|]; cbn;
    [|do 2 eexists; split; [reflexivity|]; split; [reflexivity|]; exact Hd].
  destruct (receivers db) as [rs|]; cbn;
    [|do 2 eexists; split; [reflexivity|]; split; [reflexivity|]; exact Hd].
  destruct (food_listings db) as [fls|]; cbn;
    [|do 2 eexists; split; [reflexivity|]; split; [reflexivity|]; exact Hd].
  destruct (claims db) as [cs|]; cbn;
    [|do 2 eexists; split; [reflexivity|]; split; [reflexivity|]; exact Hd].
  discriminate.
Qed.

(** * The set-up *)

(** ** [load_csv_data] *)

Lemma load_csv_data_missing_run (w : World) (db : Database)
  (path : string) (others : list string) :
  disk w = Some db ->
  missing_files (data w) = path :: others ->
  exists w1,
    load_csv_data w
    = (Raised {| exc_class := plain_Exception;
                 str := "Error loading data: CSV file not found: " ++ path |}, w1) /\
    disk w1 = Some db /\ stdout w1 = stdout w /\ conn w1 = None.
Proof.
  intros Hd Hm.
  unfold load_csv_data. unfold bind at 1. rewrite (create_connection_ok w db Hd).
  unfold try_finally, try_except, for_each, csv_files, os_path_exists,
    Exception, raise, ret, close.
  unfold missing_files in Hm.
  repeat (unfold bind; cbn).
  destruct (providers_data_csv (data w)) as [f1|]; cbn in Hm |- *.
  2:{ inversion Hm; subst. eexists. split; [reflexivity|]. cbn. auto. }
  destruct (receivers_data_csv (data w)) as [f2|]; cbn in Hm |- *.
  2:{ inversion Hm; subst. eexists. split; [reflexivity|]. cbn. auto. }
  destruct (food_listings_data_csv (data w)) as [f3|]; cbn in Hm |- *.
  2:{ inversion Hm; subst. eexists. split; [reflexivity|]. cbn. auto. }
  destruct (claims_data_csv (data w)) as [f4|]; cbn in Hm |- *.
  2:{ inversion Hm; subst. eexists. split; [reflexivity|]. cbn. auto. }
  discriminate.
Qed.

(** X14.  The main [load_csv_data] looks for the four CSV files before
    it loads any: when the file opens and a CSV file is not there, the
    call raises an [Exception] that names the first file that is not
    there, nothing is printed, no table is replaced (also not the
    tables whose files are there) and the connection is closed. *)
Theorem load_csv_data_loads_nothing_when_a_file_is_missing (w : World) (db : Database)
  (path : string) (others : list string) :
  disk w = Some db ->
  missing_files (data w) = path :: others ->
  exists w1,
    load_csv_data w
    = (Raised {| exc_class := plain_Exception;
                 str := "Error loading data: CSV file not found: " ++ path |}, w1) /\
    disk w1 = Some db /\ stdout w1 = stdout w /\ conn w1 = None.
Proof. apply load_csv_data_missing_run. Qed.

Ltac project_load_done :=
  do 2 eexists; split; [reflexivity|]; cbn;
  split; [first [reflexivity | assumption]|]; split; [reflexivity|];
  split;
  [ intros H; first [discriminate H | split; [discriminate|reflexivity]]
  | intros [_ H]; first [discriminate H | reflexivity] ].

Lemma food_waste_project_load_csv_data_outcome (w : World) :
  exists w1 line,
    food_waste_project.load_csv_data w = (Returned tt, w1) /\
    disk w1 = option_map (loaded_until_failure (data w)) (disk w) /\
    stdout w1 = (stdout w ++ [line])%list /\
    (line = "Data loaded successfully!"
     <-> disk w <> None /\ all_files_parse (data w) = true).
Proof.
  unfold food_waste_project.load_csv_data, loaded_until_failure, all_files_parse.
  unfold bind at 1.
  destruct (disk w) as [db|] eqn:Hd.
  - rewrite (create_connection_ok w db Hd).
    unfold try_finally, try_except, load_steps, pd_read_csv, to_sql_replace, print, close.
    repeat (unfold bind; cbn).
    destruct (providers_data_csv (data w)) as [[|ps]|]; cbn;
      [project_load_done| |project_load_done].
    destruct (receivers_data_csv (data w)) as [[|rs]|]; cbn;
      [project_load_done| |project_load_done].
    destruct (food_listings_data_csv (data w)) as [[|fls]|]; cbn;
      [project_load_done| |project_load_done].
    destruct (claims_data_csv (data w)) as [[|cs]|]; cbn; project_load_done.
  - unfold create_connection, try_except_sqlite3_Error, bind, sqlite3_connect, print, ret.
    rewrite Hd. cbn.
    do 2 eexists. split; [reflexivity|]. cbn.
    split; [assumption|]. split; [reflexivity|].
    split; [discriminate|]. intros [H _]. congruence.
Qed.

(** X15.  The [load_csv_data] of [food_waste_project] never raises.
    It replaces the tables one after the other and stops at the first
    CSV file that is missing or does not parse: the tables replaced
    before that file keep their new rows, the others keep their old
    ones.  It prints exactly one line, which is the success line only
    when the file opened and all four CSV files parsed. *)
Theorem food_waste_project_load_csv_data_keeps_a_partial_load (w : World) :
  exists w1 line,
    food_waste_project.load_csv_data w = (Returned tt, w1) /\
    disk w1 = option_map (loaded_until_failure (data w)) (disk w) /\
    stdout w1 = (stdout w ++ [line])%list /\
    (line = "Data loaded successfully!"
     <-> disk w <> None /\ all_files_parse (data w) = true).
Proof. apply food_waste_project_load_csv_data_outcome. Qed.

Ltac main_load_done :=
  do 2 eexists; split; [reflexivity|]; cbn;
  split; [first [reflexivity | assumption]|]; split; [reflexivity|];
  split; reflexivity.

Lemma load_csv_data_present_run (w : World) (db : Database) :
  disk w = Some db ->
  missing_files (data w) = [] ->
  exists r w1,
    load_csv_data w = (r, w1) /\
    disk w1 = Some (loaded_until_failure (data w) db) /\
    conn w1 = None /\
    if all_files_parse (data w)
    then r = Returned tt /\
         stdout w1 = (stdout w ++ ["‚úÖ Data loaded successfully!"])%list
    else r = Raised {| exc_class := plain_Exception;
                       str := "Error loading data: Error tokenizing data." |} /\
         stdout w1 = stdout w.
Proof.
  intros Hd Hm.
  unfold load_csv_data, loaded_until_failure, all_files_parse.
  unfold bind at 1. rewrite (create_connection_ok w db Hd).
  unfold try_finally, try_except, for_each, csv_files, os_path_exists,
    Exception, raise, load_steps, pd_read_csv, to_sql_replace, print, ret, close.
  unfold missing_files in Hm.
  repeat (unfold bind; cbn).
  destruct (providers_data_csv (data w)) as [f1|] eqn:E1; cbn in Hm |- *; [|discriminate].
  destruct (receivers_data_csv (data w)) as [f2|] eqn:E2; cbn in Hm |- *; [|discriminate].
  destruct (food_listings_data_csv (data w)) as [f3|] eqn:E3; cbn in Hm |- *;
    [|discriminate].
  destruct (claims_data_csv (data w)) as [f4|] eqn:E4; cbn in Hm |- *; [|discriminate].
  destruct f1 as [|ps]; repeat (cbn; rewrite ?E1, ?E2, ?E3, ?E4); [main_load_done|].
  destruct f2 as [|rs]; repeat (cbn; rewrite ?E1, ?E2, ?E3, ?E4); [main_load_done|].
  destruct f3 as [|fls]; repeat (cbn; rewrite ?E1, ?E2, ?E3, ?E4); [main_load_done|].
  destruct f4 as [|cs]; repeat (cbn; rewrite ?E1, ?E2, ?E3, ?E4); main_load_done.
Qed.

(** X16.  When the file opens and the four CSV files are there, the
    main [load_csv_data] replaces the tables one after the other.  When
    all files parse it returns after printing the success line.  When
    one does not parse it raises an [Exception] and prints nothing, and
    the tables replaced before that file keep their new rows: the load
    is not undone.  The connection is closed either way. *)
Theorem load_csv_data_keeps_the_tables_loaded_before_a_failure (w : World)
  (db : Database) :
  disk w = Some db ->
  missing_files (data w) = [] ->
  exists r w1,
    load_csv_data w = (r, w1) /\
    disk w1 = Some (loaded_until_failure (data w) db) /\
    conn w1 = None /\
    if all_files_parse (data w)
    then r = Returned tt /\
         stdout w1 = (stdout w ++ ["‚úÖ Data loaded successfully!"])%list
    else r = Raised {| exc_class := plain_Exception;
                       str := "Error loading data: Error tokenizing data." |} /\
         stdout w1 = stdout w.
Proof. apply load_csv_data_present_run. Qed.

(** ** Without storage *)

Lemma without_storage_run (w : World) :
  disk w = None ->
  let w1 := add_stdout "Error creating connection: unable to open database file" w in
  let could_not_connect :=
    {| exc_class := plain_Exception; str := "Could not connect to database" |} in
  create_connection w = (Returned None, w1) /\
  create_tables w = (Raised could_not_connect, w1) /\
  load_csv_data w = (Raised could_not_connect, w1) /\
  food_waste_project.create_tables w = (Returned tt, w1) /\
  food_waste_project.load_csv_data w = (Returned tt, w1).
Proof.
  intros Hd.
  assert (Hc : create_connection w
               = (Returned None,
                  add_stdout "Error creating connection: unable to open database file" w)).
  { unfold create_connection, try_except_sqlite3_Error, bind, sqlite3_connect, print, ret.
    rewrite Hd. reflexivity. }
  cbv zeta. split; [exact Hc|].
  unfold create_tables, load_csv_data, food_waste_project.create_tables,
    food_waste_project.load_csv_data.
  repeat split; unfold bind at 1; rewrite Hc; reflexivity.
Qed.

(** X17.  When the database file cannot be opened, [create_connection]
    prints the error and returns no connection; the main
    [create_tables] and [load_csv_data] then raise an [Exception],
    while those of [food_waste_project] return as if nothing had
    happened. *)
Theorem setup_without_storage_raises_in_one_version_only (w : World) :
  disk w = None ->
  let w1 := add_stdout "Error creating connection: unable to open database file" w in
  let could_not_connect :=
    {| exc_class := plain_Exception; str := "Could not connect to database" |} in
  create_connection w = (Returned None, w1) /\
  create_tables w = (Raised could_not_connect, w1) /\
  load_csv_data w = (Raised could_not_connect, w1) /\
  food_waste_project.create_tables w = (Returned tt, w1) /\
  food_waste_project.load_csv_data w = (Returned tt, w1).
Proof. apply without_storage_run. Qed.

(** * The purge and report 14 *)

(** X18.  A listing whose [Expiry_Date] is the text of the current date
    is, at any moment after that day's midnight, listed by report 14
    with status 'Expired', and yet the purge run at the same moment
    keeps it: the report compares moments, the purge compares dates. *)
Theorem a_listing_that_expires_today_is_reported_expired_but_not_purged
  (julianday : string -> option Q) (w : World) (db : Database)
  (fls : list FoodListing.row) (fl : FoodListing.row) (midnight : Q) :
  disk w = Some db ->
  food_listings db = Some fls ->
  In fl fls ->
  FoodListing.Expiry_Date fl = Some (date_now (clock w)) ->
  julianday (date_now (clock w)) = Some midnight ->
  (midnight < julianday_now (clock w))%Q ->
  (exists df r,
     fst (query_14_expiring_food julianday w) = Returned df /\
     In r (rows df) /\
     r = row_14 julianday (clock w) fl /\
     Report14.Status r = "Expired") /\
  (exists n w1 db1 kept,
     clean_expired_food w = (Returned n, w1) /\
     disk w1 = Some db1 /\
     food_listings db1 = Some kept /\
     In fl kept).
Proof.
  intros Hd Hf Hin Hdate Hj Hlt.
  assert (Hdays : days_until_expiry julianday (clock w) (FoodListing.Expiry_Date fl)
                  = Some (midnight - julianday_now (clock w))%Q).
  { unfold days_until_expiry. rewrite Hdate, Hj. reflexivity. }
  split.
  - eexists. exists (row_14 julianday (clock w) fl). split.
    { unfold query_14_expiring_food.
      apply (execute_query_ok _ w db); [exact Hd|].
      simpl. rewrite Hf. reflexivity. }
    cbn [rows]. split; [|split; [reflexivity|]].
    + apply select_14_In. exists fl. split; [exact Hin|]. split; [|reflexivity].
      rewrite Hdays. apply sql_le_real_true. eexists. split; [reflexivity|]. lra.
    + cbn [row_14 Report14.Status]. rewrite Hdays.
      apply (proj1 (expiry_status_cases _)). lra.
  - destruct (clean_expired_food_run w) as (w1 & Hrun & _ & _ & Hdisk).
    rewrite Hd in Hrun, Hdisk. cbn [option_map] in Hdisk.
    do 4 eexists. split; [exact Hrun|]. split; [exact Hdisk|].
    unfold purged. rewrite Hf. split; [reflexivity|].
    apply filter_In. split; [exact Hin|].
    unfold expired. rewrite Hdate. cbn [sql_lt_text].
    unfold String.ltb. rewrite string_compare_refl. reflexivity.
Qed.

(** * The food filter of the dashboard *)

Lemma execute_query_returns {A} (query : Statement A) (params : option (list SqlValue))
  (w : World) :
  exists w1,
    execute_query query params w = (Returned (frame_of query params w), w1) /\
    disk w1 = disk w.
Proof.
  destruct (execute_query_run query params w) as (df & w1 & Hrun & Hdisk & H).
  exists w1. split; [|exact Hdisk]. rewrite Hrun. f_equal. f_equal.
  unfold frame_of. destruct (disk w) as [db|].
  - destruct (run query (bound params) (clock w) db); destruct H as [-> _]; reflexivity.
  - destruct H as [-> _]. reflexivity.
Qed.

(** X19.  On a file that opens and holds the listings [fls], the food
    filter shows exactly the listings that pass the three select boxes,
    in the order of the table and under the table's columns, with their
    number in the message; a box left on "All" constrains nothing, any
    other choice keeps the listings whose column is exactly that text.
    When no listing passes it shows the warning instead. *)
Theorem apply_filters_shows_the_matching_listings
  (food_type_filter meal_type_filter city_filter : string) (w : World) (db : Database)
  (fls : list FoodListing.row) :
  disk w = Some db ->
  food_listings db = Some fls ->
  fst (apply_filters food_type_filter meal_type_filter city_filter w)
  = Returned
      match matching food_type_filter meal_type_filter city_filter fls with
      | [] => st_warning "No food items match the selected criteria"
      | found =>
          st_success
            ("Found " ++ fmt (Z.of_nat (List.length found)) ++ " matching food items")
            {| columns := food_listings_columns; rows := found |}
      end.
Proof.
  intros Hd Hf. unfold apply_filters.
  set (found := matching food_type_filter meal_type_filter city_filter fls).
  assert (Hshown : forall w1,
    fst ((if negb (empty {| columns := food_listings_columns; rows := found |})
          then ret (st_success
                      ("Found " ++ fmt (Z.of_nat (List.length found))
                       ++ " matching food items")
                      {| columns := food_listings_columns; rows := found |})
          else ret (st_warning "No food items match the selected criteria")) w1)
    = Returned
        match found with
        | [] => st_warning "No food items match the selected criteria"
        | r :: l =>
            st_success
              ("Found " ++ fmt (Z.of_nat (List.length (r :: l))) ++ " matching food items")
              {| columns := food_listings_columns; rows := r :: l |}
        end)
    by (intros w1; destruct found; reflexivity).
  destruct (String.eqb food_type_filter "All") eqn:E1;
    destruct (String.eqb meal_type_filter "All") eqn:E2;
    destruct (String.eqb city_filter "All") eqn:E3;
    cbn [negb app];
    match goal with
    | |- fst (bind (execute_query ?q ?p) _ w) = _ =>
        destruct (execute_query_returns q p w) as (w1 & Hrun & _);
        unfold bind; rewrite Hrun; clear Hrun;
        replace (frame_of q p w)
          with {| columns := food_listings_columns; rows := found |};
        [exact (Hshown w1)|]
    end;
    unfold frame_of; rewrite Hd; cbn; rewrite Hf; cbn; f_equal;
    unfold found, matching, passes; rewrite E1, E2, E3; rewrite ?filter_filter;
    first [ apply filter_ext; intros fl; cbn; rewrite ?andb_true_r, ?andb_assoc;
            reflexivity
          | apply filter_all; reflexivity ].
Qed.

(** X20.  When the file cannot be opened or has no [food_listings]
    table, the food filter shows the same warning as when no listing
    matches: the failure of the query reaches the page as "no match",
    whatever the three choices are. *)
Theorem apply_filters_shows_a_failure_as_no_match
  (food_type_filter meal_type_filter city_filter : string) (w : World) :
  match disk w with
  | Some db => food_listings db = None
  | None => True
  end ->
  fst (apply_filters food_type_filter meal_type_filter city_filter w)
  = Returned (st_warning "No food items match the selected criteria").
Proof.
  intros Hfail. unfold apply_filters.
  destruct (String.eqb food_type_filter "All");
    destruct (String.eqb meal_type_filter "All");
    destruct (String.eqb city_filter "All");
    cbn [negb app];
    match goal with
    | |- fst (bind (execute_query ?q ?p) _ w) = _ =>
        destruct (execute_query_returns q p w) as (w1 & Hrun & _);
        unfold bind; rewrite Hrun; clear Hrun;
        replace (frame_of q p w) with (@pd_DataFrame FoodListing.row);
        [reflexivity|]
    end;
    unfold frame_of; destruct (disk w) as [db|];
    solve [reflexivity | cbn; rewrite Hfail; reflexivity].
Qed.

(** * The export and the backup *)

(** X21.  When the output directory is there or can be made and the
    file opens, [export_data_to_csv] writes the tables one after the
    other and stops at the first table that is not there.  It returns
    the four paths, in the order of the tables, when all four tables
    are there and the empty list otherwise, although the files of the
    tables before the missing one have then been written.  The
    database is left as it was. *)
Theorem export_data_to_csv_returns_nothing_after_a_partial_export
  (output_dir : string) (s : Site) (db : Database) :
  makedirs_error s output_dir = None ->
  disk (world s) = Some db ->
  exists s1,
    export_data_to_csv output_dir s
    = (Returned (if all_tables_present (Some db)
                 then map (export_path output_dir)
                          ["providers"; "receivers"; "food_listings"; "claims"]
                 else []), s1) /\
    csv_files_written s1
    = (csv_files_written s ++ exported_before_failure output_dir db)%list /\
    disk (world s1) = Some db.
Proof.
  intros Hdir Hd.
  unfold export_data_to_csv, stry_except, os_makedirs.
  unfold sbind at 1. rewrite Hdir.
  unfold sbind at 1. unfold lift at 1, sqlite3_connect. rewrite Hd.
  unfold sfor_in, to_csv, lift, pd_read_sql_query, print, close, sret.
  unfold exported_before_failure, all_tables_present.
  repeat (unfold sbind; cbn).
  destruct (providers db) as [ps|]; cbn.
  2:{ eexists. split; [reflexivity|]. cbn. rewrite app_nil_r. auto. }
  destruct (receivers db) as [rs|]; cbn.
  2:{ eexists. split; [reflexivity|]. cbn. auto. }
  destruct (food_listings db) as [fls|]; cbn.
  2:{ eexists. split; [reflexivity|]. cbn. rewrite <- app_assoc. auto. }
  destruct (claims db) as [cs|]; cbn.
  2:{ eexists. split; [reflexivity|]. cbn. rewrite <- !app_assoc. auto. }
  eexists. split; [reflexivity|]. cbn. rewrite <- !app_assoc. auto.
Qed.

(** X22.  [export_data_to_csv] never raises.  When the output directory
    cannot be made or the file cannot be opened it returns the empty
    list, writes no file and prints one line. *)
Theorem export_data_to_csv_never_raises (output_dir : string) (s : Site) :
  exists files s1,
    export_data_to_csv output_dir s = (Returned files, s1) /\
    (makedirs_error s output_dir <> None \/ disk (world s) = None ->
     files = [] /\
     csv_files_written s1 = csv_files_written s /\
     exists reason,
       stdout (world s1)
       = (stdout (world s) ++ [("❌ Error exporting data: " ++ reason)%string])%list).
Proof.
  unfold export_data_to_csv, stry_except, os_makedirs.
  unfold sbind at 1.
  destruct (makedirs_error s output_dir) as [e|] eqn:Hdir.
  { do 2 eexists. split; [reflexivity|]. intros _. cbn. eauto. }
  unfold sbind at 1. unfold lift at 1, sqlite3_connect.
  destruct (disk (world s)) as [db|] eqn:Hd.
  2:{ do 2 eexists. split; [reflexivity|]. intros _. cbn. eauto. }
  unfold sfor_in, to_csv, lift, pd_read_sql_query, print, close, sret.
  repeat (unfold sbind; cbn).
  destruct (providers db) as [ps|]; cbn;
    [|do 2 eexists; split; [reflexivity|]; intros [H|H]; congruence].
  destruct (receivers db) as [rs|]; cbn;
    [|do 2 eexists; split; [reflexivity|]; intros [H|H]; congruence].
  destruct (food_listings db) as [fls|]; cbn;
    [|do 2 eexists; split; [reflexivity|]; intros [H|H]; congruence].
  destruct (claims db) as [cs|]; cbn;
    do 2 eexists; (split; [reflexivity|]); intros [H|H]; congruence.
Qed.

Lemma string_length_append (a b : string) :
  String.length (a ++ b) = (String.length a + String.length b)%nat.
Proof. induction a as [|c a IH]; simpl; [reflexivity|]. rewrite IH. reflexivity. Qed.

Lemma string_append_same_prefix (p a b : string) : (p ++ a = p ++ b)%string -> a = b.
Proof. induction p as [|c p IH]; simpl; [auto|]. intros H. inversion H. auto. Qed.

Lemma string_append_same_suffix (a b sfx : string) :
  (a ++ sfx = b ++ sfx)%string -> a = b.
Proof.
  revert b. induction a as [|c a IH]; intros [|d b] H.
  - reflexivity.
  - apply (f_equal String.length) in H. simpl in H.
    rewrite string_length_append in H. lia.
  - apply (f_equal String.length) in H. simpl in H.
    rewrite string_length_append in H. lia.
  - simpl in H. inversion H. f_equal. apply IH. assumption.
Qed.

Lemma backup_database_run (backup_path : option string) (s : Site) (db old : Database) :
  disk (world s) = Some db ->
  db_files s (backup_target backup_path s) = Some old ->
  exists s1,
    backup_database backup_path s = (Returned (Some (backup_target backup_path s)), s1) /\
    db_files s1
    = (fun p => if String.eqb p (backup_target backup_path s) then Some db
                else db_files s p) /\
    disk (world s1) = Some db /\
    strftime_now s1 = strftime_now s /\
    stdout (world s1)
    = (stdout (world s)
       ++ [("✅ Database backed up to: " ++ backup_target backup_path s)%string])%list.
Proof.
  intros Hd Ht. unfold backup_database.
  fold (backup_target backup_path s).
  unfold sbind at 1. unfold sret at 1.
  unfold stry_except. unfold sbind at 1. unfold lift at 1, sqlite3_connect. rewrite Hd.
  unfold sbind at 1. unfold backup_to. cbn. rewrite Ht.
  unfold sbind, lift, print, sret. cbn.
  eexists. split; [reflexivity|]. cbn. rewrite Hd. auto.
Qed.



(** X25.  Backups without a path given that are made at different
    local times (to the second) go to different files, so the later
    one leaves the earlier one in place. *)
Theorem backups_at_different_times_keep_each_other (s s' : Site)
  (db db' old old' : Database) :
  disk (world s) = Some db ->
  db_files s (backup_target None s) = Some old ->
  disk (world s') = Some db' ->
  db_files s' (backup_target None s') = Some old' ->
  db_files s' (backup_target None s) = Some db ->
  strftime_now s' <> strftime_now s ->
  exists s1 s1',
    backup_database None s = (Returned (Some (backup_target None s)), s1) /\
    backup_database None s' = (Returned (Some (backup_target None s')), s1') /\
    backup_target None s' <> backup_target None s /\
    db_files s1' (backup_target None s) = Some db /\
    db_files s1' (backup_target None s') = Some db'.
Proof.
  intros Hd Ht Hd' Ht' Hfirst Htime.
  destruct (backup_database_run None s db old Hd Ht) as (s1 & Hrun & _).
  destruct (backup_database_run None s' db' old' Hd' Ht')
    as (s1' & Hrun' & Hfiles' & _).
  assert (Hne : backup_target None s' <> backup_target None s).
  { unfold backup_target. intros H.
    apply string_append_same_prefix, string_append_same_suffix in H.
    exact (Htime H). }
  exists s1, s1'. split; [exact Hrun|]. split; [exact Hrun'|]. split; [exact Hne|].
  rewrite Hfiles'. rewrite String.eqb_refl.
  apply not_eq_sym in Hne. apply String.eqb_neq in Hne. rewrite Hne.
  split; [exact Hfirst|reflexivity].
Qed.

(** * The scripts *)

Lemma create_tables_prints (w : World) (db : Database) :
  disk w = Some db ->
  exists w1,
    create_tables w = (Returned tt, w1) /\
    disk w1 = Some (with_tables db) /\
    data w1 = data w /\
    stdout w1 = (stdout w ++ ["‚úÖ Tables created successfully!"])%list.
Proof.
  intros Hd.
  unfold create_tables, create_connection, try_except_sqlite3_Error, bind,
    sqlite3_connect.
  rewrite Hd. unfold ret at 1. cbv beta iota.
  unfold try_finally, try_except_sqlite3_Error, bind, execute_ddl,
    CREATE_TABLE_IF_NOT_EXISTS, commit, print, close, with_tables, with_table.
  destruct db as [[?|] [?|] [?|] [?|]]; simpl;
    eexists; repeat split; reflexivity.
Qed.

Lemma food_waste_project_create_tables_prints (w : World) :
  exists w1 line,
    food_waste_project.create_tables w = (Returned tt, w1) /\
    disk w1 = option_map with_tables (disk w) /\
    data w1 = data w /\
    stdout w1 = (stdout w ++ [line])%list.
Proof.
  destruct (disk w) as [db|] eqn:Hd.
  - unfold food_waste_project.create_tables, create_connection,
      try_except_sqlite3_Error, bind, sqlite3_connect.
    rewrite Hd. unfold ret at 1. cbv beta iota.
    unfold try_finally, try_except_sqlite3_Error, bind, execute_ddl,
      CREATE_TABLE_IF_NOT_EXISTS, commit, print, close, with_tables, with_table.
    destruct db as [[?|] [?|] [?|] [?|]]; simpl;
      do 2 eexists; repeat split; reflexivity.
  - destruct (without_storage_run w Hd) as (_ & _ & _ & Hrun & _).
    do 2 eexists. split; [exact Hrun|]. cbn. auto.
Qed.

Lemma all_files_parse_none_missing (d : DataDir) :
  all_files_parse d = true -> missing_files d = [].
Proof.
  unfold all_files_parse, missing_files.
  destruct (providers_data_csv d) as [[|?]|], (receivers_data_csv d) as [[|?]|],
    (food_listings_data_csv d) as [[|?]|], (claims_data_csv d) as [[|?]|];
    cbn; intros H; try discriminate H; reflexivity.
Qed.

Lemma a_missing_file_does_not_parse (d : DataDir) (path : string) (others : list string) :
  missing_files d = path :: others -> all_files_parse d = false.
Proof.
  intros Hm. destruct (all_files_parse d) eqn:E; [|reflexivity].
  rewrite (all_files_parse_none_missing d E) in Hm. discriminate.
Qed.

(** X26.  The script of [database_setup.py] never raises.  When the
    directory is there or can be made, the file opens and the four CSV
    files parse, it prints the three success lines.  Otherwise the last
    line it prints is the failure line, with the reason, and the line
    that reports completion is not printed. *)
Theorem database_setup_main_reports_success_or_failure (s : Site) :
  exists s1 lines,
    database_setup_main s = (Returned tt, s1) /\
    stdout (world s1) = (stdout (world s) ++ lines)%list /\
    if setup_can_succeed s
    then lines = ["‚úÖ Tables created successfully!";
                  "‚úÖ Data loaded successfully!";
                  "üéâ Database setup completed!"]
    else (exists reason, last lines "" = "‚ùå Database setup failed: " ++ reason) /\
         ~ In "üéâ Database setup completed!" lines.
Proof.
  unfold database_setup_main, stry_except, setup_can_succeed, DatabaseSetup.
  change (os_path_dirname "database/food_waste.db") with "database".
  unfold sbind at 1. unfold os_makedirs.
  destruct (makedirs_error s "database") as [e|] eqn:Hdir.
  { unfold lift, print. cbn.
    do 2 eexists. split; [reflexivity|]. cbn. split; [reflexivity|].
    split; [eexists; reflexivity|]. intros [H|[]]. discriminate H. }
  unfold sbind at 1. unfold lift at 1.
  destruct (disk (world s)) as [db|] eqn:Hd.
  2:{ destruct (without_storage_run (world s) Hd) as (_ & -> & _).
      unfold lift, print. cbn.
      do 2 eexists. split; [reflexivity|]. cbn. rewrite <- !app_assoc.
      split; [reflexivity|].
      split; [eexists; reflexivity|]. intros [H|[H|[]]]; discriminate H. }
  destruct (create_tables_prints (world s) db Hd) as (w1 & -> & Hd1 & Hdata1 & Hout1).
  unfold sbind at 1. unfold lift at 1. cbn [world set_world].
  destruct (missing_files (data w1)) as [|path others] eqn:Hm.
  - destruct (load_csv_data_present_run w1 (with_tables db) Hd1 Hm)
      as (r & w2 & -> & _ & _ & Hr).
    rewrite <- Hdata1. cbn [is_some negb andb].
    destruct (all_files_parse (data w1)); destruct Hr as [-> Hout2].
    + unfold lift, print. cbn.
      do 2 eexists. split; [reflexivity|]. cbn. rewrite Hout2, Hout1.
      rewrite <- !app_assoc. split; reflexivity.
    + unfold lift, print. cbn.
      do 2 eexists. split; [reflexivity|]. cbn. rewrite Hout2, Hout1.
      rewrite <- !app_assoc. split; [reflexivity|].
      split; [eexists; reflexivity|]. intros [H|[H|[]]]; discriminate H.
  - destruct (load_csv_data_missing_run w1 (with_tables db) path others Hd1 Hm)
      as (w2 & -> & _ & Hout2 & _).
    rewrite <- Hdata1, (a_missing_file_does_not_parse _ _ _ Hm).
    cbn [is_some negb andb].
    unfold lift, print. cbn.
    do 2 eexists. split; [reflexivity|]. cbn. rewrite Hout2, Hout1.
    rewrite <- !app_assoc. split; [reflexivity|].
    split; [eexists; reflexivity|]. intros [H|[H|[]]]; discriminate H.
Qed.

(** X27.  The script of [food_waste_project/database_setup.py], once
    the directory is there or can be made, always returns after
    printing three lines, the last of which reports completion,
    whether or not anything was set up: when the file cannot be opened
    it is still reported as completed. *)
Theorem food_waste_project_main_always_reports_completion (s : Site) :
  makedirs_error s "database" = None ->
  exists s1 line1 line2,
    food_waste_project_main s = (Returned tt, s1) /\
    stdout (world s1)
    = (stdout (world s) ++ [line1; line2; "Database setup completed!"])%list /\
    (disk (world s) = None -> disk (world s1) = None).
Proof.
  intros Hdir.
  unfold food_waste_project_main, DatabaseSetup.
  change (os_path_dirname "database/food_waste.db") with "database".
  unfold sbind at 1. unfold os_makedirs. rewrite Hdir.
  unfold sbind at 1. unfold lift at 1.
  destruct (food_waste_project_create_tables_prints (world s))
    as (w1 & line1 & -> & Hd1 & _ & Hout1).
  unfold sbind at 1. unfold lift at 1. cbn [world set_world].
  destruct (food_waste_project_load_csv_data_outcome w1)
    as (w2 & line2 & -> & Hd2 & Hout2 & _).
  unfold lift, print. cbn.
  exists (set_world (add_stdout "Database setup completed!" w2) (set_world w2 (set_world w1 s))),
    line1, line2.
  split; [reflexivity|]. cbn. rewrite Hout2, Hout1, <- !app_assoc.
  split; [reflexivity|].
  intros Hnone. rewrite Hd2, Hd1, Hnone. reflexivity.
Qed.

(** * The set-up, then the reports *)

(** X28.  On a file that opens, with no negative quantity among the
    listings it holds: when their quantities add up to no more than the
    largest integer, [create_tables] followed by [get_database_stats]
    gives the complete dict of six entries and prints no error: a table
    that was there is counted with its rows, a table that was not there
    with 0.  When they add up to more, the dict is empty and an error is
    printed. *)
Theorem get_database_stats_after_create_tables (w : World) (db : Database) :
  disk w = Some db ->
  no_negative_quantity (rows_of (food_listings db)) ->
  (quantity_of_all (rows_of (food_listings db)) <= largest_integer ->
   exists w1 stats w2,
     create_tables w = (Returned tt, w1) /\
     get_database_stats w1 = (Returned stats, w2) /\
     stdout w2 = stdout w1 /\
     map fst stats = ["providers_count"; "receivers_count"; "food_listings_count";
                      "claims_count"; "food_stats"; "claim_stats"] /\
     dict_get "providers_count" stats
     = Some (a_count (Z.of_nat (List.length (rows_of (providers db))))) /\
     dict_get "receivers_count" stats
     = Some (a_count (Z.of_nat (List.length (rows_of (receivers db))))) /\
     dict_get "food_listings_count" stats
     = Some (a_count (Z.of_nat (List.length (rows_of (food_listings db))))) /\
     dict_get "claims_count" stats
     = Some (a_count (Z.of_nat (List.length (rows_of (claims db)))))) /\
  (largest_integer < quantity_of_all (rows_of (food_listings db)) ->
   exists w1 w2 line,
     create_tables w = (Returned tt, w1) /\
     get_database_stats w1 = (Returned [], w2) /\
     stdout w2 = (stdout w1 ++ [line])%list).
Proof.
  intros Hd Hq.
  destruct (create_tables_run w db Hd) as (w1 & Hrun & Hd1 & _ & _).
  assert (Hall : exists ps rs fls cs,
             providers (with_tables db) = Some ps /\
             receivers (with_tables db) = Some rs /\
             food_listings (with_tables db) = Some fls /\
             claims (with_tables db) = Some cs /\
             ps = rows_of (providers db) /\ rs = rows_of (receivers db) /\
             fls = rows_of (food_listings db) /\ cs = rows_of (claims db)).
  { destruct db as [[ps|] [rs|] [fls|] [cs|]]; cbn;
      do 4 eexists; repeat split; reflexivity. }
  destruct Hall as (ps & rs & fls & cs & Hp & Hr & Hf & Hc & -> & -> & -> & ->).
  pose proof (SUM_overflows_quantities _ Hq) as Hov.
  split; intros Hfit.
  - rewrite (proj2 (Z.leb_le _ _) Hfit) in Hov.
    exists w1. do 2 eexists. split; [exact Hrun|].
    split; [apply (get_database_stats_run w1 (with_tables db) _ _ _ _ Hd1 Hp Hr Hf Hc Hov)|].
    repeat split.
  - rewrite (proj2 (Z.leb_gt _ _) Hfit) in Hov.
    destruct (get_database_stats_overflow_run w1 (with_tables db) _ _ _ _ Hd1 Hp Hr Hf Hc Hov)
      as (w2 & Hstats & Hout & _).
    exists w1, w2. eexists. split; [exact Hrun|]. split; [exact Hstats|exact Hout].
Qed.

(** ** Sums that fit whatever the joins *)

Lemma values_In {A B} (expr : A -> option B) (g : list A) (v : B) :
  In v (values expr g) <-> exists a, In a g /\ expr a = Some v.
Proof.
  unfold values. rewrite in_flat_map. split.
  - intros (a & Ha & Hv). exists a. split; [exact Ha|].
    destruct (expr a); [destruct Hv as [<-|[]]; reflexivity|destruct Hv].
  - intros (a & Ha & Hv). exists a. split; [exact Ha|]. rewrite Hv. left. reflexivity.
Qed.

Lemma Zsum_at_most (most : Z) (vs : list Z) :
  (forall v, In v vs -> v <= most) -> Zsum vs <= most * Z.of_nat (List.length vs).
Proof.
  induction vs as [|v vs IH]; intros H; [cbn; lia|].
  cbn [Zsum fold_right List.length]. fold (Zsum vs).
  pose proof (H v (or_introl eq_refl)).
  assert (Zsum vs <= most * Z.of_nat (List.length vs))
    by (apply IH; intros u Hu; apply H; right; exact Hu).
  lia.
Qed.

Lemma SUM_fits {A} (expr : A -> option Z) (g : list A) (most : Z) :
  (forall a v, In a g -> expr a = Some v -> 0 <= v <= most) ->
  0 <= most ->
  most * Z.of_nat (List.length g) <= largest_integer ->
  SUM_overflows expr g = false.
Proof.
  intros Hv Hmost Hfit.
  assert (Hin : forall v, In v (values expr g) -> 0 <= v <= most).
  { intros v H. apply values_In in H. destruct H as (a & Ha & He). exact (Hv a v Ha He). }
  rewrite SUM_overflows_nonneg
    by (apply Forall_forall; intros v H; exact (proj1 (Hin v H))).
  apply negb_false_iff. apply Z.leb_le.
  pose proof (Zsum_at_most most (values expr g) (fun v H => proj2 (Hin v H))).
  pose proof (values_length expr g). nia.
Qed.

Lemma grouped_SUM_fits {A K} (K_eq_dec : forall x y : K, {x = y} + {x <> y})
  (key : A -> K) (expr : A -> option Z) (l : list A) (most : Z) :
  (forall a v, In a l -> expr a = Some v -> 0 <= v <= most) ->
  0 <= most ->
  most * Z.of_nat (List.length l) <= largest_integer ->
  existsb (fun g => SUM_overflows expr (snd g)) (GROUP_BY K_eq_dec key l) = false.
Proof.
  intros Hv Hmost Hfit. apply existsb_false. intros g Hg.
  unfold GROUP_BY in Hg. apply in_map_iff in Hg. destruct Hg as (k & <- & _). cbn [snd].
  apply (SUM_fits _ _ most).
  - intros a v Ha. apply filter_In in Ha. apply Hv. exact (proj1 Ha).
  - exact Hmost.
  - pose proof (filter_length_le (same_key K_eq_dec key k) l). nia.
Qed.

Lemma JOIN_length {A B} (l : list A) (r : list B) (on : A -> B -> bool) :
  Z.of_nat (List.length (JOIN l r on))
  <= Z.of_nat (List.length l) * Z.of_nat (List.length r).
Proof.
  unfold JOIN. induction l as [|a l IH]; [cbn; lia|].
  cbn [flat_map List.length]. rewrite length_app, length_map.
  pose proof (filter_length_le (on a) r). nia.
Qed.

Lemma LEFT_JOIN_length {A B} (l : list A) (r : list B) (on : A -> B -> bool) :
  Z.of_nat (List.length (LEFT_JOIN l r on))
  <= Z.of_nat (List.length l) * Z.max 1 (Z.of_nat (List.length r)).
Proof.
  unfold LEFT_JOIN. induction l as [|a l IH]; [cbn; lia|].
  cbn [flat_map List.length]. rewrite length_app.
  pose proof (filter_length_le (on a) r).
  destruct (filter (on a) r) as [|m ms]; cbn [List.length map] in *.
  - nia.
  - rewrite length_map. nia.
Qed.

Lemma fits_of_length (most len n : Z) :
  0 <= most -> len <= n -> most * n <= largest_integer -> most * len <= largest_integer.
Proof. intros. nia. Qed.

Section QuantitiesThatFit.
Variables (ps : list Provider.row) (rs : list Receiver.row)
  (fls : list FoodListing.row) (cs : list Claim.row) (most : Z).
Hypothesis Hmost : forall fl, In fl fls -> 0 <= FoodListing.Quantity fl <= most.
Hypothesis Hpos : 0 <= most.
Hypothesis Hfit : most * joined_rows_at_most ps rs fls cs <= largest_integer.

Let P := Z.max 1 (Z.of_nat (List.length ps)).
Let R := Z.max 1 (Z.of_nat (List.length rs)).
Let F := Z.max 1 (Z.of_nat (List.length fls)).
Let C := Z.max 1 (Z.of_nat (List.length cs)).

Lemma product_at_most (p r f c : Z) :
  0 <= p <= P -> 0 <= r <= R -> 0 <= f <= F -> 0 <= c <= C ->
  p * r * f * c <= joined_rows_at_most ps rs fls cs.
Proof.
  intros Hp Hr Hf Hc. unfold joined_rows_at_most. fold P R F C.
  assert (p * r <= P * R) by nia.
  assert (0 <= p * r) by nia.
  assert (p * r * f <= P * R * F) by nia.
  assert (0 <= p * r * f) by nia.
  nia.
Qed.

Lemma SUM_of_listings_fits : 
  SUM_overflows (fun fl => Some (FoodListing.Quantity fl)) fls = false.
Proof.
  apply (SUM_fits _ _ most); [|exact Hpos|].
  - intros fl v Hin [= <-]. apply Hmost. exact Hin.
  - apply (fits_of_length most _ (joined_rows_at_most ps rs fls cs) Hpos); [|exact Hfit].
    pose proof (product_at_most 1 1 (Z.of_nat (List.length fls)) 1).
    unfold P, R, F, C in *. lia.
Qed.

Lemma grouped_listings_fit (column : FoodListing.row -> option string) :
  existsb (fun g => SUM_overflows (fun fl => Some (FoodListing.Quantity fl)) (snd g))
    (GROUP_BY status_eq_dec column fls) = false.
Proof.
  apply (grouped_SUM_fits _ _ _ _ most); [|exact Hpos|].
  - intros fl v Hin [= <-]. apply Hmost. exact Hin.
  - apply (fits_of_length most _ (joined_rows_at_most ps rs fls cs) Hpos); [|exact Hfit].
    pose proof (product_at_most 1 1 (Z.of_nat (List.length fls)) 1).
    unfold P, R, F, C in *. lia.
Qed.

Lemma overflows_2_fits : overflows_2 ps fls = false.
Proof.
  unfold overflows_2, groups_2.
  apply (grouped_SUM_fits _ _ _ _ most); [|exact Hpos|].
  - intros [p fl] v Hin [= <-]. apply JOIN_In in Hin. apply Hmost. tauto.
  - apply (fits_of_length most _ (joined_rows_at_most ps rs fls cs) Hpos); [|exact Hfit].
    pose proof (JOIN_length ps fls
                  (fun p fl => sql_eq_int (Some (Provider.Provider_ID p))
                                 (FoodListing.Provider_ID fl))).
    pose proof (product_at_most (Z.of_nat (List.length ps)) 1
                  (Z.of_nat (List.length fls)) 1).
    unfold P, R, F, C in *. lia.
Qed.

Lemma receiver_rows_fit (status : string) :
  existsb (fun g => SUM_overflows
                      (fun x => status_quantity_else_0 status (snd x) (snd (fst x)))
                      (snd g))
    (receiver_groups rs cs fls) = false.
Proof.
  unfold receiver_groups.
  apply (grouped_SUM_fits _ _ _ _ most); [|exact Hpos|].
  - intros [[r oc] ofl] v Hin Hv. cbn [fst snd] in Hv.
    apply LEFT_JOIN_In in Hin. destruct Hin as [_ Hfl].
    unfold status_quantity_else_0 in Hv.
    destruct (sql_eq_text (col Claim.Status oc) (Some status)).
    + destruct ofl as [fl|]; [|discriminate]. injection Hv as <-.
      apply Hmost. exact (proj1 Hfl).
    + injection Hv as <-. lia.
  - apply (fits_of_length most _ (joined_rows_at_most ps rs fls cs) Hpos); [|exact Hfit].
    match goal with |- Z.of_nat (List.length (LEFT_JOIN ?l ?r ?on)) <= _ =>
      pose proof (LEFT_JOIN_length l r on) as H1 end.
    match type of H1 with _ <= Z.of_nat (List.length (LEFT_JOIN ?l ?r ?on)) * _ =>
      pose proof (LEFT_JOIN_length l r on) as H2 end.
    pose proof (product_at_most 1 (Z.of_nat (List.length rs)) F C).
    unfold P, R, F, C in *. nia.
Qed.

Lemma overflows_4_fits : overflows_4 rs cs fls = false.
Proof.
  unfold overflows_4. rewrite existsb_orb, !receiver_rows_fit. reflexivity.
Qed.

Lemma overflows_11_fits : overflows_11 rs cs fls = false.
Proof. unfold overflows_11. apply receiver_rows_fit. Qed.

Lemma overflows_6_fits : overflows_6 fls = false.
Proof. apply grouped_listings_fit. Qed.

Lemma overflows_7_fits : overflows_7 fls = false.
Proof. apply grouped_listings_fit. Qed.

Lemma overflows_12_fits : overflows_12 fls cs = false.
Proof.
  unfold overflows_12, groups_12. rewrite existsb_orb. apply orb_false_iff.
  assert (Hlen : most * Z.of_nat (List.length
                    (LEFT_JOIN fls cs
                       (fun fl c => sql_eq_int (Some (FoodListing.Food_ID fl))
                                      (Claim.Food_ID c))))
                 <= largest_integer).
  { apply (fits_of_length most _ (joined_rows_at_most ps rs fls cs) Hpos); [|exact Hfit].
    match goal with |- Z.of_nat (List.length (LEFT_JOIN ?l ?r ?on)) <= _ =>
      pose proof (LEFT_JOIN_length l r on) as H1 end.
    pose proof (product_at_most 1 1 (Z.of_nat (List.length fls)) C).
    unfold P, R, F, C in *. nia. }
  split; apply (grouped_SUM_fits _ _ _ _ most); try exact Hpos; try exact Hlen.
  - intros [fl oc] v Hin Hv. cbn [fst snd] in Hv.
    apply LEFT_JOIN_In in Hin. destruct Hin as [Hfl _].
    unfold status_quantity_else_0 in Hv.
    destruct (sql_eq_text (col Claim.Status oc) (Some "Completed")).
    + injection Hv as <-. apply Hmost. exact Hfl.
    + injection Hv as <-. lia.
  - intros [fl oc] v Hin [= <-]. apply LEFT_JOIN_In in Hin. apply Hmost. exact (proj1 Hin).
Qed.

Lemma overflows_13_fits : overflows_13 ps fls cs = false.
Proof.
  unfold overflows_13, groups_13. rewrite existsb_orb. apply orb_false_iff.
  match goal with |- existsb _ (GROUP_BY _ _ ?joined) = false /\ _ =>
    assert (Hlen : most * Z.of_nat (List.length joined) <= largest_integer) end.
  { apply (fits_of_length most _ (joined_rows_at_most ps rs fls cs) Hpos); [|exact Hfit].
    match goal with |- Z.of_nat (List.length (LEFT_JOIN ?l ?r ?on)) <= _ =>
      pose proof (LEFT_JOIN_length l r on) as H1 end.
    match type of H1 with _ <= Z.of_nat (List.length (LEFT_JOIN ?l ?r ?on)) * _ =>
      pose proof (LEFT_JOIN_length l r on) as H2 end.
    pose proof (product_at_most (Z.of_nat (List.length ps)) 1 F C).
    unfold P, R, F, C in *. nia. }
  assert (Hjoined : forall p ofl oc,
             In (p, ofl, oc)
                (LEFT_JOIN
                   (LEFT_JOIN ps fls
                      (fun p fl => sql_eq_int (Some (Provider.Provider_ID p))
                                     (FoodListing.Provider_ID fl)))
                   cs (fun r c => sql_eq_int (Food_ID_of (snd r)) (Claim.Food_ID c))) ->
             match ofl with Some fl => In fl fls | None => True end).
  { intros p ofl oc Hin. apply LEFT_JOIN_In in Hin. destruct Hin as [Hin _].
    apply LEFT_JOIN_In in Hin. destruct Hin as [_ Hfl].
    destruct ofl as [fl|]; [exact (proj1 Hfl)|exact I]. }
  split; apply (grouped_SUM_fits _ _ _ _ most); try exact Hpos; try exact Hlen.
  - intros [[p ofl] oc] v Hin Hv. cbn [fst snd] in Hv.
    specialize (Hjoined p ofl oc Hin).
    destruct ofl as [fl|]; [|discriminate]. injection Hv as <-. apply Hmost. exact Hjoined.
  - intros [[p ofl] oc] v Hin Hv. cbn [fst snd] in Hv.
    specialize (Hjoined p ofl oc Hin).
    unfold completed_quantity_else_0 in Hv.
    destruct (sql_eq_text (col Claim.Status oc) (Some "Completed")).
    + destruct ofl as [fl|]; [|discriminate]. injection Hv as <-. apply Hmost. exact Hjoined.
    + injection Hv as <-. lia.
Qed.

End QuantitiesThatFit.

Lemma store_run_quiet {A} (title : string) (query : Statement A)
  (results : list (string * AnyFrame)) (w : World) (db : Database) :
  disk w = Some db ->
  succeeds_on query db ->
  exists (df : DataFrame A) w1,
    store title (execute_query query None) results w
    = (Returned (results ++ [(title, any_frame df)])%list, w1) /\
    disk w1 = Some db /\
    stdout w1 = stdout w.
Proof.
  intros Hd Hok.
  destruct (execute_query_run query None w) as (df & w1 & Hrun & Hdisk & H).
  exists df, w1. unfold store, bind. rewrite Hrun. unfold ret.
  split; [reflexivity|]. split; [congruence|].
  rewrite Hd in H. cbn [bound] in H.
  destruct (Hok (clock w)) as (r & Hr). rewrite Hr in H. apply H.
Qed.

Ltac store_quiet_step db :=
  unfold bind at 1;
  match goal with
  | Hd : disk ?w = Some db
    |- context [store ?title (execute_query ?query None) ?results ?w] =>
      let df := fresh "df" in
      let w1 := fresh "w" in
      let Hrun := fresh "Hrun" in
      let Hdisk := fresh "Hdisk" in
      let Hout := fresh "Hout" in
      let Hok := fresh "Hok" in
      assert (Hok : succeeds_on query db)
        by first
             [ assumption
             | intros ck; cbn;
               repeat match goal with H : _ db = Some _ |- _ => rewrite H; cbn end;
               eexists; reflexivity ];
      destruct (store_run_quiet title query results w db Hd Hok)
        as (df & w1 & Hrun & Hdisk & Hout);
      rewrite Hrun; clear Hrun Hok
  end.

(** X29.  On a file that opens and holds the four tables, with every
    quantity between 0 and a bound that, multiplied by the sizes of the
    four tables (each counted as 1 at least, which no join of the
    reports has more rows than), does not pass the largest integer,
    [get_all_queries_results] prints nothing: none of the fourteen
    reports fails, whatever else the rows hold and whatever the engine
    makes of the expiry dates. *)
Theorem get_all_queries_results_is_quiet_when_the_tables_are_there
  (julianday : string -> option Q) (w : World) (db : Database)
  (ps : list Provider.row) (rs : list Receiver.row) (fls : list FoodListing.row)
  (cs : list Claim.row) (most : Z) :
  disk w = Some db ->
  providers db = Some ps ->
  receivers db = Some rs ->
  food_listings db = Some fls ->
  claims db = Some cs ->
  (forall fl, In fl fls -> 0 <= FoodListing.Quantity fl <= most) ->
  0 <= most ->
  most * joined_rows_at_most ps rs fls cs <= largest_integer ->
  exists results w1,
    get_all_queries_results julianday w = (Returned results, w1) /\
    map fst results = titles_of_all_queries /\
    stdout w1 = stdout w /\
    disk w1 = Some db.
Proof.
  intros Hd Hp Hr Hf Hc Hmost Hpos Hfit.
  assert (H2 : succeeds_on query_2 db).
  { intros ck. cbn [run query_2 no_params]. rewrite Hp, Hf. cbn [FROM obind].
    rewrite (overflows_2_fits ps rs fls cs most Hmost Hpos Hfit). eexists. reflexivity. }
  assert (H4 : succeeds_on query_4 db).
  { intros ck. cbn [run query_4 no_params]. rewrite Hr, Hc, Hf. cbn [FROM obind].
    rewrite (overflows_4_fits ps rs fls cs most Hmost Hpos Hfit). eexists. reflexivity. }
  assert (H5 : succeeds_on query_5 db).
  { intros ck. cbn [run query_5 no_params]. rewrite Hf. cbn [FROM obind].
    rewrite (SUM_of_listings_fits ps rs fls cs most Hmost Hpos Hfit). eexists. reflexivity. }
  assert (H6 : succeeds_on query_6 db).
  { intros ck. cbn [run query_6 no_params]. rewrite Hf. cbn [FROM obind].
    rewrite (overflows_6_fits ps rs fls cs most Hmost Hpos Hfit). eexists. reflexivity. }
  assert (H7 : succeeds_on query_7 db).
  { intros ck. cbn [run query_7 no_params]. rewrite Hf. cbn [FROM obind].
    rewrite (overflows_7_fits ps rs fls cs most Hmost Hpos Hfit). eexists. reflexivity. }
  assert (H11 : succeeds_on query_11 db).
  { intros ck. cbn [run query_11 no_params]. rewrite Hr, Hc, Hf. cbn [FROM obind].
    rewrite (overflows_11_fits ps rs fls cs most Hmost Hpos Hfit). eexists. reflexivity. }
  assert (H12 : succeeds_on query_12 db).
  { intros ck. cbn [run query_12 no_params]. rewrite Hf, Hc. cbn [FROM obind].
    rewrite (overflows_12_fits ps rs fls cs most Hmost Hpos Hfit). eexists. reflexivity. }
  assert (H13 : succeeds_on query_13 db).
  { intros ck. cbn [run query_13 no_params]. rewrite Hp, Hf, Hc. cbn [FROM obind].
    rewrite (overflows_13_fits ps rs fls cs most Hmost Hpos Hfit). eexists. reflexivity. }
  unfold get_all_queries_results,
    query_1_providers_receivers_by_city, query_2_provider_type_contribution,
    query_4_top_claiming_receivers, query_5_total_food_quantity,
    query_6_city_food_listings, query_7_common_food_types,
    query_8_claims_per_food_item, query_9_successful_providers,
    query_10_claim_status_distribution, query_11_avg_quantity_per_receiver,
    query_12_popular_meal_types, query_13_provider_donations,
    query_14_expiring_food, query_15_unclaimed_food.
  unfold bind at 1. unfold ret at 1.
  do 14 (store_quiet_step db).
  unfold ret. do 2 eexists. split; [reflexivity|].
  split; [reflexivity|]. split; [congruence|assumption].
Qed.

(** * The reports and utilities on concrete data *)

Example iso_date_2025_03_17 : iso_date 2025 3 17 = date_now noon_2025_03_17.
Proof. reflexivity. Qed.

Example iso_julianday_2025_03_16 :
  iso_julianday "2025-03-16" = Some (yesterday noon_2025_03_17).
Proof. reflexivity. Qed.

Example query_14_on_example :
  map (fun r => (Report14.Food_Name r, Report14.Status r))
    (frame_rows (fst (query_14_expiring_food iso_julianday example_world)))
  = [("Rice", "Expired"); ("Bread", "Warning")].
Proof. vm_compute. reflexivity. Qed.

Example query_9_on_example :
  map (fun r => (Report9.Name r, Report9.Total_Claims r, Report9.Successful_Claims r))
    (frame_rows (fst (query_9_successful_providers example_world)))
  = [("A", 3, Some 1)].
Proof. vm_compute. reflexivity. Qed.

Example query_10_on_example :
  map (fun r => (Report10.Status r, Report10.Count r))
    (frame_rows (fst (query_10_claim_status_distribution example_world)))
  = [(Some "Completed", 1); (Some "Pending", 1); (Some "Cancelled", 1)].
Proof. vm_compute. reflexivity. Qed.

Example query_15_on_example :
  map (fun r => (Report15.Food_Name r, Report15.Provider_Name r))
    (frame_rows (fst (query_15_unclaimed_food iso_julianday example_world)))
  = [("Soup", "B")].
Proof. vm_compute. reflexivity. Qed.

Example execute_query_on_malformed :
  fst (execute_query malformed (Some [Text "Mumbai"]) example_world) = Returned pd_DataFrame /\
  stdout (snd (execute_query malformed (Some [Text "Mumbai"]) example_world))
  = ["Error executing query: Execution failed on sql 'SELEC * FORM claims': near SELEC: syntax error"].
Proof. split; reflexivity. Qed.

Example clean_expired_food_on_example :
  fst (clean_expired_food example_world) = Returned 1.
Proof. vm_compute. reflexivity. Qed.

(** C5: what the code does.  For a provider with one listing of
    quantity 10 that was claimed twice (once with status Completed),
    report 13 gives [Items_Listed] 2, [Total_Quantity_Listed] 20 and a
    donation rate of 50: each listing is counted once per claim on it,
    not once. *)
Theorem query_13_counts_a_listing_once_per_claim :
  map (fun fl => FoodListing.Quantity fl)
    (filter (listing_of (provider 1 "A" "City X"))
       [listing 1 "Rice" 10 "2099-01-01" 1]) = [10] /\
  map (fun r => (Report13.Name r, Report13.Items_Listed r,
                 Report13.Total_Quantity_Listed r, Report13.Quantity_Donated r,
                 option_map Qred (Report13.Donation_Rate_Percent r)))
    (frame_rows (fst (query_13_provider_donations twice_claimed_world)))
  = [("A", 2, Some 20, Some 10, Some 50%Q)].
Proof. split; vm_compute; reflexivity. Qed.

(** C1 as stated fails: in [orphan_db] the listing Bread is in
    [food_listings] and no claim names it, but report 15 has no row for
    it (its only row is Rice), because no provider carries the
    [Provider_ID] the listing names. *)
Lemma query_15_omits_unclaimed_listing_without_provider :
  In orphan_listing [listing 1 "Rice" 10 "2099-01-01" 1; orphan_listing] /\
  food_listings orphan_db = Some [listing 1 "Rice" 10 "2099-01-01" 1; orphan_listing] /\
  claims orphan_db = Some [] /\
  map Report15.Food_Name
    (frame_rows (fst (query_15_unclaimed_food iso_julianday orphan_world)))
  = ["Rice"] /\
  ~ exists r,
      In r (frame_rows (fst (query_15_unclaimed_food iso_julianday orphan_world))) /\
      Report15.Food_Name r = FoodListing.Food_Name orphan_listing.
Proof.
  split; [right; left; reflexivity|].
  split; [reflexivity|]. split; [reflexivity|].
  split; [vm_compute; reflexivity|].
  intros (r & Hin & Hname).
  apply (in_map Report15.Food_Name) in Hin. rewrite Hname in Hin.
  vm_compute in Hin. destruct Hin as [H|[]]. discriminate.
Qed.



(** * Instances of the theorems that have hypotheses *)

Lemma NoDup_example_providers : NoDup (map Provider.Provider_ID example_providers).
Proof. repeat constructor; simpl; intuition discriminate. Defined.

Lemma NoDup_example_listings : NoDup (map FoodListing.Food_ID example_listings).
Proof. repeat constructor; simpl; intuition discriminate. Defined.

Lemma query_15_lists_unclaimed_food_with_provider_witness :
  disk example_world = Some example_db /\
  exists df, fst (query_15_unclaimed_food iso_julianday example_world) = Returned df.
Proof.
  split; [reflexivity|].
  destruct (query_15_lists_unclaimed_food_with_provider iso_julianday example_world
              example_db example_listings example_providers example_claims
              eq_refl eq_refl eq_refl eq_refl) as (df & H & _).
  exists df. exact H.
Defined.


Lemma query_9_counts_claims_per_provider_witness :
  NoDup (map Provider.Provider_ID example_providers) /\
  NoDup (map FoodListing.Food_ID example_listings) /\
  exists df, fst (query_9_successful_providers example_world) = Returned df.
Proof.
  split; [exact NoDup_example_providers|].
  split; [exact NoDup_example_listings|].
  destruct (query_9_counts_claims_per_provider example_world example_db
              example_providers example_listings example_claims
              eq_refl eq_refl eq_refl eq_refl
              NoDup_example_providers NoDup_example_listings) as (df & H & _).
  exists df. exact H.
Defined.

Lemma query_10_status_distribution_witness :
  claims example_db = Some example_claims /\
  example_claims <> [] /\
  exists df, fst (query_10_claim_status_distribution example_world) = Returned df.
Proof.
  split; [reflexivity|]. split; [discriminate|].
  destruct (query_10_status_distribution example_world example_db example_claims
              eq_refl eq_refl ltac:(discriminate)) as (df & H & _).
  exists df. exact H.
Defined.


Lemma create_tables_idempotent_witness :
  disk example_world = Some example_db /\
  rerun_is_harmless create_tables example_world example_db /\
  rerun_is_harmless food_waste_project.create_tables example_world example_db.
Proof.
  split; [reflexivity|].
  apply (create_tables_idempotent example_world example_db). reflexivity.
Defined.

Lemma clean_expired_food_changes_only_food_listings_witness :
  disk example_world = Some example_db /\
  exists db1,
    disk (snd (clean_expired_food example_world)) = Some db1 /\
    claims db1 = claims example_db.
Proof.
  split; [reflexivity|].
  destruct (clean_expired_food_changes_only_food_listings example_world example_db
              eq_refl) as (db1 & H & _ & _ & Hc & _).
  exists db1. split; assumption.
Defined.

(** * Instances of the further theorems that have hypotheses *)

Lemma NoDup_example_receivers : NoDup (map Receiver.Receiver_ID [receiver 1 "R"]).
Proof. repeat constructor; simpl; intuition discriminate. Defined.

Lemma query_1_counts_every_provider_and_receiver_witness :
  disk example_world = Some example_db /\
  exists df, fst (query_1_providers_receivers_by_city example_world) = Returned df.
Proof.
  split; [reflexivity|].
  destruct (query_1_counts_every_provider_and_receiver example_world example_db
              example_providers [receiver 1 "R"] eq_refl eq_refl eq_refl)
    as (df & H & _).
  exists df. exact H.
Defined.

Lemma query_3_lists_the_providers_of_the_city_witness :
  providers example_db = Some example_providers /\
  exists df, fst (query_3_provider_contacts_by_city "City X" example_world) = Returned df.
Proof.
  split; [reflexivity|].
  destruct (query_3_lists_the_providers_of_the_city "City X" example_world example_db
              example_providers eq_refl eq_refl) as (df & H & _).
  exists df. exact H.
Defined.

Lemma example_listings_not_negative : no_negative_quantity example_listings.
Proof.
  unfold no_negative_quantity, example_listings.
  repeat (apply Forall_cons; [cbn; lia|]). apply Forall_nil.
Defined.





Lemma query_8_counts_the_claims_on_every_listing_witness :
  NoDup (map FoodListing.Food_ID example_listings) /\
  exists df,
    fst (query_8_claims_per_food_item example_world) = Returned df /\
    Permutation (rows df) (map (row_8 example_claims) example_listings).
Proof.
  split; [exact NoDup_example_listings|].
  destruct (query_8_counts_the_claims_on_every_listing example_world example_db
              example_listings example_claims eq_refl eq_refl eq_refl
              NoDup_example_listings) as (df & H & Hperm & _).
  exists df. split; assumption.
Defined.



Lemma example_receivers_fit (r : Receiver.row) (q : Z) :
  In r [receiver 1 "R"] ->
  Report4.Food_Received (row_4 example_claims example_listings r) = Some q \/
  Report4.Food_Pending (row_4 example_claims example_listings r) = Some q ->
  q <= largest_integer.
Proof.
  intros [<-|[]] [H|H]; vm_compute in H; injection H as <-; vm_compute; discriminate.
Defined.

Lemma query_4_has_a_row_for_every_receiver_witness :
  NoDup (map Receiver.Receiver_ID [receiver 1 "R"]) /\
  NoDup (map FoodListing.Food_ID example_listings) /\
  no_negative_quantity example_listings /\
  exists df,
    fst (query_4_top_claiming_receivers example_world) = Returned df /\
    Permutation (rows df) (map (row_4 example_claims example_listings) [receiver 1 "R"]).
Proof.
  split; [exact NoDup_example_receivers|].
  split; [exact NoDup_example_listings|].
  split; [exact example_listings_not_negative|].
  destruct (proj1 (query_4_has_a_row_for_every_receiver example_world example_db
                     [receiver 1 "R"] example_claims example_listings
                     eq_refl eq_refl eq_refl eq_refl
                     NoDup_example_receivers NoDup_example_listings
                     example_listings_not_negative)
              example_receivers_fit) as (df & H & Hperm & _).
  exists df. split; assumption.
Defined.

Lemma query_11_is_query_4_of_the_receivers_with_claims_witness :
  NoDup (map Receiver.Receiver_ID [receiver 1 "R"]) /\
  NoDup (map FoodListing.Food_ID example_listings) /\
  no_negative_quantity example_listings /\
  exists df11 df4,
    fst (query_11_avg_quantity_per_receiver example_world) = Returned df11 /\
    fst (query_4_top_claiming_receivers example_world) = Returned df4 /\
    Permutation (map figures_11 (rows df11))
      (map figures_4 (filter (fun r => 0 <? Report4.Total_Claims r) (rows df4))).
Proof.
  split; [exact NoDup_example_receivers|].
  split; [exact NoDup_example_listings|].
  split; [exact example_listings_not_negative|].
  destruct (query_11_is_query_4_of_the_receivers_with_claims example_world example_db
              [receiver 1 "R"] example_claims example_listings
              eq_refl eq_refl eq_refl eq_refl
              NoDup_example_receivers NoDup_example_listings
              example_listings_not_negative
              (fun r q Hin H => example_receivers_fit r q Hin (or_introl H)))
    as (df11 & H11 & _ & _ & Hboth & _).
  destruct (Hboth (fun r q Hin H => example_receivers_fit r q Hin (or_intror H)))
    as (df4 & H4 & Hperm).
  exists df11, df4. repeat split; assumption.
Defined.



Lemma get_database_stats_counts_the_tables_witness :
  disk example_world = Some example_db /\
  no_negative_quantity example_listings /\
  exists stats w1,
    get_database_stats example_world = (Returned stats, w1) /\
    dict_get "claims_count" stats = Some (a_count 3).
Proof.
  split; [reflexivity|]. split; [exact example_listings_not_negative|].
  destruct (proj1 (get_database_stats_counts_the_tables example_world example_db
                     example_providers [receiver 1 "R"] example_listings example_claims
                     eq_refl eq_refl eq_refl eq_refl eq_refl
                     example_listings_not_negative)
              ltac:(vm_compute; discriminate))
    as (stats & food & claim & w1 & H & _ & _ & _ & _ & Hc & _).
  exists stats, w1. split; [exact H|exact Hc].
Defined.

Lemma get_database_stats_is_all_or_nothing_witness :
  all_tables_present (disk no_storage_world) = false /\
  fst (get_database_stats no_storage_world) = Returned [].
Proof.
  split; [reflexivity|].
  destruct (get_database_stats_is_all_or_nothing no_storage_world eq_refl)
    as (reason & w1 & H & _).
  rewrite H. reflexivity.
Defined.

Lemma load_csv_data_loads_nothing_when_a_file_is_missing_witness :
  missing_files (data (world_of example_db no_files))
  = ["data/providers_data.csv"; "data/receivers_data.csv";
     "data/food_listings_data.csv"; "data/claims_data.csv"] /\
  exists w1,
    load_csv_data (world_of example_db no_files)
    = (Raised {| exc_class := plain_Exception;
                 str := "Error loading data: CSV file not found: data/providers_data.csv" |},
       w1) /\
    disk w1 = Some example_db.
Proof.
  split; [reflexivity|].
  destruct (load_csv_data_loads_nothing_when_a_file_is_missing
              (world_of example_db no_files) example_db
              "data/providers_data.csv"
              ["data/receivers_data.csv"; "data/food_listings_data.csv";
               "data/claims_data.csv"] eq_refl eq_refl) as (w1 & H & Hd & _).
  exists w1. split; assumption.
Defined.

Lemma load_csv_data_keeps_the_tables_loaded_before_a_failure_witness :
  missing_files (data example_world) = [] /\
  exists r w1, load_csv_data example_world = (r, w1) /\ conn w1 = None.
Proof.
  split; [reflexivity|].
  destruct (load_csv_data_keeps_the_tables_loaded_before_a_failure example_world
              example_db eq_refl eq_refl) as (r & w1 & H & _ & Hc & _).
  exists r, w1. split; assumption.
Defined.

Lemma setup_without_storage_raises_in_one_version_only_witness :
  disk no_storage_world = None /\
  fst (create_tables no_storage_world)
  = Raised {| exc_class := plain_Exception; str := "Could not connect to database" |} /\
  fst (food_waste_project.create_tables no_storage_world) = Returned tt.
Proof.
  split; [reflexivity|].
  destruct (setup_without_storage_raises_in_one_version_only no_storage_world eq_refl)
    as (_ & H1 & _ & H2 & _).
  rewrite H1, H2. split; reflexivity.
Defined.

Lemma a_listing_that_expires_today_is_reported_expired_but_not_purged_witness :
  FoodListing.Expiry_Date todays_listing = Some (date_now (clock todays_world)) /\
  (julian_day 2025 3 17 < julianday_now (clock todays_world))%Q /\
  exists df r,
    fst (query_14_expiring_food iso_julianday todays_world) = Returned df /\
    In r (rows df) /\
    Report14.Status r = "Expired".
Proof.
  split; [reflexivity|]. split; [reflexivity|].
  destruct (a_listing_that_expires_today_is_reported_expired_but_not_purged
              iso_julianday todays_world todays_db [todays_listing] todays_listing
              (julian_day 2025 3 17)
              eq_refl eq_refl (or_introl eq_refl) eq_refl eq_refl eq_refl)
    as ((df & r & H & Hin & _ & Hs) & _).
  exists df, r. repeat split; assumption.
Defined.

Lemma apply_filters_shows_the_matching_listings_witness :
  food_listings example_db = Some example_listings /\
  exists shown, fst (apply_filters "Vegetarian" "All" "All" example_world) = Returned shown.
Proof.
  split; [reflexivity|].
  eexists.
  exact (apply_filters_shows_the_matching_listings "Vegetarian" "All" "All"
           example_world example_db example_listings eq_refl eq_refl).
Defined.

Lemma apply_filters_shows_a_failure_as_no_match_witness :
  disk no_storage_world = None /\
  fst (apply_filters "Vegetarian" "Lunch" "All" no_storage_world)
  = Returned (st_warning "No food items match the selected criteria").
Proof.
  split; [reflexivity|].
  exact (apply_filters_shows_a_failure_as_no_match "Vegetarian" "Lunch" "All"
           no_storage_world I).
Defined.

Lemma export_data_to_csv_returns_nothing_after_a_partial_export_witness :
  makedirs_error example_site "exports" = None /\
  exists s1,
    fst (export_data_to_csv "exports" example_site)
    = Returned ["exports/providers_export.csv"; "exports/receivers_export.csv";
                "exports/food_listings_export.csv"; "exports/claims_export.csv"] /\
    snd (export_data_to_csv "exports" example_site) = s1 /\
    List.length (csv_files_written s1) = 4%nat.
Proof.
  split; [reflexivity|].
  destruct (export_data_to_csv_returns_nothing_after_a_partial_export "exports"
              example_site example_db eq_refl eq_refl) as (s1 & H & Hw & _).
  exists s1. rewrite H. split; [reflexivity|]. split; [reflexivity|].
  rewrite Hw. reflexivity.
Defined.


Lemma backups_at_different_times_keep_each_other_witness :
  strftime_now example_site_a_second_later <> strftime_now example_site /\
  exists s1',
    snd (backup_database None example_site_a_second_later) = s1' /\
    db_files s1' "food_waste_backup_20250317_120000.db" = Some example_db /\
    db_files s1' "food_waste_backup_20250317_120001.db" = Some example_db.
Proof.
  assert (Hne : strftime_now example_site_a_second_later <> strftime_now example_site)
    by discriminate.
  split; [exact Hne|].
  destruct (backups_at_different_times_keep_each_other example_site
              example_site_a_second_later example_db example_db no_tables no_tables
              eq_refl eq_refl eq_refl eq_refl eq_refl Hne)
    as (s1 & s1' & _ & H' & _ & Hfirst & Hsecond).
  exists s1'. rewrite H'. split; [reflexivity|]. split; assumption.
Defined.

Lemma food_waste_project_main_always_reports_completion_witness :
  makedirs_error example_site "database" = None /\
  exists s1, food_waste_project_main example_site = (Returned tt, s1).
Proof.
  split; [reflexivity|].
  destruct (food_waste_project_main_always_reports_completion example_site eq_refl)
    as (s1 & line1 & line2 & H & _).
  exists s1. exact H.
Defined.

Lemma todays_listing_not_negative :
  no_negative_quantity (rows_of (food_listings todays_db)).
Proof.
  unfold no_negative_quantity. cbn [rows_of food_listings todays_db].
  apply Forall_cons; [cbn; lia|]. apply Forall_nil.
Defined.

Lemma get_database_stats_after_create_tables_witness :
  disk todays_world = Some todays_db /\
  no_negative_quantity (rows_of (food_listings todays_db)) /\
  exists w1 stats w2,
    create_tables todays_world = (Returned tt, w1) /\
    get_database_stats w1 = (Returned stats, w2) /\
    dict_get "food_listings_count" stats = Some (a_count 1).
Proof.
  split; [reflexivity|]. split; [exact todays_listing_not_negative|].
  destruct (proj1 (get_database_stats_after_create_tables todays_world todays_db eq_refl
                     todays_listing_not_negative)
              ltac:(vm_compute; discriminate))
    as (w1 & stats & w2 & H1 & H2 & _ & _ & _ & _ & Hf & _).
  exists w1, stats, w2. repeat split; assumption.
Defined.

Lemma example_quantities_at_most_10 (fl : FoodListing.row) :
  In fl example_listings -> 0 <= FoodListing.Quantity fl <= 10.
Proof. intros [<-|[<-|[<-|[]]]]; cbn; lia. Defined.

Lemma get_all_queries_results_is_quiet_when_the_tables_are_there_witness :
  disk example_world = Some example_db /\
  10 * joined_rows_at_most example_providers [receiver 1 "R"] example_listings
         example_claims <= largest_integer /\
  exists results w1,
    get_all_queries_results iso_julianday example_world = (Returned results, w1) /\
    stdout w1 = [].
Proof.
  assert (Hfit : 10 * joined_rows_at_most example_providers [receiver 1 "R"]
                        example_listings example_claims <= largest_integer)
    by (vm_compute; discriminate).
  split; [reflexivity|]. split; [exact Hfit|].
  destruct (get_all_queries_results_is_quiet_when_the_tables_are_there iso_julianday
              example_world example_db example_providers [receiver 1 "R"]
              example_listings example_claims 10
              eq_refl eq_refl eq_refl eq_refl eq_refl
              example_quantities_at_most_10 ltac:(lia) Hfit)
    as (results & w1 & H & _ & Hout & _).
  exists results, w1. split; [exact H|exact Hout].
Defined.

